(** * fliptest: the lifecycle of the VPC egress tester

    A shallow embedding of [fliptest.go] (package [fliptest]): the
    constructor [New], the result validator [checkResults], the probe call
    [callLamda], the Cloudformation operations [CreateStack],
    [watchStack], [getStackInfo], [DeleteStack], and the orchestrating
    method [Test].

    The AWS services, the file system, the clock and the random source are
    the environment: a record [Env] of functions from the history of
    requests made so far to the answer of the current one.  Every request
    the package sends is appended to a trace of [Event]s, so that "create
    is never called" or "delete is called" are statements about traces.

    Go values are rendered as follows.
    - [error]: only [err.Error()] is ever observed, so an error is its
      message; a nil error is [None].
    - [*string] fields of SDK answers are taken to be non-nil, as the SDK
      delivers them, and are plain strings.
    - [[]*TestResult] is a list of results (no nil element).
    - [float64] is Rocq's primitive binary64 float.
    - [int] is [Z]; the sleeps record the number of seconds the source
      passes to [time.Duration].
    - a run-time panic is the [Panic] result of the monad [M]. *)

From Stdlib Require Import String Ascii List ZArith Lia Bool PrimFloat DecimalString.
Import ListNotations.

Local Open Scope string_scope.
Local Open Scope list_scope.
Local Open Scope Z_scope.

Set Implicit Arguments.

(** ** Strings *)

Module strings.

(** [strings.Contains(s, substr)] *)
Fixpoint Contains (s substr : string) : bool :=
  if String.prefix substr s then true
  else match s with
       | EmptyString => false
       | String _ s' => Contains s' substr
       end.

(** [strings.Join(elems, sep)] *)
Definition Join (elems : list string) (sep : string) : string :=
  String.concat sep elems.

End strings.

Module fmt.

(** The verb [%d] on an [int]. *)
Definition d (n : Z) : string := NilZero.string_of_int (Z.to_int n).

Fixpoint zeros (n : nat) : string :=
  match n with
  | O => EmptyString
  | S n' => String "0"%char (zeros n')
  end.

(** The verb [%08d]: zero padding to width 8, the sign counted in the
    width and written before the zeros. *)
Definition d08 (n : Z) : string :=
  let digits := NilZero.string_of_uint (N.to_uint (Z.abs_N n)) in
  let sign := if n <? 0 then "-" else EmptyString in
  let used := (String.length sign + String.length digits)%nat in
  String.append sign (String.append (zeros (8 - used)%nat) digits).

End fmt.

(** ** Data model *)

(** A Go [error], seen through [err.Error()]. *)
Definition error : Type := string.

(** [*session.Session]: the package only stores the pointer and hands it
    to the SDK constructors. *)
Inductive Session : Type :=
| mkSession (profile : string).

Module TestUrl.
Record t : Type := mk { Name : string; Url : string }.
End TestUrl.

Module TestResult.
Record t : Type := mk {
  Name : string;
  ElapsedTimeS : float;
  Message : string;
  Success : bool;
  Url : string;
  ResponseCode : Z
}.
End TestResult.

Record lambdaEvent : Type := mkLambdaEvent {
  RequestType : string;
  leTestUrls : list TestUrl.t
}.

Module FlipTesterInput.
Record t : Type := mk {
  SubnetId : string;
  VpcId : string;
  StackPrefix : string;
  StackTemplateFilename : string;
  StackName : string;
  TestUrls : list TestUrl.t;
  RetainStack : bool;
  Session : option Session;
  Context : string;
  InitialSleepTimeSeconds : Z;
  PostEventSleepTimeSeconds : Z
}.
End FlipTesterInput.

Module FlipTester.
Record t : Type := mk {
  subnetId : string;
  vpcId : string;
  stackPrefix : string;
  stackTemplateFilename : string;
  TestUrls : list TestUrl.t;
  TestResults : list TestResult.t;
  testEvent : option lambdaEvent;
  Passed : bool;
  sess : option Session;
  RetainStack : bool;
  stackCreated : bool;
  StackName : string;
  functionName : string;
  log : list string;
  context : string;
  initialSleepTimeSeconds : Z;
  postEventSleepTimeSeconds : Z
}.

(** The zero value [FlipTester{}]. *)
Definition zero : t :=
  mk "" "" "" "" [] [] None false None false false "" "" [] "" 0 0.

Definition set_subnetId (v : string) (ft : t) : t :=
  mk v (vpcId ft) (stackPrefix ft) (stackTemplateFilename ft) (TestUrls ft)
     (TestResults ft) (testEvent ft) (Passed ft) (sess ft) (RetainStack ft)
     (stackCreated ft) (StackName ft) (functionName ft) (log ft) (context ft)
     (initialSleepTimeSeconds ft) (postEventSleepTimeSeconds ft).

Definition set_vpcId (v : string) (ft : t) : t :=
  mk (subnetId ft) v (stackPrefix ft) (stackTemplateFilename ft) (TestUrls ft)
     (TestResults ft) (testEvent ft) (Passed ft) (sess ft) (RetainStack ft)
     (stackCreated ft) (StackName ft) (functionName ft) (log ft) (context ft)
     (initialSleepTimeSeconds ft) (postEventSleepTimeSeconds ft).

Definition set_stackPrefix (v : string) (ft : t) : t :=
  mk (subnetId ft) (vpcId ft) v (stackTemplateFilename ft) (TestUrls ft)
     (TestResults ft) (testEvent ft) (Passed ft) (sess ft) (RetainStack ft)
     (stackCreated ft) (StackName ft) (functionName ft) (log ft) (context ft)
     (initialSleepTimeSeconds ft) (postEventSleepTimeSeconds ft).

Definition set_stackTemplateFilename (v : string) (ft : t) : t :=
  mk (subnetId ft) (vpcId ft) (stackPrefix ft) v (TestUrls ft)
     (TestResults ft) (testEvent ft) (Passed ft) (sess ft) (RetainStack ft)
     (stackCreated ft) (StackName ft) (functionName ft) (log ft) (context ft)
     (initialSleepTimeSeconds ft) (postEventSleepTimeSeconds ft).

Definition set_TestResults (v : list TestResult.t) (ft : t) : t :=
  mk (subnetId ft) (vpcId ft) (stackPrefix ft) (stackTemplateFilename ft)
     (TestUrls ft) v (testEvent ft) (Passed ft) (sess ft) (RetainStack ft)
     (stackCreated ft) (StackName ft) (functionName ft) (log ft) (context ft)
     (initialSleepTimeSeconds ft) (postEventSleepTimeSeconds ft).

Definition set_testEvent (v : option lambdaEvent) (ft : t) : t :=
  mk (subnetId ft) (vpcId ft) (stackPrefix ft) (stackTemplateFilename ft)
     (TestUrls ft) (TestResults ft) v (Passed ft) (sess ft) (RetainStack ft)
     (stackCreated ft) (StackName ft) (functionName ft) (log ft) (context ft)
     (initialSleepTimeSeconds ft) (postEventSleepTimeSeconds ft).

Definition set_Passed (v : bool) (ft : t) : t :=
  mk (subnetId ft) (vpcId ft) (stackPrefix ft) (stackTemplateFilename ft)
     (TestUrls ft) (TestResults ft) (testEvent ft) v (sess ft) (RetainStack ft)
     (stackCreated ft) (StackName ft) (functionName ft) (log ft) (context ft)
     (initialSleepTimeSeconds ft) (postEventSleepTimeSeconds ft).

Definition set_sess (v : option Session) (ft : t) : t :=
  mk (subnetId ft) (vpcId ft) (stackPrefix ft) (stackTemplateFilename ft)
     (TestUrls ft) (TestResults ft) (testEvent ft) (Passed ft) v (RetainStack ft)
     (stackCreated ft) (StackName ft) (functionName ft) (log ft) (context ft)
     (initialSleepTimeSeconds ft) (postEventSleepTimeSeconds ft).

Definition set_RetainStack (v : bool) (ft : t) : t :=
  mk (subnetId ft) (vpcId ft) (stackPrefix ft) (stackTemplateFilename ft)
     (TestUrls ft) (TestResults ft) (testEvent ft) (Passed ft) (sess ft) v
     (stackCreated ft) (StackName ft) (functionName ft) (log ft) (context ft)
     (initialSleepTimeSeconds ft) (postEventSleepTimeSeconds ft).

Definition set_stackCreated (v : bool) (ft : t) : t :=
  mk (subnetId ft) (vpcId ft) (stackPrefix ft) (stackTemplateFilename ft)
     (TestUrls ft) (TestResults ft) (testEvent ft) (Passed ft) (sess ft)
     (RetainStack ft) v (StackName ft) (functionName ft) (log ft) (context ft)
     (initialSleepTimeSeconds ft) (postEventSleepTimeSeconds ft).

Definition set_StackName (v : string) (ft : t) : t :=
  mk (subnetId ft) (vpcId ft) (stackPrefix ft) (stackTemplateFilename ft)
     (TestUrls ft) (TestResults ft) (testEvent ft) (Passed ft) (sess ft)
     (RetainStack ft) (stackCreated ft) v (functionName ft) (log ft) (context ft)
     (initialSleepTimeSeconds ft) (postEventSleepTimeSeconds ft).

Definition set_functionName (v : string) (ft : t) : t :=
  mk (subnetId ft) (vpcId ft) (stackPrefix ft) (stackTemplateFilename ft)
     (TestUrls ft) (TestResults ft) (testEvent ft) (Passed ft) (sess ft)
     (RetainStack ft) (stackCreated ft) (StackName ft) v (log ft) (context ft)
     (initialSleepTimeSeconds ft) (postEventSleepTimeSeconds ft).

Definition set_log (v : list string) (ft : t) : t :=
  mk (subnetId ft) (vpcId ft) (stackPrefix ft) (stackTemplateFilename ft)
     (TestUrls ft) (TestResults ft) (testEvent ft) (Passed ft) (sess ft)
     (RetainStack ft) (stackCreated ft) (StackName ft) (functionName ft) v
     (context ft) (initialSleepTimeSeconds ft) (postEventSleepTimeSeconds ft).

Definition set_context (v : string) (ft : t) : t :=
  mk (subnetId ft) (vpcId ft) (stackPrefix ft) (stackTemplateFilename ft)
     (TestUrls ft) (TestResults ft) (testEvent ft) (Passed ft) (sess ft)
     (RetainStack ft) (stackCreated ft) (StackName ft) (functionName ft) (log ft)
     v (initialSleepTimeSeconds ft) (postEventSleepTimeSeconds ft).

Definition set_initialSleepTimeSeconds (v : Z) (ft : t) : t :=
  mk (subnetId ft) (vpcId ft) (stackPrefix ft) (stackTemplateFilename ft)
     (TestUrls ft) (TestResults ft) (testEvent ft) (Passed ft) (sess ft)
     (RetainStack ft) (stackCreated ft) (StackName ft) (functionName ft) (log ft)
     (context ft) v (postEventSleepTimeSeconds ft).

Definition set_postEventSleepTimeSeconds (v : Z) (ft : t) : t :=
  mk (subnetId ft) (vpcId ft) (stackPrefix ft) (stackTemplateFilename ft)
     (TestUrls ft) (TestResults ft) (testEvent ft) (Passed ft) (sess ft)
     (RetainStack ft) (stackCreated ft) (StackName ft) (functionName ft) (log ft)
     (context ft) (initialSleepTimeSeconds ft) v.

End FlipTester.

(** ** The Cloudformation and Lambda interface *)

Module cloudformation.

Record Output : Type := mkOutput { OutputKey : string; OutputValue : string }.

Record Stack : Type := mkStack {
  StackName : string;
  StackStatus : string;
  Outputs : list Output
}.

Record StackParameter : Type := mkStackParameter {
  ParameterKey : string;
  ParameterValue : string
}.

Record CreateStackInput : Type := mkCreateStackInput {
  TimeoutInMinutes : Z;
  csStackName : string;
  TemplateBody : string;
  Capabilities : list string;
  Parameters : list StackParameter
}.

End cloudformation.

(** The requests the package sends, in the order it sends them. *)
Inductive Event : Type :=
| EvSessionNew
| EvReadFile (filename : string)
| EvCreateStack (input : cloudformation.CreateStackInput)
| EvDescribeStacks (stackName : string)
| EvDeleteStack (stackName : string)
| EvInvoke (functionName : string) (payload : option lambdaEvent)
| EvSleep (seconds : Z).

(** What [svcL.Invoke] followed by [json.Unmarshal] can produce: a failed
    call, a payload that does not decode (with whatever was decoded before
    the error), or the decoded results. *)
Inductive InvokeResponse : Type :=
| InvokeError (e : error)
| InvokeMalformed (e : error) (partial : list TestResult.t)
| InvokeResults (results : list TestResult.t).

(** The environment.  Each function receives the trace up to and including
    the request it answers. *)
Record Env : Type := mkEnv {
  (** the text of [defaultTemplate] (fliptestTemplateIgnoreSSL.go) *)
  defaultTemplate : string;
  (** [time.Now().Format(time.RFC3339)], read when the log already holds
      the given number of entries *)
  now : list Event -> nat -> string;
  (** [rand.Intn(10000000)] after [rand.Seed(time.Now().UnixNano())] *)
  randIntn : list Event -> Z;
  (** [ioutil.ReadFile]: the bytes read and the error *)
  ReadFile : list Event -> string * option error;
  (** [svc.CreateStack]: the [StackId] of the answer, or the error *)
  cfCreateStack : list Event -> string + error;
  (** [svc.DescribeStacks]: the [Stacks] of the answer, or the error *)
  cfDescribeStacks : list Event -> list cloudformation.Stack + error;
  (** [svc.DeleteStack] *)
  cfDeleteStack : list Event -> option error;
  (** [svcL.Invoke] and the decoding of its payload *)
  lambdaInvoke : list Event -> InvokeResponse
}.

(** ** The monad of methods on [*FlipTester] *)

Record State : Type := mkState {
  self : FlipTester.t;
  trace : list Event
}.

Inductive Res (A : Type) : Type :=
| Ok (a : A) (s : State)
| Panic (msg : string) (s : State).

Arguments Panic {A} msg s.

Definition M (A : Type) : Type := State -> Res A.

Definition ret {A : Type} (a : A) : M A := fun s => Ok a s.

Definition bind {A B : Type} (m : M A) (k : A -> M B) : M B :=
  fun s =>
    match m s with
    | Ok a s' => k a s'
    | Panic msg s' => Panic msg s'
    end.

Declare Scope go_scope.
Delimit Scope go_scope with go.
Notation "x <- m ;; k" := (bind m (fun x => k))
  (at level 61, m at next level, right associativity) : go_scope.
Notation "' pat <- m ;; k" :=
  (bind m (fun x => match x with pat => k end))
  (at level 61, pat pattern, m at next level, right associativity) : go_scope.
Notation "m ;; k" := (bind m (fun _ => k))
  (at level 61, right associativity) : go_scope.
Local Open Scope go_scope.

Definition panic {A : Type} (msg : string) : M A := fun s => Panic msg s.

(** Read a field of the receiver. *)
Definition field {A : Type} (f : FlipTester.t -> A) : M A :=
  fun s => Ok (f (self s)) s.

(** Assign to the receiver. *)
Definition assign (f : FlipTester.t -> FlipTester.t) : M unit :=
  fun s => Ok tt (mkState (f (self s)) (trace s)).

(** Record a request and return the trace that the environment answers. *)
Definition request (e : Event) : M (list Event) :=
  fun s => let tr := trace s ++ [e] in Ok tr (mkState (self s) tr).

Definition history : M (list Event) := fun s => Ok (trace s) s.

Definition res_state {A : Type} (r : Res A) : State :=
  match r with
  | Ok _ s => s
  | Panic _ s => s
  end.

Definition nilDereference : string :=
  "runtime error: invalid memory address or nil pointer dereference".

(** ** The package, method by method *)

Definition DefaultStackPrefix : string := "ISS-GR-egress-tester-".

Section Package.

Variable env : Env.

(** [time.Sleep(time.Second * time.Duration(float64(seconds)))] *)
Definition sleep (seconds : Z) : M unit :=
  request (EvSleep seconds) ;; ret tt.

Definition logEntry (tString context stackName msg : string) : string :=
  String.concat ""
    [tString; ": Context: '"; context; "', StackName: '"; stackName;
     "', Message: '"; msg; "'"].

Definition logMessage (msg : string) : M unit :=
  tr <- history ;;
  assign (fun ft =>
    let tString := now env tr (length (FlipTester.log ft)) in
    let rMsg := logEntry tString (FlipTester.context ft)
                         (FlipTester.StackName ft) msg in
    FlipTester.set_log (FlipTester.log ft ++ [rMsg]) ft).

Definition getTemplateBody : M (string * option error) :=
  filename <- field FlipTester.stackTemplateFilename ;;
  if String.eqb filename "" then ret (defaultTemplate env, None)
  else
    tr <- request (EvReadFile filename) ;;
    ret (ReadFile env tr).

Definition maxTime : float := 6%float.

(** [checkResults]: the [for ... range] loop is the recursion on the list;
    [ok] starts as [true] and [err] as nil. *)
Fixpoint checkResults (results : list TestResult.t) : M (bool * option error) :=
  match results with
  | [] => ret (true, None)
  | result :: rest =>
      if negb (TestResult.Success result) then
        let msg := String.append "test failed: " (TestResult.Url result) in
        logMessage msg ;;
        ret (false, Some msg)
      else if PrimFloat.ltb maxTime (TestResult.ElapsedTimeS result) then
        let msg := String.append "test took too long: " (TestResult.Url result) in
        logMessage msg ;;
        ret (false, Some msg)
      else checkResults rest
  end.

Definition getStackInfo : M (option error) :=
  name <- field FlipTester.StackName ;;
  tr <- request (EvDescribeStacks name) ;;
  match cfDescribeStacks env tr with
  | inr e => ret (Some e)
  | inl [] => ret (Some "could not find stack with provided StackName")
  | inl (stack0 :: _) =>
      match cloudformation.Outputs stack0 with
      | [] => ret (Some "no outputs detected on provided StackName")
      | output0 :: _ =>
          if String.eqb (cloudformation.OutputKey output0) "FunctionName" then
            assign (FlipTester.set_functionName
                      (cloudformation.OutputValue output0)) ;;
            ret None
          else
            ret (Some "error getting FunctionName output from existing stack")
      end
  end.

(** [callLamda].  [json.Marshal] of a [*lambdaEvent] (strings and a slice
    of structs of strings) has no failing case, so the payload is the event
    itself. *)
Definition callLamda : M (option error) :=
  logMessage "inside callLambda" ;;
  err <- getStackInfo ;;
  match err with
  | Some e => ret (Some e)
  | None =>
      logMessage "preparing test event" ;;
      payload <- field FlipTester.testEvent ;;
      seconds <- field FlipTester.postEventSleepTimeSeconds ;;
      logMessage (String.concat ""
                    ["sleeping "; fmt.d seconds; "s before invoking lambda"]) ;;
      sleep seconds ;;
      logMessage "invoking lambda" ;;
      functionName <- field FlipTester.functionName ;;
      tr <- request (EvInvoke functionName payload) ;;
      match lambdaInvoke env tr with
      | InvokeError e => ret (Some e)
      | InvokeMalformed e partial =>
          assign (FlipTester.set_TestResults partial) ;;
          ret (Some e)
      | InvokeResults results =>
          assign (FlipTester.set_TestResults results) ;;
          logMessage "checking results for timing" ;;
          results <- field FlipTester.TestResults ;;
          '(_, err) <- checkResults results ;;
          let err := match err with
                     | Some _ => Some "tests failed or took too long"
                     | None => None
                     end in
          logMessage "tests passed" ;;
          ret err
      end
  end.

Definition DeleteStack : M (option error) :=
  name <- field FlipTester.StackName ;;
  tr <- request (EvDeleteStack name) ;;
  ret (cfDeleteStack env tr).

(** The body of the [for] loop of [watchStack], run for [count = 1, ...,
    tries]; the loop is left by [break] when [count > maxtries], and the
    [err] returned after the loop is the named result, which nothing
    assigns (the [err] inside the loop is a new variable declared by
    [:=]). *)
Fixpoint watchStack_loop (stackID : string) (tries : nat)
    (stack : option cloudformation.Stack)
    : M (option cloudformation.Stack * option error) :=
  match tries with
  | O => ret (stack, None)
  | S tries' =>
      logMessage "waiting on stack" ;;
      tr <- request (EvDescribeStacks stackID) ;;
      match cfDescribeStacks env tr with
      | inr e => ret (stack, Some e)
      | inl [] => ret (stack, Some "not enough stacks in describe")
      | inl (stack0 :: _) =>
          let status := cloudformation.StackStatus stack0 in
          if String.eqb status "CREATE_COMPLETE" then ret (Some stack0, None)
          else if String.eqb status "ROLLBACK_IN_PROGRESS" then ret (Some stack0, None)
          else if String.eqb status "ROLLBACK_COMPLETE" then ret (Some stack0, None)
          else if String.eqb status "DELETE_IN_PROGRESS" then ret (Some stack0, None)
          else if String.eqb status "DELETE_COMPLETE" then ret (Some stack0, None)
          else if String.eqb status "CREATE_FAILED" then ret (Some stack0, None)
          else if String.eqb status "DELETE_FAILED" then ret (Some stack0, None)
          else
            sleep 10 ;;
            watchStack_loop stackID tries' (Some stack0)
      end
  end.

Definition watchStack (stackID : string) (maxtries : Z)
    : M (option cloudformation.Stack * option error) :=
  watchStack_loop stackID (Z.to_nat maxtries) None.

Definition CreateStack : M (option error) :=
  logMessage "loading template file" ;;
  '(templateBody, err) <- getTemplateBody ;;
  match err with
  | Some e => ret (Some e)
  | None =>
      tr <- history ;;
      let rando := fmt.d08 (randIntn env tr) in
      stackPrefix <- field FlipTester.stackPrefix ;;
      let stackName := String.append stackPrefix rando in
      subnetId <- field FlipTester.subnetId ;;
      vpcId <- field FlipTester.vpcId ;;
      let input :=
        cloudformation.mkCreateStackInput 15 stackName templateBody
          ["CAPABILITY_IAM"; "CAPABILITY_NAMED_IAM"]
          [cloudformation.mkStackParameter "SubnetId" subnetId;
           cloudformation.mkStackParameter "VpcId" vpcId] in
      logMessage (String.concat ""
                    ["creating stack with name '"; stackName; "'"]) ;;
      tr <- request (EvCreateStack input) ;;
      match cfCreateStack env tr with
      | inr e => ret (Some e)
      | inl stackID =>
          assign (FlipTester.set_StackName stackID) ;;
          sleep 5 ;;
          '(stack, err) <- watchStack stackID 90 ;;
          match err with
          | Some e => ret (Some e)
          | None =>
              match stack with
              | None => panic nilDereference
              | Some st =>
                  assign (FlipTester.set_StackName (cloudformation.StackName st)) ;;
                  assign (FlipTester.set_stackCreated true) ;;
                  ret None
              end
          end
      end
  end.

(** [Test], lines 441-454: [for i := 0; i < 5; i++], with [n] the number
    of iterations still to run and [err] the variable the loop updates. *)
Fixpoint Test_retry (n : nat) (err : option error) : M (option error) :=
  match n with
  | O => ret err
  | S n' =>
      err' <- match err with
              | Some e =>
                  if strings.Contains e "Service" then
                    logMessage "service exception, sleeping and trying lambda again" ;;
                    sleep 10 ;;
                    callLamda
                  else ret err
              | None => ret err
              end ;;
      Test_retry n' err'
  end.

(** [Test], lines 423-430.  The result is the [err] variable; [Some e]
    is returned by [Test] at once. *)
Definition Test_provision : M (option error) :=
  stackCreated <- field FlipTester.stackCreated ;;
  if negb stackCreated then
    logMessage "stack doesn't exist yet, creating stack" ;;
    CreateStack
  else ret None.

(** [Test], lines 431-459.  [Some e] stands for the [return err] of line
    456; [None] for reaching line 460, where [err] is nil. *)
Definition Test_invoke : M (option error) :=
  stackCreated <- field FlipTester.stackCreated ;;
  if stackCreated then
    seconds <- field FlipTester.initialSleepTimeSeconds ;;
    logMessage (String.concat ""
                  ["sleeping "; fmt.d seconds; " seconds before calling lambda"]) ;;
    sleep seconds ;;
    logMessage "calling lambda" ;;
    err <- callLamda ;;
    logMessage "called lambda, processing errors" ;;
    err <- Test_retry 5 err ;;
    match err with
    | Some e => ret (Some e)
    | None =>
        assign (FlipTester.set_Passed true) ;;
        ret None
    end
  else ret None.

(** [Test], lines 460-478, entered with [err] nil. *)
Definition Test_teardown : M (option error) :=
  retain <- field FlipTester.RetainStack ;;
  err <- (if negb retain then
            logMessage "deleting stack" ;;
            err <- DeleteStack ;;
            match err with
            | None => assign (FlipTester.set_stackCreated false)
            | Some _ => ret tt
            end ;;
            ret err
          else
            logMessage "retaining stack" ;;
            ret None) ;;
  match err with
  | Some e =>
      logMessage (String.append "errors: " e) ;;
      ret (Some e)
  | None =>
      logMessage "tests complete" ;;
      ret None
  end.

Definition Test : M (option error) :=
  logMessage "starting test" ;;
  err <- Test_provision ;;
  match err with
  | Some e => ret (Some e)
  | None =>
      err <- Test_invoke ;;
      match err with
      | Some e => ret (Some e)
      | None => Test_teardown
      end
  end.

Definition GetLog : M string :=
  log <- field FlipTester.log ;;
  ret (strings.Join log (String (ascii_of_nat 10) EmptyString)).

(** *** The constructor *)

Definition defaultTestUrls : list TestUrl.t :=
  [TestUrl.mk "gopkg.in" "https://gopkg.in";
   TestUrl.mk "google" "https://www.google.com";
   TestUrl.mk "time" "https://www.nist.gov"].

(** The defaults [New] writes back into [*input]. *)
Definition withDefaults (input : FlipTesterInput.t) : FlipTesterInput.t :=
  FlipTesterInput.mk
    (FlipTesterInput.SubnetId input) (FlipTesterInput.VpcId input)
    (FlipTesterInput.StackPrefix input)
    (FlipTesterInput.StackTemplateFilename input)
    (FlipTesterInput.StackName input) (FlipTesterInput.TestUrls input)
    (FlipTesterInput.RetainStack input) (FlipTesterInput.Session input)
    (if String.eqb (FlipTesterInput.Context input) "" then "Default"
     else FlipTesterInput.Context input)
    (if FlipTesterInput.InitialSleepTimeSeconds input =? 0 then 40
     else FlipTesterInput.InitialSleepTimeSeconds input)
    (if FlipTesterInput.PostEventSleepTimeSeconds input =? 0 then 20
     else FlipTesterInput.PostEventSleepTimeSeconds input).

(** Lines 104-171 of [New]: the receiver of the monad is the local [ft],
    which starts as [FlipTester{sess: input.Session}]; the named result
    [fliptester] is nil throughout, so the two early returns give
    [(None, Some err)]. *)
Definition New_build (input0 : FlipTesterInput.t)
    : M (option FlipTester.t * option error) :=
  let input := withDefaults input0 in
  assign (FlipTester.set_context (FlipTesterInput.Context input)) ;;
  assign (FlipTester.set_initialSleepTimeSeconds
            (FlipTesterInput.InitialSleepTimeSeconds input)) ;;
  assign (FlipTester.set_postEventSleepTimeSeconds
            (FlipTesterInput.PostEventSleepTimeSeconds input)) ;;
  early <- (if String.eqb (FlipTesterInput.StackName input) "" then
              if String.eqb (FlipTesterInput.SubnetId input) "" then
                ret (Some "SubnetId is a required input field if StackName is not supplied")
              else
                assign (FlipTester.set_subnetId (FlipTesterInput.SubnetId input)) ;;
                if String.eqb (FlipTesterInput.VpcId input) "" then
                  ret (Some "VpcId is a required input field if StackName is not supplied")
                else
                  assign (FlipTester.set_vpcId (FlipTesterInput.VpcId input)) ;;
                  (if String.eqb (FlipTesterInput.StackPrefix input) "" then
                     assign (FlipTester.set_stackPrefix DefaultStackPrefix)
                   else
                     assign (FlipTester.set_stackPrefix
                               (FlipTesterInput.StackPrefix input))) ;;
                  assign (FlipTester.set_stackTemplateFilename
                            (FlipTesterInput.StackTemplateFilename input)) ;;
                  ret None
            else
              logMessage "using existing stack" ;;
              assign (FlipTester.set_StackName (FlipTesterInput.StackName input)) ;;
              assign (FlipTester.set_stackCreated true) ;;
              ret None) ;;
  match early with
  | Some e => ret (None, Some e)
  | None =>
      assign (FlipTester.set_RetainStack (FlipTesterInput.RetainStack input)) ;;
      (if (length (FlipTesterInput.TestUrls input) <? 1)%nat then
         assign (FlipTester.set_testEvent
                   (Some (mkLambdaEvent "RunAll" ([] ++ defaultTestUrls))))
       else
         assign (FlipTester.set_testEvent
                   (Some (mkLambdaEvent "RunAll" (FlipTesterInput.TestUrls input))))) ;;
      ft <- field (fun ft => ft) ;;
      ret (Some ft, None)
  end.

(** What a call of [New] leaves behind: the two results and [*input], or
    a panic. *)
Inductive NewResult : Type :=
| NewReturned (fliptester : option FlipTester.t) (err : option error)
              (input : FlipTesterInput.t) (tr : list Event)
| NewPanicked (msg : string) (tr : list Event).

(** [New].  With a nil [input.Session], line 102 evaluates [session.New()]
    and then stores through [fliptester], the named result, which is nil:
    the store panics.  Line 104 has not run yet. *)
Definition New (input : FlipTesterInput.t) (tr : list Event) : NewResult :=
  match FlipTesterInput.Session input with
  | None => NewPanicked nilDereference (tr ++ [EvSessionNew])
  | Some _ =>
      let ft := FlipTester.set_sess (FlipTesterInput.Session input) FlipTester.zero in
      match New_build input (mkState ft tr) with
      | Ok (fliptester, err) s => NewReturned fliptester err (withDefaults input) (trace s)
      | Panic msg s => NewPanicked msg (trace s)
      end
  end.

End Package.

(** ** The later revision of the validator

    [examples_test.go] carries a later revision of the package, whose
    [checkResults] (lines 791-810) returns a single error and starts with
    a guard on the length of the list. *)

Module Revised.

Section Package.

Variable env : Env.

Fixpoint checkResults_loop (results : list TestResult.t) : M (option error) :=
  match results with
  | [] => ret None
  | result :: rest =>
      if negb (TestResult.Success result) then
        let msg := String.append "test failed: " (TestResult.Url result) in
        logMessage env msg ;;
        ret (Some msg)
      else if PrimFloat.ltb maxTime (TestResult.ElapsedTimeS result) then
        let msg := String.append "test took too long: " (TestResult.Url result) in
        logMessage env msg ;;
        ret (Some msg)
      else checkResults_loop rest
  end.

Definition checkResults (results : list TestResult.t) : M (option error) :=
  if (length results <? 1)%nat then
    let msg := "tests failed; no test results to check" in
    logMessage env msg ;;
    ret (Some msg)
  else checkResults_loop results.

End Package.

End Revised.

(** ** Vocabulary of the statements

    A method relates the state it starts in to the state it leaves
    behind, whether it returns or panics.  [adds P m] says that [m]
    extends the trace by a list of requests satisfying [P]; [keeps f m]
    says that [m] leaves the field [f] of the receiver alone. *)

Definition adds {A : Type} (P : list Event -> Prop) (m : M A) : Prop :=
  forall s, exists evs,
    trace (res_state (m s)) = trace s ++ evs /\ P evs.

Definition keeps {A F : Type} (f : FlipTester.t -> F) (m : M A) : Prop :=
  forall s, f (self (res_state (m s))) = f (self s).

(** Only requests accepted by [p] are sent. *)
Definition only {A : Type} (p : Event -> bool) (m : M A) : Prop :=
  adds (fun evs => forallb p evs = true) m.

Definition isCreate (e : Event) : bool :=
  match e with EvCreateStack _ => true | _ => false end.

Definition isDelete (e : Event) : bool :=
  match e with EvDeleteStack _ => true | _ => false end.

Definition isInvoke (e : Event) : bool :=
  match e with EvInvoke _ _ => true | _ => false end.

Definition isDescribe (e : Event) : bool :=
  match e with EvDescribeStacks _ => true | _ => false end.

(** The requests of a run against an existing stack. *)
Definition describeInvokeDelete (e : Event) : bool :=
  match e with
  | EvDescribeStacks _ | EvInvoke _ _ | EvDeleteStack _ | EvSleep _ => true
  | _ => false
  end.

Definition notDelete (e : Event) : bool := negb (isDelete e).

(** A result that the validator rejects, and the message it is rejected
    with. *)
Definition violates (r : TestResult.t) : bool :=
  negb (TestResult.Success r) || PrimFloat.ltb maxTime (TestResult.ElapsedTimeS r).

Definition violation (r : TestResult.t) : string :=
  if negb (TestResult.Success r)
  then String.append "test failed: " (TestResult.Url r)
  else String.append "test took too long: " (TestResult.Url r).

(** The transient signature of [Test]: a non-nil error whose message
    contains "Service". *)
Definition transient (err : option error) : bool :=
  match err with
  | Some e => strings.Contains e "Service"
  | None => false
  end.

(** The number of requests of one kind in a list of requests. *)
Definition sent (p : Event -> bool) (evs : list Event) : nat :=
  length (filter p evs).

(** The statuses on which [watchStack] returns, and those among them that
    are not [CREATE_COMPLETE]. *)
Definition failureStatus (status : string) : bool :=
  existsb (String.eqb status)
    ["ROLLBACK_IN_PROGRESS"; "ROLLBACK_COMPLETE"; "CREATE_FAILED";
     "DELETE_IN_PROGRESS"; "DELETE_COMPLETE"; "DELETE_FAILED"].

Definition terminalStatus (status : string) : bool :=
  String.eqb status "CREATE_COMPLETE" || failureStatus status.

(** At most [k] requests of the kind [p] are sent. *)
Definition atmost {A : Type} (p : Event -> bool) (k : nat) (m : M A) : Prop :=
  adds (fun evs => (sent p evs <= k)%nat) m.

Definition notInvoke (e : Event) : bool := negb (isInvoke e).

Definition isRetrySleep (e : Event) : bool :=
  match e with EvSleep 10 => true | _ => false end.

(** [Test] up to line 430: the first log entry and the provisioning. *)
Definition Test_start (env : Env) : M (option error) :=
  (logMessage env "starting test" ;; Test_provision env)%go.

(** Partial correctness of a method started in [s]: if it returns, the
    result and the state it leaves behind satisfy [Q]. *)
Definition wp {A : Type} (m : M A) (Q : A -> State -> Prop) (s : State) : Prop :=
  match m s with
  | Ok a s' => Q a s'
  | Panic _ _ => True
  end.

(** The error [r] reports a failed validation: when the last request of
    the trace is an [Invoke] that was answered with results among which
    one violates the policy, [r] is the validation error of [callLamda]
    and the answer is what [TestResults] holds. *)
Definition reported (env : Env) (r : option error) (s : State) : Prop :=
  forall tr0 fn payload results,
    trace s = tr0 ++ [EvInvoke fn payload] ->
    lambdaInvoke env (trace s) = InvokeResults results ->
    existsb violates results = true ->
    r = Some "tests failed or took too long" /\
    FlipTester.TestResults (self s) = results.

(** A nil error stands for validated results. *)
Definition validated (r : option error) (s : State) : Prop :=
  r = None -> existsb violates (FlipTester.TestResults (self s)) = false.

(** ** Scenarios *)

Module Scenario.

Definition stackName : string := "ISS-GR-egress-tester-00714632".

Definition stackId : string :=
  "arn:aws:cloudformation:stack/ISS-GR-egress-tester-00714632".

Definition stackWith (status : string) : cloudformation.Stack :=
  cloudformation.mkStack stackName status
    [cloudformation.mkOutput "FunctionName" "egress-tester"].

Definition passing : TestResult.t :=
  TestResult.mk "gopkg.in" 0.5%float "ok" true "https://gopkg.in" 200.

Definition failing : TestResult.t :=
  TestResult.mk "cnn" 0.5%float "timed out" false "https://www.cnn.com/" 0.

Definition slow : TestResult.t :=
  TestResult.mk "mysite" 7.25%float "ok" true "http://www.mysite.org/getdata/" 200.

(** An account in which every request succeeds: stacks are described
    with the given status and the probe answers with the given results. *)
Definition account (status : string) (answer : InvokeResponse) : Env :=
  mkEnv "template"
        (fun _ _ => "2019-03-01T10:00:00Z")
        (fun _ => 714632)
        (fun _ => ("", None))
        (fun _ => inl stackId)
        (fun _ => inl [stackWith status])
        (fun _ => None)
        (fun _ => answer).

Definition session : Session := mkSession "account1".

(** The input of the first example of [examples_test.go]: resume a stack
    by name, do not retain it. *)
Definition resume : FlipTesterInput.t :=
  FlipTesterInput.mk "" "" "" "" stackName
    [TestUrl.mk "cnn" "https://www.cnn.com/";
     TestUrl.mk "mysite" "http://www.mysite.org/getdata/"]
    false (Some session) "" 0 0.

(** The input of the second example: a new stack, retained. *)
Definition fresh : FlipTesterInput.t :=
  FlipTesterInput.mk "subnet-d3297188" "vpc-c8a6c3ae" "" "" "" [] true
    (Some session) "" 0 0.

(** A fresh-provisioning input without session and without subnet. *)
Definition bare : FlipTesterInput.t :=
  FlipTesterInput.mk "" "vpc-c8a6c3ae" "" "" "" [] false None "" 0 0.

(** The tester that [New] returns, or the zero value. *)
Definition tester (env : Env) (input : FlipTesterInput.t) : FlipTester.t :=
  match New env input [] with
  | NewReturned (Some ft) _ _ _ => ft
  | _ => FlipTester.zero
  end.

Definition start (env : Env) (input : FlipTesterInput.t) : State :=
  mkState (tester env input) [].

End Scenario.

(** ** Further vocabulary *)

(** [m] extends the log by a list of entries satisfying [P]. *)
Definition logs {A : Type} (P : list string -> Prop) (m : M A) : Prop :=
  forall s, exists entries,
    FlipTester.log (self (res_state (m s))) = FlipTester.log (self s) ++ entries /\
    P entries.

(** [m] returns, with a result satisfying [Q]: it does not panic. *)
Definition returns {A : Type} (Q : A -> Prop) (m : M A) : Prop :=
  forall s, exists a s', m s = Ok a s' /\ Q a.

(** The requests of [k] rounds of [watchStack] that found the stack in a
    status the [switch] does not list. *)
Fixpoint polling (stackID : string) (k : nat) : list Event :=
  match k with
  | O => []
  | S k' => EvDescribeStacks stackID :: EvSleep 10 :: polling stackID k'
  end.

(** What one poll of [watchStack] decides, given the stack seen before:
    [None] when the loop goes round again. *)
Definition pollOutcome (answer : list cloudformation.Stack + error)
    (stack : option cloudformation.Stack)
    : option (option cloudformation.Stack * option error) :=
  match answer with
  | inr e => Some (stack, Some e)
  | inl [] => Some (stack, Some "not enough stacks in describe")
  | inl (stack0 :: _) =>
      if terminalStatus (cloudformation.StackStatus stack0)
      then Some (Some stack0, None)
      else None
  end.

(** The URLs of a tester's event. *)
Definition eventUrls (ft : FlipTester.t) : list TestUrl.t :=
  match FlipTester.testEvent ft with
  | Some ev => leTestUrls ev
  | None => []
  end.

(** The stack [watchStack] holds after [k] rounds that went round again,
    starting from [stack] with the trace [tr]. *)
Fixpoint seen (env : Env) (stackID : string) (tr : list Event)
    (stack : option cloudformation.Stack) (k : nat)
    : option cloudformation.Stack :=
  match k with
  | O => stack
  | S k' =>
      match cfDescribeStacks env (tr ++ [EvDescribeStacks stackID]) with
      | inl (stack0 :: _) =>
          seen env stackID (tr ++ [EvDescribeStacks stackID; EvSleep 10])
               (Some stack0) k'
      | _ => stack
      end
  end.

(** ** Further scenarios *)

Module Cases.

(** An account whose stack is found in [CREATE_IN_PROGRESS] by the first
    [pending] polls and in [CREATE_COMPLETE] from then on. *)
Definition readyAfter (pending : nat) : Env :=
  mkEnv "template"
        (fun _ _ => "2019-03-01T10:00:00Z")
        (fun _ => 714632)
        (fun _ => ("", None))
        (fun _ => inl Scenario.stackId)
        (fun tr =>
           if (sent isDescribe tr <=? pending)%nat
           then inl [Scenario.stackWith "CREATE_IN_PROGRESS"]
           else inl [Scenario.stackWith "CREATE_COMPLETE"])
        (fun _ => None)
        (fun _ => InvokeResults [Scenario.passing]).

(** An account in which the [CreateStack] request is refused. *)
Definition refusing : Env :=
  mkEnv "template"
        (fun _ _ => "2019-03-01T10:00:00Z")
        (fun _ => 714632)
        (fun _ => ("", None))
        (fun _ => inr "LimitExceededException: stack limit reached")
        (fun _ => inl [Scenario.stackWith "CREATE_COMPLETE"])
        (fun _ => None)
        (fun _ => InvokeResults [Scenario.passing]).

(** An account in which the stack is created and every
    [DescribeStacks] request fails. *)
Definition throttled : Env :=
  mkEnv "template"
        (fun _ _ => "2019-03-01T10:00:00Z")
        (fun _ => 714632)
        (fun _ => ("", None))
        (fun _ => inl Scenario.stackId)
        (fun _ => inr "Throttling: Rate exceeded")
        (fun _ => None)
        (fun _ => InvokeResults [Scenario.passing]).

(** An account in which the probe answers with passing results and the
    [DeleteStack] request is refused. *)
Definition undeletable : Env :=
  mkEnv "template"
        (fun _ _ => "2019-03-01T10:00:00Z")
        (fun _ => 714632)
        (fun _ => ("", None))
        (fun _ => inl Scenario.stackId)
        (fun _ => inl [Scenario.stackWith "CREATE_COMPLETE"])
        (fun _ => Some "AccessDenied: not authorized to perform DeleteStack")
        (fun _ => InvokeResults [Scenario.passing]).

End Cases.

(** The requests of a wait of at most [n] polls: [n] rounds that each went
    round again, or fewer rounds and the poll that decided. *)
Definition waited (stackID : string) (n : nat) (evs : list Event) : Prop :=
  evs = polling stackID n \/
  exists k, (k < n)%nat /\ evs = polling stackID k ++ [EvDescribeStacks stackID].

(** The requests by which [getTemplateBody] obtains the template. *)
Definition templateRead (ft : FlipTester.t) (evs : list Event) : Prop :=
  (FlipTester.stackTemplateFilename ft = "" /\ evs = []) \/
  (FlipTester.stackTemplateFilename ft <> "" /\
   evs = [EvReadFile (FlipTester.stackTemplateFilename ft)]).

(** How a call of [CreateStack] from [s] with result [r] ended in [s']:
    before a stack was requested, with a refused request, or after the
    wait for the stack with the id [stackID]. *)
Inductive CreateStackRun (env : Env) (s : State) (r : option error) (s' : State)
    : Prop :=
| TemplateNotRead (e : error) :
    r = Some e ->
    trace s' = trace s ++ [EvReadFile (FlipTester.stackTemplateFilename (self s))] ->
    snd (ReadFile env (trace s')) = Some e ->
    FlipTester.StackName (self s') = FlipTester.StackName (self s) ->
    FlipTester.stackCreated (self s') = FlipTester.stackCreated (self s) ->
    CreateStackRun env s r s'
| RequestRefused (e : error) (pre : list Event)
                 (input : cloudformation.CreateStackInput) :
    r = Some e ->
    templateRead (self s) pre ->
    trace s' = trace s ++ pre ++ [EvCreateStack input] ->
    cfCreateStack env (trace s') = inr e ->
    FlipTester.StackName (self s') = FlipTester.StackName (self s) ->
    FlipTester.stackCreated (self s') = FlipTester.stackCreated (self s) ->
    CreateStackRun env s r s'
| Waited (stackID : string) (pre post : list Event)
         (input : cloudformation.CreateStackInput) :
    templateRead (self s) pre ->
    cfCreateStack env (trace s ++ pre ++ [EvCreateStack input]) = inl stackID ->
    trace s' = trace s ++ pre ++ [EvCreateStack input; EvSleep 5] ++ post ->
    waited stackID 90 post ->
    (r <> None ->
     FlipTester.StackName (self s') = stackID /\
     FlipTester.stackCreated (self s') = FlipTester.stackCreated (self s)) ->
    (r = None -> FlipTester.stackCreated (self s') = true) ->
    CreateStackRun env s r s'.

(** ** More of the later revision

    Of the later revision of the package in [examples_test.go], the
    constructor (lines 639-709) and [callLamda] (lines 812-856).  Its
    [getStackInfo] (lines 918-943) is that of [fliptest.go] sent through
    the client [ft.cfSvc], and its validator is [Revised.checkResults]. *)

Module Later.

(** [*input] with [Session] replaced. *)
Definition withSession (sn : option Session) (input : FlipTesterInput.t)
    : FlipTesterInput.t :=
  FlipTesterInput.mk
    (FlipTesterInput.SubnetId input) (FlipTesterInput.VpcId input)
    (FlipTesterInput.StackPrefix input)
    (FlipTesterInput.StackTemplateFilename input)
    (FlipTesterInput.StackName input) (FlipTesterInput.TestUrls input)
    (FlipTesterInput.RetainStack input) sn
    (FlipTesterInput.Context input)
    (FlipTesterInput.InitialSleepTimeSeconds input)
    (FlipTesterInput.PostEventSleepTimeSeconds input).

Section Package.

Variable env : Env.

(** [session.NewSession()]: the session, or the error with a nil
    session. *)
Variable NewSession : Session + error.

Definition callLamda : M (option error) :=
  logMessage env "inside callLambda" ;;
  err <- getStackInfo env ;;
  match err with
  | Some e => ret (Some e)
  | None =>
      logMessage env "preparing test event" ;;
      payload <- field FlipTester.testEvent ;;
      seconds <- field FlipTester.postEventSleepTimeSeconds ;;
      logMessage env (String.concat ""
                        ["sleeping "; fmt.d seconds; "s before invoking lambda"]) ;;
      sleep seconds ;;
      logMessage env "invoking lambda" ;;
      functionName <- field FlipTester.functionName ;;
      tr <- request (EvInvoke functionName payload) ;;
      match lambdaInvoke env tr with
      | InvokeError e => ret (Some e)
      | InvokeMalformed e partial =>
          assign (FlipTester.set_TestResults partial) ;;
          ret (Some e)
      | InvokeResults results =>
          assign (FlipTester.set_TestResults results) ;;
          logMessage env "checking results for timing" ;;
          results <- field FlipTester.TestResults ;;
          err <- Revised.checkResults env results ;;
          match err with
          | Some e => ret (Some e)
          | None =>
              logMessage env "tests passed" ;;
              ret None
          end
      end
  end.

(** Lines 650-709 of [New], on the local [ft]. *)
Definition New_build (input0 : FlipTesterInput.t)
    : M (option FlipTester.t * option error) :=
  let input := withDefaults input0 in
  assign (FlipTester.set_context (FlipTesterInput.Context input)) ;;
  assign (FlipTester.set_initialSleepTimeSeconds
            (FlipTesterInput.InitialSleepTimeSeconds input)) ;;
  assign (FlipTester.set_postEventSleepTimeSeconds
            (FlipTesterInput.PostEventSleepTimeSeconds input)) ;;
  early <- (if String.eqb (FlipTesterInput.StackName input) "" then
              if String.eqb (FlipTesterInput.SubnetId input) "" then
                ret (Some "SubnetId is a required input field if StackName is not supplied")
              else
                assign (FlipTester.set_subnetId (FlipTesterInput.SubnetId input)) ;;
                if String.eqb (FlipTesterInput.VpcId input) "" then
                  ret (Some "VpcId is a required input field if StackName is not supplied")
                else
                  assign (FlipTester.set_vpcId (FlipTesterInput.VpcId input)) ;;
                  (if String.eqb (FlipTesterInput.StackPrefix input) "" then
                     assign (FlipTester.set_stackPrefix DefaultStackPrefix)
                   else
                     assign (FlipTester.set_stackPrefix
                               (FlipTesterInput.StackPrefix input))) ;;
                  assign (FlipTester.set_stackTemplateFilename
                            (FlipTesterInput.StackTemplateFilename input)) ;;
                  ret None
            else
              logMessage env "using existing stack" ;;
              assign (FlipTester.set_StackName (FlipTesterInput.StackName input)) ;;
              assign (FlipTester.set_stackCreated true) ;;
              ret None) ;;
  match early with
  | Some e => ret (None, Some e)
  | None =>
      assign (FlipTester.set_RetainStack (FlipTesterInput.RetainStack input)) ;;
      assign (FlipTester.set_testEvent
                (Some (mkLambdaEvent "RunAll" (FlipTesterInput.TestUrls input)))) ;;
      (if (length (FlipTesterInput.TestUrls input) <? 1)%nat then
         assign (FlipTester.set_testEvent
                   (Some (mkLambdaEvent "RunAll"
                            (FlipTesterInput.TestUrls input ++ defaultTestUrls))))
       else ret tt) ;;
      ft <- field (fun ft => ft) ;;
      ret (Some ft, None)
  end.

(** Lines 646-709 of [New], reached with [input.Session] set. *)
Definition New_with (input : FlipTesterInput.t) (tr : list Event) : NewResult :=
  let ft := FlipTester.set_sess (FlipTesterInput.Session input) FlipTester.zero in
  match New_build input (mkState ft tr) with
  | Ok (fliptester, err) s => NewReturned fliptester err (withDefaults input) (trace s)
  | Panic msg s => NewPanicked msg (trace s)
  end.

(** [New]: a nil [input.Session] is replaced by a new session. *)
Definition New (input : FlipTesterInput.t) (tr : list Event) : NewResult :=
  match FlipTesterInput.Session input with
  | None =>
      match NewSession with
      | inr e => NewReturned None (Some e) input (tr ++ [EvSessionNew])
      | inl sn => New_with (withSession (Some sn) input) (tr ++ [EvSessionNew])
      end
  | Some _ => New_with input tr
  end.

End Package.

End Later.

(** What the later validator returns for a list of results. *)
Definition verdict (results : list TestResult.t) : option error :=
  match results with
  | [] => Some "tests failed; no test results to check"
  | _ :: _ => option_map violation (find violates results)
  end.

(** ** The probe

    The handler of the Lambda function, the Python program in the template
    of [fliptestTemplateIgnoreSSL.go] (lines 21-83).  A dictionary with
    the six keys of [dictify] is a [TestResult.t]; the empty dictionary
    and the empty string, the first values of [dict] and [elapsed], are
    [None]. *)

Module Probe.

(** The event of an invocation: [event["RequestType"]] and
    [event.get("TestUrls")], which is [None] for a JSON null. *)
Record event : Type := mkEvent {
  RequestType : string;
  TestUrls : option (list TestUrl.t)
}.

Record World : Type := mkWorld {
  (** [time.time()], called for the n-th time *)
  time : nat -> float;
  (** the [try] block of [exec], entered for the n-th time, with the URL:
      the code of the response, or the text of the exception *)
  urlopen : nat -> string -> Z + string
}.

(** How often the clock was read and a URL was fetched, and what was
    printed. *)
Record Counters : Type := mkCounters {
  reads : nat;
  fetches : nat;
  printed : list TestResult.t
}.

Record UrlTimer : Type := mkUrlTimer {
  name : string;
  starttime : float;
  elapsed : option float;
  message : string;
  success : bool;
  url : string;
  response_code : Z;
  dict : option TestResult.t
}.

(** What the handler does: it returns the response or raises. *)
Inductive Outcome : Type :=
| Returned (response : list (option TestResult.t)) (c : Counters)
| Raised (exception : string) (c : Counters).

Section Handler.

Variable w : World.

(** [UrlTimer.__init__] *)
Definition init (name url : string) (c : Counters) : UrlTimer * Counters :=
  (mkUrlTimer name (time w (reads c)) None "" false url 0 None,
   mkCounters (S (reads c)) (fetches c) (printed c)).

(** [UrlTimer.report], with [dictify]; the result is the dictionary that
    [json.dumps] writes. *)
Definition report (t : UrlTimer) (c : Counters)
    : TestResult.t * UrlTimer * Counters :=
  let e := PrimFloat.sub (time w (reads c)) (starttime t) in
  let d := TestResult.mk (name t) e (message t) (success t) (url t)
                         (response_code t) in
  (d,
   mkUrlTimer (name t) (starttime t) (Some e) (message t) (success t) (url t)
              (response_code t) (Some d),
   mkCounters (S (reads c)) (fetches c) (printed c)).

(** [UrlTimer.exec] *)
Definition exec (t : UrlTimer) (c : Counters)
    : TestResult.t * UrlTimer * Counters :=
  let t1 :=
    match urlopen w (fetches c) (url t) with
    | inl code =>
        mkUrlTimer (name t) (starttime t) (elapsed t)
                   "got response code from URL" true (url t) code (dict t)
    | inr e =>
        mkUrlTimer (name t) (starttime t) (elapsed t)
                   (String.append "problem getting URL: " e) (success t)
                   (url t) (response_code t) (dict t)
    end in
  report t1 (mkCounters (reads c) (S (fetches c)) (printed c)).

(** The first loop of [handler]: [tests.append(UrlTimer(...))]. *)
Fixpoint timers (urls : list TestUrl.t) (tests : list UrlTimer) (c : Counters)
    : list UrlTimer * Counters :=
  match urls with
  | [] => (tests, c)
  | test :: rest =>
      let '(t, c1) := init (TestUrl.Name test) (TestUrl.Url test) c in
      timers rest (tests ++ [t]) c1
  end.

(** The second loop of [handler]. *)
Fixpoint runAll (tests : list UrlTimer) (total_time : float)
    (response : list (option TestResult.t)) (c : Counters) : Outcome :=
  match tests with
  | [] => Returned response c
  | test :: rest =>
      let '(json, test1, c1) := exec test c in
      let c2 := mkCounters (reads c1) (fetches c1) (printed c1 ++ [json]) in
      match elapsed test1 with
      | None => Raised "TypeError" c2
      | Some e =>
          runAll rest (PrimFloat.add total_time e) (response ++ [dict test1]) c2
      end
  end.

Definition handler (ev : event) (c : Counters) : Outcome :=
  let '(tests, c1) :=
    match TestUrls ev with
    | Some urls => timers urls [] c
    | None =>
        let '(t1, c1) := init "gopkg" "http://gopkg.in" c in
        let '(t2, c2) := init "google" "http://www.google.com" c1 in
        (([] ++ [t1]) ++ [t2], c2)
    end in
  if existsb (String.eqb (RequestType ev)) ["RunAll"]
  then runAll tests 0%float [] c1
  else Returned [] c1.

End Handler.

(** The URLs the handler tests. *)
Definition urlsOf (ev : event) : list TestUrl.t :=
  match TestUrls ev with
  | Some urls => urls
  | None => [TestUrl.mk "gopkg" "http://gopkg.in";
             TestUrl.mk "google" "http://www.google.com"]
  end.

(** The timers of the URLs, the first one made at the [a]-th reading of
    the clock. *)
Fixpoint started (w : World) (a : nat) (urls : list TestUrl.t) : list UrlTimer :=
  match urls with
  | [] => []
  | test :: rest =>
      mkUrlTimer (TestUrl.Name test) (time w a) None "" false
                 (TestUrl.Url test) 0 None
      :: started w (S a) rest
  end.

(** The result for a URL whose timer was made at the [a]-th reading of
    the clock and reported at the [b]-th, and which was fetched by the
    [f]-th fetch. *)
Definition resultOf (w : World) (a b f : nat) (test : TestUrl.t)
    : TestResult.t :=
  let elapsed := PrimFloat.sub (time w b) (time w a) in
  match urlopen w f (TestUrl.Url test) with
  | inl code =>
      TestResult.mk (TestUrl.Name test) elapsed
                    "got response code from URL" true (TestUrl.Url test) code
  | inr e =>
      TestResult.mk (TestUrl.Name test) elapsed
                    (String.append "problem getting URL: " e) false
                    (TestUrl.Url test) 0
  end.

(** The results for a list of URLs handled one after the other. *)
Fixpoint resultsFrom (w : World) (a b f : nat) (urls : list TestUrl.t)
    : list TestResult.t :=
  match urls with
  | [] => []
  | test :: rest => resultOf w a b f test :: resultsFrom w (S a) (S b) (S f) rest
  end.

End Probe.

(** ** The sample program

    [main] of [sample/main.go].  The flags are given as parsed; what the
    program prints is a list of lines, the indented JSON text of the
    results being one of them. *)

Module Sample.

Record Flags : Type := mkFlags {
  stackName : string;
  region : string;
  profile : string;
  vpcID : string;
  subnetID : string;
  createOnly : bool
}.

Inductive Printed : Type :=
| Line (text : string)
| Json (results : list TestResult.t).

(** How [main] ends: it returns, or it panics; with what it has printed
    and the requests it has sent. *)
Inductive Exit : Type :=
| Finished (out : list Printed) (tr : list Event)
| Panicked (msg : string) (out : list Printed) (tr : list Event).

Definition requests (x : Exit) : list Event :=
  match x with
  | Finished _ tr => tr
  | Panicked _ _ tr => tr
  end.

Definition output (x : Exit) : list Printed :=
  match x with
  | Finished out _ => out
  | Panicked _ out _ => out
  end.

(** [json.MarshalIndent] of the results fails on a float that is not
    finite. *)
Definition marshals (results : list TestResult.t) : bool :=
  forallb (fun r => PrimFloat.is_finite (TestResult.ElapsedTimeS r)) results.

(** The input of the branch that resumes a stack. *)
Definition resumeInput (flags : Flags) (sess : Session) : FlipTesterInput.t :=
  FlipTesterInput.mk "" "" "" "" (stackName flags) [] true (Some sess) "" 5 5.

(** The input of the branch that creates a stack. *)
Definition createInput (flags : Flags) (sess : Session) : FlipTesterInput.t :=
  FlipTesterInput.mk (subnetID flags) (vpcID flags) "" "" "" [] true (Some sess)
                     "" 20 5.

Section Main.

Variable env : Env.

(** [session.NewSessionWithOptions] for a region and a profile. *)
Variable NewSessionWithOptions : string -> string -> Session + error.

(** Lines 86-102: the log and the results are printed. *)
Definition report (err : option error) (out : list Printed) (s : State) : Exit :=
  let out := out ++ [Line "Printing log:"] in
  match GetLog s with
  | Panic msg s1 => Panicked msg out (trace s1)
  | Ok log s1 =>
      let out := out ++ [Line log] in
      let results := FlipTester.TestResults (self s1) in
      let body := if marshals results then [Json results] else [] in
      match err with
      | Some e => Finished (out ++ [Line e] ++ body) (trace s1)
      | None => Finished (out ++ body) (trace s1)
      end
  end.

Definition main (flags : Flags) : Exit :=
  match NewSessionWithOptions (region flags) (profile flags) with
  | inr e => Panicked e [] []
  | inl sess =>
      if negb (String.eqb (stackName flags) "") then
        let out := [Line (String.append "resuming stack " (stackName flags))] in
        match New env (resumeInput flags sess) [] with
        | NewPanicked msg tr => Panicked msg out tr
        | NewReturned _ (Some e) _ tr => Panicked e out tr
        | NewReturned test None _ tr =>
            let out := out ++ [Line "Resuming stack...."] in
            match test with
            | None => Panicked nilDereference out tr
            | Some ft =>
                match Test env (mkState ft tr) with
                | Panic msg s => Panicked msg out (trace s)
                | Ok (Some e) s => Panicked e out (trace s)
                | Ok None s => report None out s
                end
            end
        end
      else
        let out := [Line "creating new stack"] in
        match New env (createInput flags sess) [] with
        | NewPanicked msg tr => Panicked msg out tr
        | NewReturned _ (Some e) _ tr => Panicked e out tr
        | NewReturned test None _ tr =>
            match test with
            | None => Panicked nilDereference out tr
            | Some ft =>
                if createOnly flags then
                  let out := out ++ [Line "Launching stack only..."] in
                  match CreateStack env (mkState ft tr) with
                  | Panic msg s => Panicked msg out (trace s)
                  | Ok err s => report err out s
                  end
                else
                  let out := out ++ [Line "Launching stack and running tests...."] in
                  match Test env (mkState ft tr) with
                  | Panic msg s => Panicked msg out (trace s)
                  | Ok err s => report err out s
                  end
            end
        end
  end.

End Main.

End Sample.

(** ** The earlier revision

    Of the earlier revision of the package in [examples_test.go],
    [createStack] (lines 359-401) and [watchStack] (lines 488-535).  It
    has no [logMessage]: the log is appended to as it is.  Its
    [getTemplateBody] (lines 290-297) is that of [fliptest.go]. *)

Module Earlier.

Section Package.

Variable env : Env.

(** [ft.log = append(ft.log, msg)] *)
Definition logAppend (msg : string) : M unit :=
  assign (fun ft => FlipTester.set_log (FlipTester.log ft ++ [msg]) ft).

Fixpoint watchStack_loop (stackID : string) (tries : nat)
    (stack : option cloudformation.Stack)
    : M (option cloudformation.Stack * option error) :=
  match tries with
  | O => ret (stack, None)
  | S tries' =>
      logAppend "waiting on stack" ;;
      tr <- request (EvDescribeStacks stackID) ;;
      match cfDescribeStacks env tr with
      | inr e => ret (stack, Some e)
      | inl [] => ret (stack, Some "not enough stacks in describe")
      | inl (stack0 :: _) =>
          let status := cloudformation.StackStatus stack0 in
          if String.eqb status "CREATE_COMPLETE" then ret (Some stack0, None)
          else if String.eqb status "ROLLBACK_IN_PROGRESS" then ret (Some stack0, None)
          else if String.eqb status "ROLLBACK_COMPLETE" then ret (Some stack0, None)
          else if String.eqb status "DELETE_IN_PROGRESS" then ret (Some stack0, None)
          else if String.eqb status "DELETE_COMPLETE" then ret (Some stack0, None)
          else if String.eqb status "CREATE_FAILED" then ret (Some stack0, None)
          else if String.eqb status "DELETE_FAILED" then ret (Some stack0, None)
          else
            sleep 5 ;;
            watchStack_loop stackID tries' (Some stack0)
      end
  end.

Definition watchStack (stackID : string) (maxtries : Z)
    : M (option cloudformation.Stack * option error) :=
  watchStack_loop stackID (Z.to_nat maxtries) None.

(** The input of the [CreateStack] request of [createStack]. *)
Definition createInput (ft : FlipTester.t) (rando templateBody : string)
    : cloudformation.CreateStackInput :=
  cloudformation.mkCreateStackInput 3
    (String.append (FlipTester.stackPrefix ft) rando) templateBody
    ["CAPABILITY_IAM"; "CAPABILITY_NAMED_IAM"]
    [cloudformation.mkStackParameter "SubnetId" (FlipTester.subnetId ft);
     cloudformation.mkStackParameter "VpcId" (FlipTester.vpcId ft)].

(** [createStack]: the stack that [watchStack] returns is dereferenced
    before its error is looked at. *)
Definition createStack : M (option error) :=
  logAppend "loading template file" ;;
  '(templateBody, err) <- getTemplateBody env ;;
  match err with
  | Some e => ret (Some e)
  | None =>
      tr <- history ;;
      let rando := fmt.d08 (randIntn env tr) in
      ft <- field (fun ft => ft) ;;
      tr <- request (EvCreateStack (createInput ft rando templateBody)) ;;
      match cfCreateStack env tr with
      | inr e => ret (Some e)
      | inl stackID =>
          assign (FlipTester.set_StackName stackID) ;;
          sleep 5 ;;
          '(stack, err) <- watchStack stackID 30 ;;
          match stack with
          | None => panic nilDereference
          | Some st =>
              assign (FlipTester.set_StackName (cloudformation.StackName st)) ;;
              ret err
          end
      end
  end.

End Package.

End Earlier.

(** * Proofs *)

(** ** The library functions *)

Lemma prefix_app (p s : string) :
  String.prefix p s = true <-> exists rest, s = String.append p rest.
Proof.
  revert s. induction p as [| c p IH]; intros s.
  - split; [intros _; now exists s | now destruct s].
  - destruct s as [| d s]; simpl.
    + split; [discriminate | intros [rest H]; discriminate].
    + destruct (Ascii.ascii_dec c d) as [-> | Hcd].
      * rewrite IH. split; intros [rest H]; exists rest; congruence.
      * split; [discriminate | intros [rest H]; congruence].
Qed.

Lemma Contains_unfold (s substr : string) :
  strings.Contains s substr =
    if String.prefix substr s then true
    else match s with
         | EmptyString => false
         | String _ s' => strings.Contains s' substr
         end.
Proof. now destruct s. Qed.

(** [strings.Contains] holds exactly of the strings in which [substr]
    occurs. *)
Lemma Contains_occurs (s substr : string) :
  strings.Contains s substr = true <->
  exists before rest, s = String.append before (String.append substr rest).
Proof.
  induction s as [| c s IH]; rewrite Contains_unfold.
  - destruct (String.prefix substr "") eqn:E.
    + split; [intros _ | reflexivity].
      apply prefix_app in E. destruct E as [rest E]. now exists "", rest.
    + split; [discriminate |]. intros [before [rest H]].
      destruct before; simpl in H; [| discriminate].
      assert (String.prefix substr "" = true)
        by (apply prefix_app; now exists rest).
      congruence.
  - destruct (String.prefix substr (String c s)) eqn:E.
    + split; [intros _ | reflexivity].
      apply prefix_app in E. destruct E as [rest E]. now exists "", rest.
    + rewrite IH. split.
      * intros [before [rest H]]. exists (String c before), rest.
        simpl. now rewrite H.
      * intros [before [rest H]]. destruct before as [| d before]; simpl in H.
        -- assert (String.prefix substr (String c s) = true)
             by (apply prefix_app; now exists rest).
           congruence.
        -- exists before, rest. congruence.
Qed.

Example Contains_service_exception :
  strings.Contains "ServiceException: function not ready" "Service" = true /\
  strings.Contains "An error occurred (ServiceException) when calling Invoke" "Service" = true /\
  strings.Contains "tests failed or took too long" "Service" = false /\
  strings.Contains "service unavailable" "Service" = false.
Proof. repeat split. Qed.

Example Sprintf_numbers :
  fmt.d08 714632 = "00714632" /\ fmt.d08 0 = "00000000" /\
  fmt.d08 123456789 = "123456789" /\
  fmt.d 40 = "40" /\ fmt.d 0 = "0" /\ fmt.d (-5) = "-5".
Proof. repeat split. Qed.

(** ** Rules for [adds], [keeps] and [only] *)

Lemma adds_ret {A : Type} (P : list Event -> Prop) (a : A) :
  P [] -> adds P (ret a).
Proof.
  intros HP s. exists []. now rewrite app_nil_r.
Qed.

Lemma adds_panic {A : Type} (P : list Event -> Prop) (msg : string) :
  P [] -> adds P (@panic A msg).
Proof.
  intros HP s. exists []. now rewrite app_nil_r.
Qed.

Lemma adds_field {A : Type} (P : list Event -> Prop) (f : FlipTester.t -> A) :
  P [] -> adds P (field f).
Proof.
  intros HP s. exists []. now rewrite app_nil_r.
Qed.

Lemma adds_history (P : list Event -> Prop) : P [] -> adds P history.
Proof.
  intros HP s. exists []. now rewrite app_nil_r.
Qed.

Lemma adds_assign (P : list Event -> Prop) (f : FlipTester.t -> FlipTester.t) :
  P [] -> adds P (assign f).
Proof.
  intros HP s. exists []. simpl. now rewrite app_nil_r.
Qed.

Lemma adds_request (P : list Event -> Prop) (e : Event) :
  P [e] -> adds P (request e).
Proof.
  intros HP s. now exists [e].
Qed.

Lemma adds_bind {A B : Type} (P1 P2 P3 : list Event -> Prop)
    (m : M A) (k : A -> M B) :
  P2 [] ->
  (forall evs1 evs2, P1 evs1 -> P2 evs2 -> P3 (evs1 ++ evs2)) ->
  adds P1 m -> (forall x, adds P2 (k x)) -> adds P3 (bind m k).
Proof.
  intros Hnil Hcomp Hm Hk s. unfold bind.
  destruct (Hm s) as [evs1 [E1 H1]].
  destruct (m s) as [a s1 | msg s1]; simpl in E1.
  - destruct (Hk a s1) as [evs2 [E2 H2]].
    exists (evs1 ++ evs2). split.
    + now rewrite E2, E1, app_assoc.
    + now apply Hcomp.
  - exists evs1. split; [exact E1 |].
    rewrite <- (app_nil_r evs1). now apply Hcomp.
Qed.

Lemma adds_weaken {A : Type} (P Q : list Event -> Prop) (m : M A) :
  (forall evs, P evs -> Q evs) -> adds P m -> adds Q m.
Proof.
  intros HPQ Hm s. destruct (Hm s) as [evs [E H]]. exists evs. auto.
Qed.

Lemma keeps_ret {A F : Type} (f : FlipTester.t -> F) (a : A) : keeps f (ret a).
Proof. intros s. reflexivity. Qed.

Lemma keeps_panic {A F : Type} (f : FlipTester.t -> F) (msg : string) :
  keeps f (@panic A msg).
Proof. intros s. reflexivity. Qed.

Lemma keeps_field {A F : Type} (f : FlipTester.t -> F) (g : FlipTester.t -> A) :
  keeps f (field g).
Proof. intros s. reflexivity. Qed.

Lemma keeps_history {F : Type} (f : FlipTester.t -> F) : keeps f history.
Proof. intros s. reflexivity. Qed.

Lemma keeps_request {F : Type} (f : FlipTester.t -> F) (e : Event) :
  keeps f (request e).
Proof. intros s. reflexivity. Qed.

Lemma keeps_assign {F : Type} (f : FlipTester.t -> F)
    (g : FlipTester.t -> FlipTester.t) :
  (forall ft, f (g ft) = f ft) -> keeps f (assign g).
Proof. intros H s. simpl. apply H. Qed.

Lemma keeps_bind {A B F : Type} (f : FlipTester.t -> F)
    (m : M A) (k : A -> M B) :
  keeps f m -> (forall x, keeps f (k x)) -> keeps f (bind m k).
Proof.
  intros Hm Hk s. unfold bind. specialize (Hm s).
  destruct (m s) as [a s1 | msg s1]; simpl in Hm.
  - now rewrite Hk.
  - exact Hm.
Qed.

Lemma only_bind {A B : Type} (p : Event -> bool) (m : M A) (k : A -> M B) :
  only p m -> (forall x, only p (k x)) -> only p (bind m k).
Proof.
  apply adds_bind; [reflexivity |].
  intros evs1 evs2 H1 H2. rewrite forallb_app, H1, H2. reflexivity.
Qed.

(** Walk through a method body, one statement at a time; the hint base
    [requests] collects what is known about the methods it calls. *)
Create HintDb requests.

Ltac walk_only :=
  repeat first
    [ solve [auto with requests]
    | apply only_bind; [| intros ]
    | apply adds_ret; reflexivity
    | apply adds_panic; reflexivity
    | apply adds_field; reflexivity
    | apply adds_history; reflexivity
    | apply adds_assign; reflexivity
    | match goal with
      | |- only _ (match ?x with _ => _ end) => destruct x
      | |- only _ (let _ := _ in _) => cbv zeta
      end ].

Ltac walk_keeps :=
  repeat first
    [ solve [auto with requests]
    | apply keeps_bind; [| intros ]
    | apply keeps_ret
    | apply keeps_panic
    | apply keeps_field
    | apply keeps_history
    | apply keeps_request
    | apply keeps_assign; intros; reflexivity
    | match goal with
      | |- keeps _ (match ?x with _ => _ end) => destruct x
      | |- keeps _ (let _ := _ in _) => cbv zeta
      end ].

Section Requests.

Variable env : Env.
Variable p : Event -> bool.

Lemma only_request (e : Event) : p e = true -> only p (request e).
Proof. intros H. apply adds_request. simpl. now rewrite H. Qed.

Lemma only_logMessage (msg : string) : only p (logMessage env msg).
Proof. unfold logMessage. walk_only. Qed.

Lemma only_sleep (n : Z) : p (EvSleep n) = true -> only p (sleep n).
Proof.
  intros H. unfold sleep. apply only_bind; [| intros; walk_only].
  now apply only_request.
Qed.

Hint Resolve only_request only_logMessage only_sleep : requests.

Lemma only_checkResults (results : list TestResult.t) :
  only p (checkResults env results).
Proof.
  induction results as [| r rest IH]; simpl; walk_only.
Qed.

Hint Resolve only_checkResults : requests.

Hypothesis p_sleep : forall n, p (EvSleep n) = true.
Hypothesis p_describe : forall name, p (EvDescribeStacks name) = true.

Lemma only_getStackInfo : only p (getStackInfo env).
Proof. unfold getStackInfo. walk_only. Qed.

Lemma only_watchStack_loop (stackID : string) (tries : nat)
    (stack : option cloudformation.Stack) :
  only p (watchStack_loop env stackID tries stack).
Proof.
  revert stack. induction tries as [| n IH]; intros stack; simpl; walk_only.
Qed.

Hint Resolve only_getStackInfo only_watchStack_loop : requests.

Hypothesis p_invoke : forall fn payload, p (EvInvoke fn payload) = true.

Lemma only_callLamda : only p (callLamda env).
Proof. unfold callLamda. walk_only. Qed.

Hint Resolve only_callLamda : requests.

Lemma only_Test_retry (n : nat) (err : option error) :
  only p (Test_retry env n err).
Proof.
  revert err. induction n as [| n IH]; intros err; simpl; walk_only.
Qed.

Hint Resolve only_Test_retry : requests.

Lemma only_Test_invoke : only p (Test_invoke env).
Proof. unfold Test_invoke. walk_only. Qed.

End Requests.

#[global] Hint Resolve only_request only_logMessage only_sleep
  only_checkResults only_getStackInfo only_watchStack_loop only_callLamda
  only_Test_retry only_Test_invoke : requests.

Section MoreRequests.

Variable env : Env.
Variable p : Event -> bool.

Hypothesis p_sleep : forall n, p (EvSleep n) = true.
Hypothesis p_describe : forall name, p (EvDescribeStacks name) = true.
Hypothesis p_invoke : forall fn payload, p (EvInvoke fn payload) = true.

Lemma only_DeleteStack :
  (forall name, p (EvDeleteStack name) = true) -> only p (DeleteStack env).
Proof. intros p_delete. unfold DeleteStack. walk_only. Qed.

Lemma only_Test_teardown_retained (s : State) :
  FlipTester.RetainStack (self s) = true ->
  exists s', Test_teardown env s = Ok None s' /\ trace s' = trace s /\
             FlipTester.stackCreated (self s') = FlipTester.stackCreated (self s).
Proof.
  intros H. unfold Test_teardown, bind, field. rewrite H. simpl.
  eexists. split; [reflexivity |]. split; reflexivity.
Qed.

Lemma only_CreateStack :
  (forall filename, p (EvReadFile filename) = true) ->
  (forall input, p (EvCreateStack input) = true) ->
  only p (CreateStack env).
Proof.
  intros p_read p_create. unfold CreateStack, getTemplateBody, watchStack.
  walk_only.
Qed.

Lemma only_Test_provision :
  (forall filename, p (EvReadFile filename) = true) ->
  (forall input, p (EvCreateStack input) = true) ->
  only p (Test_provision env).
Proof.
  intros p_read p_create. unfold Test_provision.
  pose proof (only_CreateStack p_read p_create). walk_only.
Qed.

End MoreRequests.

(** *** Fields that the methods leave alone *)

Section Fields.

Variable env : Env.
Variable F : Type.
Variable f : FlipTester.t -> F.

Hypothesis f_log : forall v ft, f (FlipTester.set_log v ft) = f ft.

Lemma keeps_logMessage (msg : string) : keeps f (logMessage env msg).
Proof.
  unfold logMessage. apply keeps_bind; [apply keeps_history | intros tr].
  apply keeps_assign. intros ft. apply f_log.
Qed.

Lemma keeps_sleep (n : Z) : keeps f (sleep n).
Proof. unfold sleep. walk_keeps. Qed.

Hint Resolve keeps_logMessage keeps_sleep : requests.

Lemma keeps_checkResults (results : list TestResult.t) :
  keeps f (checkResults env results).
Proof. induction results as [| r rest IH]; simpl; walk_keeps. Qed.

Hint Resolve keeps_checkResults : requests.

Hypothesis f_functionName :
  forall v ft, f (FlipTester.set_functionName v ft) = f ft.
Hypothesis f_TestResults :
  forall v ft, f (FlipTester.set_TestResults v ft) = f ft.

Lemma keeps_getStackInfo : keeps f (getStackInfo env).
Proof.
  unfold getStackInfo.
  repeat first
    [ apply keeps_assign; intros; apply f_functionName
    | progress walk_keeps ].
Qed.

Hint Resolve keeps_getStackInfo : requests.

Lemma keeps_callLamda : keeps f (callLamda env).
Proof.
  unfold callLamda.
  repeat first
    [ apply keeps_assign; intros; apply f_TestResults
    | progress walk_keeps ].
Qed.

Hint Resolve keeps_callLamda : requests.

Lemma keeps_Test_retry (n : nat) (err : option error) :
  keeps f (Test_retry env n err).
Proof.
  revert err. induction n as [| n IH]; intros err; simpl; walk_keeps.
Qed.

Lemma keeps_DeleteStack : keeps f (DeleteStack env).
Proof. unfold DeleteStack. walk_keeps. Qed.

Lemma keeps_watchStack_loop (stackID : string) (tries : nat)
    (stack : option cloudformation.Stack) :
  keeps f (watchStack_loop env stackID tries stack).
Proof.
  revert stack. induction tries as [| n IH]; intros stack; simpl; walk_keeps.
Qed.

Hint Resolve keeps_Test_retry keeps_DeleteStack keeps_watchStack_loop : requests.

Hypothesis f_StackName : forall v ft, f (FlipTester.set_StackName v ft) = f ft.

(** [CreateStack] touches [stackCreated] only on its successful path. *)
Lemma keeps_CreateStack :
  (forall v ft, f (FlipTester.set_stackCreated v ft) = f ft) ->
  keeps f (CreateStack env).
Proof.
  intros f_created. unfold CreateStack, getTemplateBody, watchStack.
  repeat first
    [ apply keeps_assign; intros; first [apply f_StackName | apply f_created]
    | progress walk_keeps ].
Qed.

Lemma keeps_Test_provision :
  (forall v ft, f (FlipTester.set_stackCreated v ft) = f ft) ->
  keeps f (Test_provision env).
Proof.
  intros f_created. pose proof (keeps_CreateStack f_created).
  unfold Test_provision. walk_keeps.
Qed.

Lemma keeps_Test_invoke :
  (forall v ft, f (FlipTester.set_Passed v ft) = f ft) ->
  keeps f (Test_invoke env).
Proof.
  intros f_Passed. unfold Test_invoke.
  repeat first
    [ apply keeps_assign; intros; apply f_Passed
    | progress walk_keeps ].
Qed.

End Fields.

(** ** The constructor *)

Lemma New_with_session (env : Env) (input : FlipTesterInput.t) (tr : list Event)
    (sn : Session) :
  FlipTesterInput.Session input = Some sn ->
  New env input tr =
    match New_build env input
            (mkState (FlipTester.set_sess (Some sn) FlipTester.zero) tr) with
    | Ok (fliptester, err) s => NewReturned fliptester err (withDefaults input) (trace s)
    | Panic msg s => NewPanicked msg (trace s)
    end.
Proof. intros H. unfold New. rewrite H. reflexivity. Qed.

(** With a session, a missing subnet or VPC id on the fresh-provisioning
    path makes [New] return nil and one of its two messages, the trace
    untouched. *)
Lemma New_missing_field (env : Env) (input : FlipTesterInput.t) (tr : list Event) :
  FlipTesterInput.Session input <> None ->
  FlipTesterInput.StackName input = "" ->
  FlipTesterInput.SubnetId input = "" \/ FlipTesterInput.VpcId input = "" ->
  exists e,
    New env input tr = NewReturned None (Some e) (withDefaults input) tr /\
    (e = "SubnetId is a required input field if StackName is not supplied" \/
     e = "VpcId is a required input field if StackName is not supplied").
Proof.
  intros Hs Hn Hf.
  destruct (FlipTesterInput.Session input) as [sn |] eqn:Es; [| congruence].
  rewrite (New_with_session env input tr Es).
  unfold New_build, bind, assign, ret. simpl. rewrite Hn. simpl.
  destruct (String.eqb_spec (FlipTesterInput.SubnetId input) "") as [E1 | N1].
  - eexists. split; [reflexivity | now left].
  - simpl. destruct Hf as [E1 | E2]; [contradiction |].
    rewrite E2. simpl. eexists. split; [reflexivity | now right].
Qed.

(** C10.  With a nil [Session], [New] panics on the store through the nil
    named result, after [session.New()] and before the [FlipTester] of
    line 104 exists; whenever [New] returns, a session was supplied. *)
Theorem New_nil_session_panics (env : Env) (input : FlipTesterInput.t)
    (tr : list Event) :
  (FlipTesterInput.Session input = None ->
   New env input tr = NewPanicked nilDereference (tr ++ [EvSessionNew])) /\
  (forall fliptester err input' tr',
     New env input tr = NewReturned fliptester err input' tr' ->
     FlipTesterInput.Session input <> None).
Proof.
  split.
  - intros H. unfold New. now rewrite H.
  - intros fliptester err input' tr' H Hnil. unfold New in H.
    rewrite Hnil in H. discriminate.
Qed.

Lemma New_nil_session_panics_witness :
  New (Scenario.account "CREATE_COMPLETE" (InvokeResults [Scenario.passing]))
      Scenario.bare [] = NewPanicked nilDereference [EvSessionNew].
Proof.
  apply (proj1 (New_nil_session_panics
                  (Scenario.account "CREATE_COMPLETE"
                     (InvokeResults [Scenario.passing]))
                  Scenario.bare [])).
  reflexivity.
Defined.

(** C6.  On the fresh-provisioning path with an empty [SubnetId] and no
    session, [New] does not return the error about the subnet: it panics. *)
Theorem New_missing_subnet_without_session (env : Env) :
  FlipTesterInput.StackName Scenario.bare = "" /\
  FlipTesterInput.SubnetId Scenario.bare = "" /\
  New env Scenario.bare [] = NewPanicked nilDereference [EvSessionNew].
Proof. repeat split. Qed.

(** ** The validator *)

(** C2.  [checkResults] of [fliptest.go] accepts the empty list: it
    returns [ok = true] and a nil error, and logs nothing. *)
Theorem checkResults_empty_succeeds (env : Env) (s : State) :
  checkResults env [] s = Ok (true, None) s.
Proof. reflexivity. Qed.

(** The later revision rejects the empty list. *)
Lemma Revised_checkResults_empty (env : Env) (s : State) :
  exists s',
    Revised.checkResults env [] s =
      Ok (Some "tests failed; no test results to check") s' /\
    trace s' = trace s.
Proof.
  unfold Revised.checkResults. simpl. unfold bind, logMessage, bind. simpl.
  eexists. split; reflexivity.
Qed.

(** With an empty answer of the probe, [Test] of [fliptest.go] passes. *)
Example Test_passes_on_empty_results :
  let env := Scenario.account "CREATE_COMPLETE" (InvokeResults []) in
  let r := Test env (Scenario.start env Scenario.fresh) in
  r = Ok None (res_state r) /\
  FlipTester.TestResults (self (res_state r)) = [] /\
  FlipTester.Passed (self (res_state r)) = true.
Proof. vm_compute. repeat split. Qed.

Lemma checkResults_all_pass (env : Env) (results : list TestResult.t) (s : State) :
  Forall (fun r => violates r = false) results ->
  checkResults env results s = Ok (true, None) s.
Proof.
  induction 1 as [| r rest Hr _ IH]; simpl; [reflexivity |].
  unfold violates in Hr. apply orb_false_iff in Hr. destruct Hr as [H1 H2].
  rewrite H1, H2. exact IH.
Qed.

Lemma checkResults_violation (env : Env) (pre : list TestResult.t)
    (bad : TestResult.t) (rest : list TestResult.t) (s : State) :
  Forall (fun r => violates r = false) pre ->
  violates bad = true ->
  checkResults env (pre ++ bad :: rest) s =
    (logMessage env (violation bad) ;; ret (false, Some (violation bad))) s.
Proof.
  intros Hpre Hbad. induction Hpre as [| r pre' Hr _ IH]; simpl.
  - unfold violates in Hbad. unfold violation.
    destruct (negb (TestResult.Success bad)); [reflexivity |].
    simpl in Hbad. now rewrite Hbad.
  - unfold violates in Hr. apply orb_false_iff in Hr. destruct Hr as [H1 H2].
    rewrite H1, H2. exact IH.
Qed.

(** C9.  On a non-empty list, the validator fails with the message of the
    first violating element, which ends with that element's URL; what it
    returns and logs is the same whatever follows that element; and a
    list without violating element is accepted. *)
Theorem checkResults_first_violation (env : Env) (results : list TestResult.t)
    (s : State) :
  results <> [] ->
  (forall pre bad rest,
     results = pre ++ bad :: rest ->
     Forall (fun r => violates r = false) pre ->
     violates bad = true ->
     checkResults env results s =
       (logMessage env (violation bad) ;; ret (false, Some (violation bad))) s /\
     (exists reason, violation bad = String.append reason (TestResult.Url bad)) /\
     (forall rest',
        checkResults env (pre ++ bad :: rest') s = checkResults env results s)) /\
  (Forall (fun r => violates r = false) results ->
   checkResults env results s = Ok (true, None) s).
Proof.
  intros _. split.
  - intros pre bad rest -> Hpre Hbad. split; [| split].
    + now apply checkResults_violation.
    + unfold violation. destruct (negb (TestResult.Success bad)); eexists; reflexivity.
    + intros rest'. now rewrite !checkResults_violation.
  - apply checkResults_all_pass.
Qed.

Lemma checkResults_first_violation_witness :
  checkResults (Scenario.account "CREATE_COMPLETE" (InvokeResults []))
    [Scenario.passing; Scenario.slow; Scenario.failing]
    (mkState FlipTester.zero []) =
  (logMessage (Scenario.account "CREATE_COMPLETE" (InvokeResults []))
     "test took too long: http://www.mysite.org/getdata/" ;;
   ret (false, Some "test took too long: http://www.mysite.org/getdata/"))
    (mkState FlipTester.zero []).
Proof.
  refine (proj1 (proj1 (checkResults_first_violation
            (Scenario.account "CREATE_COMPLETE" (InvokeResults []))
            (results := [Scenario.passing; Scenario.slow; Scenario.failing])
            (mkState FlipTester.zero []) _)
          [Scenario.passing] Scenario.slow [Scenario.failing] _ _ _)).
  - discriminate.
  - reflexivity.
  - repeat constructor.
  - reflexivity.
Defined.

(** ** Waiting for the stack *)

Lemma terminalStatus_false (status : string) :
  terminalStatus status = false ->
  String.eqb status "CREATE_COMPLETE" = false /\
  String.eqb status "ROLLBACK_IN_PROGRESS" = false /\
  String.eqb status "ROLLBACK_COMPLETE" = false /\
  String.eqb status "DELETE_IN_PROGRESS" = false /\
  String.eqb status "DELETE_COMPLETE" = false /\
  String.eqb status "CREATE_FAILED" = false /\
  String.eqb status "DELETE_FAILED" = false.
Proof.
  unfold terminalStatus, failureStatus. simpl. intros H.
  repeat (apply orb_false_iff in H; destruct H as [? H]).
  repeat split; assumption.
Qed.

(** One poll that finds the stack in a status the [switch] does not
    list: the loop sleeps ten seconds and goes round again. *)
Lemma watchStack_loop_pending_step (env : Env) (stackID : string) (n : nat)
    (stack : option cloudformation.Stack) (s : State)
    (st : cloudformation.Stack) (sts : list cloudformation.Stack) :
  cfDescribeStacks env (trace s ++ [EvDescribeStacks stackID]) = inl (st :: sts) ->
  terminalStatus (cloudformation.StackStatus st) = false ->
  exists s1,
    watchStack_loop env stackID (S n) stack s =
      watchStack_loop env stackID n (Some st) s1 /\
    trace s1 = trace s ++ [EvDescribeStacks stackID; EvSleep 10].
Proof.
  intros Hd Ht.
  destruct (terminalStatus_false _ Ht) as (E1 & E2 & E3 & E4 & E5 & E6 & E7).
  simpl. unfold bind at 1. unfold logMessage at 1. unfold bind at 1. simpl.
  unfold bind at 1. simpl. rewrite Hd.
  rewrite E1, E2, E3, E4, E5, E6, E7.
  unfold bind at 1. simpl.
  eexists. split; [reflexivity |]. simpl. now rewrite <- app_assoc.
Qed.

(** When no poll ever finds a listed status, [watchStack] polls
    [maxtries] times and then returns the last stack it saw together
    with a nil error. *)
Lemma watchStack_loop_never_terminal (env : Env) (stackID : string)
    (st : cloudformation.Stack) :
  (forall tr, cfDescribeStacks env tr = inl [st]) ->
  terminalStatus (cloudformation.StackStatus st) = false ->
  forall n stack s,
  exists s' evs,
    watchStack_loop env stackID n stack s =
      Ok (match n with O => stack | S _ => Some st end, None) s' /\
    trace s' = trace s ++ evs /\
    sent isDescribe evs = n.
Proof.
  intros Hd Ht. induction n as [| n IH]; intros stack s.
  - exists s, []. simpl. rewrite app_nil_r. repeat split.
  - destruct (watchStack_loop_pending_step env stackID n stack s (Hd _) Ht)
      as [s1 [E1 T1]].
    destruct (IH (Some st) s1) as [s' [evs [E2 [T2 C2]]]].
    exists s', ([EvDescribeStacks stackID; EvSleep 10] ++ evs).
    split; [| split].
    + rewrite E1, E2. now destruct n.
    + now rewrite T2, T1, <- app_assoc.
    + unfold sent in *. simpl. now rewrite C2.
Qed.

Lemma watchStack_never_terminal (env : Env) (stackID : string)
    (st : cloudformation.Stack) (maxtries : Z) (s : State) :
  (forall tr, cfDescribeStacks env tr = inl [st]) ->
  terminalStatus (cloudformation.StackStatus st) = false ->
  exists s' evs,
    watchStack env stackID maxtries s =
      Ok (if 0 <? maxtries then Some st else None, None) s' /\
    trace s' = trace s ++ evs /\
    sent isDescribe evs = Z.to_nat maxtries.
Proof.
  intros Hd Ht. unfold watchStack.
  destruct (watchStack_loop_never_terminal env stackID Hd Ht
              (Z.to_nat maxtries) None s) as [s' [evs [E [T C]]]].
  exists s', evs. split; [| split; assumption].
  rewrite E. destruct (Z.ltb_spec 0 maxtries) as [Hpos | Hneg].
  - destruct (Z.to_nat maxtries) eqn:En; [lia | reflexivity].
  - replace (Z.to_nat maxtries) with 0%nat by lia. reflexivity.
Qed.

(** A poll that finds one of the six failure statuses makes [watchStack]
    return that stack with a nil error. *)
Lemma watchStack_loop_failure_status (env : Env) (stackID : string) (n : nat)
    (stack : option cloudformation.Stack) (s : State)
    (st : cloudformation.Stack) (sts : list cloudformation.Stack) :
  cfDescribeStacks env (trace s ++ [EvDescribeStacks stackID]) = inl (st :: sts) ->
  failureStatus (cloudformation.StackStatus st) = true ->
  exists s',
    watchStack_loop env stackID (S n) stack s = Ok (Some st, None) s' /\
    trace s' = trace s ++ [EvDescribeStacks stackID].
Proof.
  intros Hd Hf.
  simpl. unfold bind at 1. unfold logMessage at 1. unfold bind at 1. simpl.
  unfold bind at 1. simpl. rewrite Hd.
  unfold failureStatus in Hf. simpl in Hf.
  repeat match goal with
         | |- context [String.eqb ?a ?b] => destruct (String.eqb a b)
         end;
    try (eexists; split; reflexivity).
  discriminate.
Qed.

(** ** Counting requests *)

Lemma sent_app (p : Event -> bool) (evs1 evs2 : list Event) :
  sent p (evs1 ++ evs2) = (sent p evs1 + sent p evs2)%nat.
Proof. unfold sent. now rewrite filter_app, length_app. Qed.

Lemma atmost_bind {A B : Type} (p : Event -> bool) (k1 k2 : nat)
    (m : M A) (k : A -> M B) :
  atmost p k1 m -> (forall x, atmost p k2 (k x)) -> atmost p (k1 + k2) (bind m k).
Proof.
  apply adds_bind.
  - unfold sent. simpl. lia.
  - intros evs1 evs2 H1 H2. rewrite sent_app. lia.
Qed.

Lemma only_atmost {A : Type} (p : Event -> bool) (k : nat) (m : M A) :
  only (fun e => negb (p e)) m -> atmost p k m.
Proof.
  apply adds_weaken. intros evs H. unfold sent.
  replace (filter p evs) with (@nil Event); [simpl; lia |].
  induction evs as [| e evs IH]; [reflexivity |].
  simpl in *. apply andb_true_iff in H. destruct H as [He Hevs].
  destruct (p e); [discriminate | now apply IH].
Qed.

Lemma only_Test_teardown (env : Env) (p : Event -> bool) :
  (forall name, p (EvDeleteStack name) = true) -> only p (Test_teardown env).
Proof.
  intros p_delete. pose proof (only_DeleteStack env p p_delete).
  unfold Test_teardown. walk_only.
Qed.

Section Invocations.

Variable env : Env.

Lemma callLamda_invokes_once : atmost isInvoke 1 (callLamda env).
Proof.
  assert (Hs : forall n, notInvoke (EvSleep n) = true) by reflexivity.
  assert (Hd : forall name, notInvoke (EvDescribeStacks name) = true) by reflexivity.
  unfold callLamda.
  apply (atmost_bind (k1 := 0) (k2 := 1)); [apply only_atmost, only_logMessage | intros _].
  apply (atmost_bind (k1 := 0) (k2 := 1));
    [apply only_atmost, only_getStackInfo; assumption | intros err].
  destruct err as [e |]; [apply only_atmost; walk_only |].
  apply (atmost_bind (k1 := 0) (k2 := 1)); [apply only_atmost, only_logMessage | intros _].
  apply (atmost_bind (k1 := 0) (k2 := 1)); [apply only_atmost; walk_only | intros payload].
  apply (atmost_bind (k1 := 0) (k2 := 1)); [apply only_atmost; walk_only | intros seconds].
  apply (atmost_bind (k1 := 0) (k2 := 1)); [apply only_atmost, only_logMessage | intros _].
  apply (atmost_bind (k1 := 0) (k2 := 1)); [apply only_atmost, only_sleep; reflexivity | intros _].
  apply (atmost_bind (k1 := 0) (k2 := 1)); [apply only_atmost, only_logMessage | intros _].
  apply (atmost_bind (k1 := 0) (k2 := 1)); [apply only_atmost; walk_only | intros fn].
  apply (atmost_bind (k1 := 1) (k2 := 0)).
  - apply adds_request. unfold sent. simpl. lia.
  - intros tr. apply only_atmost.
    walk_only.
Qed.

Lemma Test_retry_invokes (n : nat) (err : option error) :
  atmost isInvoke n (Test_retry env n err).
Proof.
  revert err. induction n as [| n IH]; intros err; simpl.
  - apply adds_ret. unfold sent. simpl. lia.
  - apply (atmost_bind (k1 := 1) (k2 := n)); [| intros; apply IH].
    destruct err as [e |]; [| apply only_atmost; walk_only].
    destruct (strings.Contains e "Service"); [| apply only_atmost; walk_only].
    apply (atmost_bind (k1 := 0) (k2 := 1)); [apply only_atmost, only_logMessage | intros _].
    apply (atmost_bind (k1 := 0) (k2 := 1));
      [apply only_atmost, only_sleep; reflexivity | intros _].
    apply callLamda_invokes_once.
Qed.

Lemma Test_invoke_invokes : atmost isInvoke 6 (Test_invoke env).
Proof.
  unfold Test_invoke.
  apply (atmost_bind (k1 := 0) (k2 := 6)); [apply only_atmost; walk_only | intros created].
  destruct created; [| apply only_atmost; walk_only].
  apply (atmost_bind (k1 := 0) (k2 := 6)); [apply only_atmost; walk_only | intros seconds].
  apply (atmost_bind (k1 := 0) (k2 := 6)); [apply only_atmost, only_logMessage | intros _].
  apply (atmost_bind (k1 := 0) (k2 := 6));
    [apply only_atmost, only_sleep; reflexivity | intros _].
  apply (atmost_bind (k1 := 0) (k2 := 6)); [apply only_atmost, only_logMessage | intros _].
  apply (atmost_bind (k1 := 1) (k2 := 5)); [apply callLamda_invokes_once | intros err].
  apply (atmost_bind (k1 := 0) (k2 := 5)); [apply only_atmost, only_logMessage | intros _].
  apply (atmost_bind (k1 := 5) (k2 := 0)); [apply Test_retry_invokes | intros err'].
  apply only_atmost. destruct err'; walk_only.
Qed.

Lemma Test_invokes : atmost isInvoke 6 (Test env).
Proof.
  unfold Test.
  apply (atmost_bind (k1 := 0) (k2 := 6)); [apply only_atmost, only_logMessage | intros _].
  apply (atmost_bind (k1 := 0) (k2 := 6)).
  - apply only_atmost, only_Test_provision; reflexivity.
  - intros err. destruct err as [e |]; [apply only_atmost; walk_only |].
    apply (atmost_bind (k1 := 6) (k2 := 0)); [apply Test_invoke_invokes | intros err].
    apply only_atmost. destruct err; [walk_only |].
    apply only_Test_teardown. reflexivity.
Qed.

(** An error outside the transient signature, or no error, ends the
    retries: the rest of the loop does nothing. *)
Lemma Test_retry_stops (n : nat) (err : option error) (s : State) :
  transient err = false -> Test_retry env n err s = Ok err s.
Proof.
  intros H. induction n as [| n IH]; simpl; [reflexivity |].
  unfold bind. destruct err as [e |]; simpl in H.
  - rewrite H. exact IH.
  - exact IH.
Qed.

(** A transient error with iterations left: log, sleep ten seconds,
    call the lambda again, go on with one iteration less. *)
Lemma Test_retry_again (n : nat) (e : error) (s : State) :
  transient (Some e) = true ->
  Test_retry env (S n) (Some e) s =
    (logMessage env "service exception, sleeping and trying lambda again" ;;
     sleep 10 ;;
     err' <- callLamda env ;;
     Test_retry env n err') s.
Proof.
  intros H. simpl in H. simpl. rewrite H.
  unfold bind. destruct (logMessage env _ s) as [[] s1 | msg s1]; [| reflexivity].
  destruct (sleep 10 s1) as [[] s2 | msg s2]; reflexivity.
Qed.

End Invocations.

(** ** The orchestrator *)



(** The bound is reached: against a service that keeps answering with the
    transient error, [Test] invokes six times, sleeps ten seconds five
    times and returns the last error. *)
Example Test_retry_exhausted :
  let env := Scenario.account "CREATE_COMPLETE"
               (InvokeError "ServiceException: function not ready") in
  let r := Test env (Scenario.start env Scenario.resume) in
  r = Ok (Some "ServiceException: function not ready") (res_state r) /\
  sent isInvoke (trace (res_state r)) = 6%nat /\
  sent isRetrySleep (trace (res_state r)) = 5%nat /\
  sent isDelete (trace (res_state r)) = 0%nat.
Proof. vm_compute. repeat split. Qed.

Lemma Test_after_start (env : Env) (s s1 : State) :
  Test_start env s = Ok None s1 ->
  Test env s =
    (err <- Test_invoke env ;;
     match err with
     | Some e => ret (Some e)
     | None => Test_teardown env
     end) s1.
Proof.
  unfold Test_start, Test, bind. intros H.
  destruct (logMessage env "starting test" s) as [[] s0 | msg s0]; [| discriminate].
  destruct (Test_provision env s0) as [[e |] s0' | msg s0']; try discriminate.
  now inversion H.
Qed.

Lemma Test_start_created (env : Env) (s : State) :
  FlipTester.stackCreated (self s) = true ->
  exists s1, Test_start env s = Ok None s1 /\ trace s1 = trace s /\
             FlipTester.stackCreated (self s1) = true /\
             FlipTester.RetainStack (self s1) = FlipTester.RetainStack (self s).
Proof.
  intros H. unfold Test_start, Test_provision, bind, logMessage, bind, field.
  simpl. rewrite H. simpl. eexists. repeat split. exact H.
Qed.

Lemma only_Test_start (env : Env) (p : Event -> bool) :
  (forall n, p (EvSleep n) = true) ->
  (forall name, p (EvDescribeStacks name) = true) ->
  (forall filename, p (EvReadFile filename) = true) ->
  (forall input, p (EvCreateStack input) = true) ->
  only p (Test_start env).
Proof.
  intros p_sleep p_describe p_read p_create.
  pose proof (only_Test_provision env p p_sleep p_describe p_read p_create).
  unfold Test_start. walk_only.
Qed.

Lemma keeps_Test_start (env : Env) {F : Type} (f : FlipTester.t -> F) :
  (forall v ft, f (FlipTester.set_log v ft) = f ft) ->
  (forall v ft, f (FlipTester.set_StackName v ft) = f ft) ->
  (forall v ft, f (FlipTester.set_stackCreated v ft) = f ft) ->
  keeps f (Test_start env).
Proof.
  intros f_log f_name f_created.
  pose proof (keeps_Test_provision env f f_log f_name f_created).
  pose proof (keeps_logMessage env f f_log).
  unfold Test_start. walk_keeps.
Qed.

(** The events of the first two phases of a run hold no [DeleteStack]. *)
Lemma no_delete_before_teardown (env : Env) (s s1 s2 : State)
    (err1 err2 : option error) :
  Test_start env s = Ok err1 s1 ->
  Test_invoke env s1 = Ok err2 s2 ->
  exists evs, trace s2 = trace s ++ evs /\ forallb notDelete evs = true.
Proof.
  intros H1 H2.
  assert (O1 : only notDelete (Test_start env))
    by (apply only_Test_start; reflexivity).
  assert (O2 : only notDelete (Test_invoke env))
    by (apply only_Test_invoke; reflexivity).
  destruct (O1 s) as [evs1 [T1 F1]]. rewrite H1 in T1. simpl in T1.
  destruct (O2 s1) as [evs2 [T2 F2]]. rewrite H2 in T2. simpl in T2.
  exists (evs1 ++ evs2). split.
  - now rewrite T2, T1, app_assoc.
  - now rewrite forallb_app, F1, F2.
Qed.

Lemma RetainStack_before_teardown (env : Env) (s s1 s2 : State)
    (err1 err2 : option error) :
  Test_start env s = Ok err1 s1 ->
  Test_invoke env s1 = Ok err2 s2 ->
  FlipTester.RetainStack (self s2) = FlipTester.RetainStack (self s).
Proof.
  intros H1 H2.
  assert (K1 : keeps FlipTester.RetainStack (Test_start env))
    by (apply keeps_Test_start; reflexivity).
  assert (K2 : keeps FlipTester.RetainStack (Test_invoke env))
    by (apply keeps_Test_invoke; reflexivity).
  specialize (K1 s). rewrite H1 in K1. simpl in K1.
  specialize (K2 s1). rewrite H2 in K2. simpl in K2.
  congruence.
Qed.

(** The teardown of a tester that does not retain its stack. *)
Lemma Test_teardown_deleting (env : Env) (s : State) :
  FlipTester.RetainStack (self s) = false ->
  let tr := trace s ++ [EvDeleteStack (FlipTester.StackName (self s))] in
  exists s',
    Test_teardown env s = Ok (cfDeleteStack env tr) s' /\
    trace s' = tr /\
    FlipTester.stackCreated (self s') =
      match cfDeleteStack env tr with
      | None => false
      | Some _ => FlipTester.stackCreated (self s)
      end.
Proof.
  intros H tr. unfold Test_teardown, bind, field. rewrite H. simpl.
  unfold DeleteStack, bind, field, request, ret. simpl. fold tr.
  destruct (cfDeleteStack env tr) as [e |]; simpl;
    eexists; repeat split.
Qed.

(** A list with a violating element is rejected, and the error by which
    [callLamda] reports this is outside the transient signature. *)
Lemma checkResults_rejects (env : Env) (results : list TestResult.t) (s : State) :
  existsb violates results = true ->
  exists msg s', checkResults env results s = Ok (false, Some msg) s'.
Proof.
  induction results as [| r rest IH]; simpl; [discriminate |].
  unfold violates at 1. intros H.
  destruct (negb (TestResult.Success r)); [eexists; eexists; reflexivity |].
  destruct (PrimFloat.ltb maxTime (TestResult.ElapsedTimeS r));
    [eexists; eexists; reflexivity |].
  simpl in H. now apply IH.
Qed.

Lemma validation_error_not_transient :
  transient (Some "tests failed or took too long") = false.
Proof. reflexivity. Qed.

(** *** Rules for [wp] *)

Lemma wp_run {A : Type} (m : M A) (Q : A -> State -> Prop) (s s' : State) (a : A) :
  wp m Q s -> m s = Ok a s' -> Q a s'.
Proof. unfold wp. intros H E. now rewrite E in H. Qed.

Arguments wp_run {A m Q s s' a} _ _.

Lemma wp_ret {A : Type} (a : A) (Q : A -> State -> Prop) (s : State) :
  Q a s -> wp (ret a) Q s.
Proof. exact (fun H => H). Qed.

Lemma wp_bind {A B : Type} (m : M A) (k : A -> M B) (Q : B -> State -> Prop)
    (s : State) :
  wp m (fun a s1 => wp (k a) Q s1) s -> wp (bind m k) Q s.
Proof. unfold wp, bind. now destruct (m s). Qed.

Lemma wp_conseq {A : Type} (m : M A) (Q Q' : A -> State -> Prop) (s : State) :
  wp m Q' s -> (forall a s', Q' a s' -> Q a s') -> wp m Q s.
Proof. unfold wp. destruct (m s); auto. Qed.

Lemma wp_field {A : Type} (f : FlipTester.t -> A) (Q : A -> State -> Prop)
    (s : State) :
  Q (f (self s)) s -> wp (field f) Q s.
Proof. exact (fun H => H). Qed.

Lemma wp_assign (g : FlipTester.t -> FlipTester.t) (Q : unit -> State -> Prop)
    (s : State) :
  Q tt (mkState (g (self s)) (trace s)) -> wp (assign g) Q s.
Proof. exact (fun H => H). Qed.

Lemma wp_history (Q : list Event -> State -> Prop) (s : State) :
  Q (trace s) s -> wp history Q s.
Proof. exact (fun H => H). Qed.

Lemma wp_request (e : Event) (Q : list Event -> State -> Prop) (s : State) :
  Q (trace s ++ [e]) (mkState (self s) (trace s ++ [e])) -> wp (request e) Q s.
Proof. exact (fun H => H). Qed.

Lemma wp_sleep (n : Z) (Q : unit -> State -> Prop) (s : State) :
  Q tt (mkState (self s) (trace s ++ [EvSleep n])) -> wp (sleep n) Q s.
Proof. exact (fun H => H). Qed.

(** The log entry itself is of no interest to what follows. *)
Lemma wp_logMessage (env : Env) (msg : string) (Q : unit -> State -> Prop)
    (s : State) :
  (forall lg, Q tt (mkState (FlipTester.set_log lg (self s)) (trace s))) ->
  wp (logMessage env msg) Q s.
Proof. intros H. apply H. Qed.

Ltac wp_step :=
  lazymatch goal with
  | |- wp (logMessage _ _) _ _ => apply wp_logMessage; intros ?
  | |- wp (sleep _) _ _ => apply wp_sleep
  | |- wp (field _) _ _ => apply wp_field
  | |- wp (assign _) _ _ => apply wp_assign
  | |- wp history _ _ => apply wp_history
  | |- wp (request _) _ _ => apply wp_request
  | |- wp (ret _) _ _ => apply wp_ret
  | |- wp (bind _ _) _ _ => apply wp_bind
  | |- wp (match ?x with _ => _ end) _ _ => destruct x eqn:?
  end;
  cbv beta; cbn [self trace].

(** *** What [callLamda] reports about the validation *)

Lemma wp_getStackInfo (env : Env) (s : State) :
  wp (getStackInfo env)
     (fun _ s' =>
        trace s' = trace s ++ [EvDescribeStacks (FlipTester.StackName (self s))] /\
        FlipTester.TestResults (self s') = FlipTester.TestResults (self s))
     s.
Proof. unfold getStackInfo. repeat wp_step; simpl; split; reflexivity. Qed.

Lemma wp_checkResults (env : Env) (results : list TestResult.t) (s : State) :
  wp (checkResults env results)
     (fun r s' =>
        trace s' = trace s /\
        FlipTester.TestResults (self s') = FlipTester.TestResults (self s) /\
        (snd r = None <-> existsb violates results = false))
     s.
Proof.
  revert s. induction results as [| r rest IH]; intros s; simpl.
  - wp_step. simpl. tauto.
  - unfold violates at 1.
    destruct (negb (TestResult.Success r)); simpl.
    + repeat wp_step. simpl. repeat split; discriminate.
    + destruct (PrimFloat.ltb maxTime (TestResult.ElapsedTimeS r)); simpl.
      * repeat wp_step. simpl. repeat split; discriminate.
      * apply IH.
Qed.

Lemma not_reported_after_describe (env : Env) (r : option error) (s : State)
    (tr : list Event) (name : string) :
  trace s = tr ++ [EvDescribeStacks name] -> reported env r s.
Proof.
  intros T tr0 fn payload results T'. rewrite T in T'.
  apply app_inj_tail in T'. destruct T' as [_ T']. discriminate.
Qed.

(** [callLamda] reports a failed validation by its fixed error, and
    returns nil only for results that pass. *)
Lemma wp_callLamda (env : Env) (s : State) :
  wp (callLamda env) (fun r s' => reported env r s' /\ validated r s') s.
Proof.
  unfold callLamda. do 3 wp_step.
  eapply wp_conseq; [apply wp_getStackInfo |]. simpl. intros err sB [TB _].
  destruct err as [e |].
  - wp_step. split; [| intros N; discriminate N].
    now apply not_reported_after_describe with (1 := TB).
  - do 17 wp_step.
    + wp_step. split; [| intros N; discriminate N].
      intros tr0 fn payload results _ A. simpl in *. congruence.
    + do 3 wp_step. split; [| intros N; discriminate N].
      intros tr0 fn payload results _ A. simpl in *. congruence.
    + do 7 wp_step. simpl.
      eapply wp_conseq; [apply wp_checkResults |]. simpl.
      intros [ok err] sD (TD & RD & VD). simpl in VD.
      do 3 wp_step. simpl. split.
      * intros tr0 fn payload results' _ A V. simpl in *.
        rewrite TD in A. simpl in A.
        assert (results' = results) by congruence. subst results'.
        destruct err as [e |]; [now split |].
        rewrite (proj1 VD eq_refl) in V. discriminate.
      * intros N. simpl in *. rewrite RD. apply VD.
        now destruct err.
Qed.

Lemma wp_Test_retry (env : Env) (n : nat) (err : option error) (s : State) :
  reported env err s /\ validated err s ->
  wp (Test_retry env n err) (fun r s' => reported env r s' /\ validated r s') s.
Proof.
  revert err s. induction n as [| n IH]; intros err s H; simpl.
  - now wp_step.
  - wp_step. destruct err as [e |].
    + destruct (strings.Contains e "Service").
      * do 4 wp_step.
        eapply wp_conseq; [apply wp_callLamda |]. simpl.
        intros err' s' H'. now apply IH.
      * wp_step. now apply IH.
    + wp_step. now apply IH.
Qed.

(** The invocation block of [Test], started with the created-flag set. *)
Lemma wp_Test_invoke (env : Env) (s : State) :
  FlipTester.stackCreated (self s) = true ->
  wp (Test_invoke env)
     (fun r s' =>
        reported env r s' /\ validated r s' /\
        (r = None -> FlipTester.Passed (self s') = true))
     s.
Proof.
  intros Hc. unfold Test_invoke. do 2 wp_step. rewrite Hc.
  repeat wp_step.
  eapply wp_conseq; [apply wp_callLamda |]. cbv beta. intros err s1 [R1 V1].
  repeat wp_step.
  eapply wp_conseq; [apply wp_Test_retry; split; [exact R1 | exact V1] |].
  simpl. intros [e |] s2 [R V].
  - wp_step. split; [exact R |]. split; intros N; discriminate N.
  - repeat wp_step. split; [exact R |]. split; [exact V | reflexivity].
Qed.

Lemma wp_watchStack_loop (env : Env) (stackID : string) (n : nat)
    (stack : option cloudformation.Stack) (s : State) :
  wp (watchStack_loop env stackID n stack)
     (fun _ s' => FlipTester.stackCreated (self s') = FlipTester.stackCreated (self s))
     s.
Proof.
  pose proof (keeps_watchStack_loop env FlipTester.stackCreated
                (fun _ _ => eq_refl) stackID n stack s) as K.
  unfold wp. now destruct (watchStack_loop env stackID n stack s).
Qed.

(** When the provisioning step returns nil, the created-flag is set. *)
Lemma wp_Test_start (env : Env) (s : State) :
  wp (Test_start env)
     (fun r s' => r = None -> FlipTester.stackCreated (self s') = true) s.
Proof.
  unfold Test_start, Test_provision. do 4 wp_step. simpl.
  destruct (FlipTester.stackCreated (self s)) eqn:Hc; simpl.
  - now wp_step.
  - unfold CreateStack, getTemplateBody, watchStack.
    repeat first
      [ wp_step
      | eapply wp_conseq; [apply wp_watchStack_loop | simpl; intros [? ?] ? ?] ];
      simpl; try discriminate; reflexivity.
Qed.

(** C8.  A run of [Test] whose invocation block ends without error: the
    last [callLamda] invoked the probe and its results passed the
    validation.  Without [RetainStack], [DeleteStack] is the last request
    of the run, [Test] returns its answer, and when the answer is nil the
    created-flag is false afterwards.  With [RetainStack], [Test] returns
    nil and no [DeleteStack] is among the requests of the run. *)
Theorem Test_teardown_after_pass (env : Env) (s s1 s2 : State) :
  Test_start env s = Ok None s1 ->
  Test_invoke env s1 = Ok None s2 ->
  existsb violates (FlipTester.TestResults (self s2)) = false /\
  (FlipTester.RetainStack (self s) = false ->
   let tr := trace s2 ++ [EvDeleteStack (FlipTester.StackName (self s2))] in
   exists s3,
     Test env s = Ok (cfDeleteStack env tr) s3 /\
     trace s3 = tr /\
     (cfDeleteStack env tr = None -> FlipTester.stackCreated (self s3) = false)) /\
  (FlipTester.RetainStack (self s) = true ->
   exists s3 evs,
     Test env s = Ok None s3 /\
     trace s3 = trace s ++ evs /\
     forallb notDelete evs = true).
Proof.
  intros H1 H2.
  pose proof (RetainStack_before_teardown env s H1 H2) as HR.
  assert (HT : Test env s = Test_teardown env s2).
  { rewrite (Test_after_start env s H1). unfold bind. now rewrite H2. }
  split; [| split; intros Hretain; rewrite Hretain in HR].
  - pose proof (wp_run (wp_Test_start env s) H1 eq_refl) as Hc.
    destruct (wp_run (wp_Test_invoke env s1 Hc) H2) as (_ & V & _).
    now apply V.
  - intros tr. subst tr.
    destruct (Test_teardown_deleting env s2 HR) as [s3 [E [T C]]].
    exists s3. rewrite HT. repeat split; try assumption.
    intros Hok. rewrite C. now rewrite Hok.
  - destruct (only_Test_teardown_retained env s2 HR) as [s3 [E [T _]]].
    destruct (no_delete_before_teardown env s H1 H2) as [evs [T2 F]].
    exists s3, evs. rewrite HT. repeat split; try assumption.
    now rewrite T.
Qed.

Lemma Test_teardown_after_pass_witness :
  let env := Scenario.account "CREATE_COMPLETE" (InvokeResults [Scenario.passing]) in
  exists s3,
    Test env (Scenario.start env Scenario.resume) = Ok None s3 /\
    FlipTester.stackCreated (self s3) = false /\
    sent isDelete (trace s3) = 1%nat.
Proof.
  intros env.
  pose (s := Scenario.start env Scenario.resume).
  pose (s1 := res_state (Test_start env s)).
  pose (s2 := res_state (Test_invoke env s1)).
  assert (H1 : Test_start env s = Ok None s1) by (vm_compute; reflexivity).
  assert (H2 : Test_invoke env s1 = Ok None s2) by (vm_compute; reflexivity).
  assert (HR : FlipTester.RetainStack (self s) = false) by (vm_compute; reflexivity).
  destruct (proj1 (proj2 (Test_teardown_after_pass env s H1 H2)) HR)
    as [s3 [E [T C]]].
  exists s3. split; [exact E |]. split.
  - apply C. reflexivity.
  - rewrite T. vm_compute. reflexivity.
Defined.

(** When the invocation block ends with an error, [Test] returns it at
    line 456: no [DeleteStack] is among the requests of the run, and the
    created-flag stays set. *)
Lemma Test_invoke_error_returns (env : Env) (s s1 s2 : State) (e : error) :
  Test_start env s = Ok None s1 ->
  Test_invoke env s1 = Ok (Some e) s2 ->
  Test env s = Ok (Some e) s2 /\
  (exists evs, trace s2 = trace s ++ evs /\ forallb notDelete evs = true) /\
  FlipTester.stackCreated (self s2) = true.
Proof.
  intros H1 H2. split; [| split].
  - rewrite (Test_after_start env s H1). unfold bind. now rewrite H2.
  - exact (no_delete_before_teardown env s H1 H2).
  - assert (K : keeps FlipTester.stackCreated (Test_invoke env))
      by (apply keeps_Test_invoke; reflexivity).
    specialize (K s1). rewrite H2 in K. simpl in K. rewrite K.
    unfold Test_invoke, bind, field in H2.
    destruct (FlipTester.stackCreated (self s1)); [reflexivity | discriminate].
Qed.







(** ** Provisioning *)

(** C3.  [CreateStack] waits with [watchStack(stackID, 90)].  Against a
    stack that stays in [CREATE_IN_PROGRESS], the wait ends after ninety
    polls, and it returns the stack with a nil error, not a timeout
    error. *)
Theorem watchStack_timeout_returns_nil :
  let env := Scenario.account "CREATE_IN_PROGRESS" (InvokeResults [Scenario.passing]) in
  let r := watchStack env Scenario.stackId 90 (Scenario.start env Scenario.fresh) in
  terminalStatus "CREATE_IN_PROGRESS" = false /\
  r = Ok (Some (Scenario.stackWith "CREATE_IN_PROGRESS"), None) (res_state r) /\
  sent isDescribe (trace (res_state r)) = 90%nat.
Proof. vm_compute. repeat split. Qed.

(** [CreateStack] then marks the stack as created and returns nil. *)
Example CreateStack_after_timeout :
  let env := Scenario.account "CREATE_IN_PROGRESS" (InvokeResults [Scenario.passing]) in
  let r := CreateStack env (Scenario.start env Scenario.fresh) in
  r = Ok None (res_state r) /\
  FlipTester.stackCreated (self (res_state r)) = true /\
  sent isDescribe (trace (res_state r)) = 90%nat.
Proof. vm_compute. repeat split. Qed.

(** C4.  Against a stack that the first poll finds in one of the six
    failure statuses, [CreateStack] returns a nil error and marks the
    stack as created. *)
Theorem CreateStack_failure_status_marks_created :
  Forall
    (fun status =>
       let env := Scenario.account status (InvokeResults [Scenario.passing]) in
       let r := CreateStack env (Scenario.start env Scenario.fresh) in
       failureStatus status = true /\
       r = Ok None (res_state r) /\
       FlipTester.stackCreated (self (res_state r)) = true /\
       sent isDescribe (trace (res_state r)) = 1%nat)
    ["ROLLBACK_IN_PROGRESS"; "ROLLBACK_COMPLETE"; "CREATE_FAILED";
     "DELETE_IN_PROGRESS"; "DELETE_COMPLETE"; "DELETE_FAILED"].
Proof.
  repeat (apply Forall_cons; [vm_compute; repeat split |]).
  apply Forall_nil.
Qed.

(** * Further properties of the package *)

(** ** The constructor *)

(** X1.  Whenever [New] returns, it has sent no request, it has written
    its defaults into [*input], and it returns either a tester and a nil
    error or a nil tester and an error. *)
Theorem New_returns_tester_or_error (env : Env) (input : FlipTesterInput.t)
    (tr : list Event) (fliptester : option FlipTester.t) (err : option error)
    (input' : FlipTesterInput.t) (tr' : list Event) :
  New env input tr = NewReturned fliptester err input' tr' ->
  tr' = tr /\ input' = withDefaults input /\
  ((fliptester = None /\ err <> None) \/ (fliptester <> None /\ err = None)).
Proof.
  unfold New. destruct (FlipTesterInput.Session input) as [sn |]; [| discriminate].
  unfold New_build, bind, assign, logMessage, bind, history, assign, field, ret.
  simpl.
  destruct (String.eqb (FlipTesterInput.StackName input) ""); simpl.
  - destruct (String.eqb (FlipTesterInput.SubnetId input) ""); simpl.
    + intros H. inversion H. repeat split. left. split; [reflexivity | discriminate].
    + destruct (String.eqb (FlipTesterInput.VpcId input) ""); simpl.
      * intros H. inversion H. repeat split. left. split; [reflexivity | discriminate].
      * destruct (String.eqb (FlipTesterInput.StackPrefix input) ""); simpl;
          destruct (length (FlipTesterInput.TestUrls input) <? 1)%nat; simpl;
          intros H; inversion H; repeat split; right; (split; [discriminate | reflexivity]).
  - destruct (length (FlipTesterInput.TestUrls input) <? 1)%nat; simpl;
      intros H; inversion H; repeat split; right; (split; [discriminate | reflexivity]).
Qed.

Lemma New_returns_tester_or_error_witness :
  let env := Scenario.account "CREATE_COMPLETE" (InvokeResults [Scenario.passing]) in
  exists ft, New env Scenario.fresh [EvSleep 1] =
             NewReturned (Some ft) None (withDefaults Scenario.fresh) [EvSleep 1].
Proof.
  intros env.
  assert (H : New env Scenario.fresh [EvSleep 1] =
              NewReturned (Some (FlipTester.set_log []
                                   (Scenario.tester env Scenario.fresh)))
                None (withDefaults Scenario.fresh) [EvSleep 1])
    by (vm_compute; reflexivity).
  destruct (New_returns_tester_or_error env Scenario.fresh [EvSleep 1] H)
    as (_ & _ & _).
  eexists. exact H.
Defined.

(** X2.  With a session, [New] fails exactly on the fresh-provisioning
    path with a missing subnet or VPC id; the subnet is checked first, so
    when both are missing the error names the subnet. *)
Theorem New_error_cases (env : Env) (input : FlipTesterInput.t)
    (tr : list Event) (sn : Session) :
  FlipTesterInput.Session input = Some sn ->
  match New env input tr with
  | NewReturned _ (Some e) _ _ =>
      FlipTesterInput.StackName input = "" /\
      ((FlipTesterInput.SubnetId input = "" /\
        e = "SubnetId is a required input field if StackName is not supplied") \/
       (FlipTesterInput.SubnetId input <> "" /\
        FlipTesterInput.VpcId input = "" /\
        e = "VpcId is a required input field if StackName is not supplied"))
  | NewReturned _ None _ _ =>
      FlipTesterInput.StackName input <> "" \/
      (FlipTesterInput.SubnetId input <> "" /\ FlipTesterInput.VpcId input <> "")
  | NewPanicked _ _ => False
  end.
Proof.
  intros Hs. rewrite (New_with_session env input tr Hs).
  unfold New_build, bind, assign, logMessage, bind, history, assign, field, ret.
  simpl.
  destruct (String.eqb_spec (FlipTesterInput.StackName input) "") as [En | Nn]; simpl.
  - destruct (String.eqb_spec (FlipTesterInput.SubnetId input) "") as [Es | Ns]; simpl.
    + split; [exact En |]. left. now split.
    + destruct (String.eqb_spec (FlipTesterInput.VpcId input) "") as [Ev | Nv]; simpl.
      * split; [exact En |]. right. now repeat split.
      * destruct (String.eqb (FlipTesterInput.StackPrefix input) ""); simpl;
          destruct (length (FlipTesterInput.TestUrls input) <? 1)%nat; simpl;
          right; now split.
  - destruct (length (FlipTesterInput.TestUrls input) <? 1)%nat; simpl; now left.
Qed.

Lemma New_error_cases_witness :
  New (Scenario.account "CREATE_COMPLETE" (InvokeResults [Scenario.passing]))
      (FlipTesterInput.mk "" "" "" "" "" [] false (Some Scenario.session) "" 0 0) [] =
  NewReturned None
    (Some "SubnetId is a required input field if StackName is not supplied")
    (withDefaults
       (FlipTesterInput.mk "" "" "" "" "" [] false (Some Scenario.session) "" 0 0))
    [].
Proof.
  pose proof (New_error_cases
                (Scenario.account "CREATE_COMPLETE" (InvokeResults [Scenario.passing]))
                (FlipTesterInput.mk "" "" "" "" "" [] false (Some Scenario.session) "" 0 0)
                [] eq_refl) as H.
  destruct (New _ _ _) as [ft [e |] input' tr' | msg tr'] eqn:E in H.
  - vm_compute. reflexivity.
  - destruct H as [H | [H _]]; now elim H.
  - elim H.
Defined.

(** X3.  The tester that [New] returns.  Its event always asks for
    "RunAll" and always carries URLs: the caller's when there are any,
    the three defaults otherwise.  The exported field [TestUrls] stays
    empty, no result is stored, [Passed] is false, and the context and the
    two sleep times are the caller's or, when left at their zero value,
    "Default", 40 and 20. *)
Theorem New_tester_event (env : Env) (input : FlipTesterInput.t)
    (tr : list Event) (ft : FlipTester.t) (err : option error)
    (input' : FlipTesterInput.t) (tr' : list Event) :
  New env input tr = NewReturned (Some ft) err input' tr' ->
  FlipTester.testEvent ft = Some (mkLambdaEvent "RunAll" (eventUrls ft)) /\
  eventUrls ft <> [] /\
  eventUrls ft = match FlipTesterInput.TestUrls input with
                 | [] => defaultTestUrls
                 | urls => urls
                 end /\
  FlipTester.TestUrls ft = [] /\
  FlipTester.TestResults ft = [] /\
  FlipTester.Passed ft = false /\
  FlipTester.sess ft = FlipTesterInput.Session input /\
  FlipTester.RetainStack ft = FlipTesterInput.RetainStack input /\
  FlipTester.context ft =
    (if String.eqb (FlipTesterInput.Context input) "" then "Default"
     else FlipTesterInput.Context input) /\
  FlipTester.initialSleepTimeSeconds ft =
    (if FlipTesterInput.InitialSleepTimeSeconds input =? 0 then 40
     else FlipTesterInput.InitialSleepTimeSeconds input) /\
  FlipTester.postEventSleepTimeSeconds ft =
    (if FlipTesterInput.PostEventSleepTimeSeconds input =? 0 then 20
     else FlipTesterInput.PostEventSleepTimeSeconds input).
Proof.
  unfold New. destruct (FlipTesterInput.Session input) as [sn |]; [| discriminate].
  unfold New_build, bind, assign, logMessage, bind, history, assign, field, ret.
  simpl.
  destruct (String.eqb (FlipTesterInput.StackName input) ""); simpl.
  - destruct (String.eqb (FlipTesterInput.SubnetId input) ""); simpl;
      [discriminate |].
    destruct (String.eqb (FlipTesterInput.VpcId input) ""); simpl;
      [discriminate |].
    destruct (String.eqb (FlipTesterInput.StackPrefix input) ""); simpl;
      destruct (FlipTesterInput.TestUrls input) as [| u us]; simpl;
      intros H; inversion H; unfold eventUrls; simpl;
      repeat split; discriminate.
  - destruct (FlipTesterInput.TestUrls input) as [| u us]; simpl;
      intros H; inversion H; unfold eventUrls; simpl;
      repeat split; discriminate.
Qed.

Lemma New_tester_event_witness :
  let env := Scenario.account "CREATE_COMPLETE" (InvokeResults [Scenario.passing]) in
  eventUrls (Scenario.tester env Scenario.fresh) = defaultTestUrls /\
  eventUrls (Scenario.tester env Scenario.resume) =
    FlipTesterInput.TestUrls Scenario.resume.
Proof.
  intros env.
  assert (H1 : New env Scenario.fresh [] =
               NewReturned (Some (Scenario.tester env Scenario.fresh)) None
                 (withDefaults Scenario.fresh) [])
    by (vm_compute; reflexivity).
  assert (H2 : New env Scenario.resume [] =
               NewReturned (Some (Scenario.tester env Scenario.resume)) None
                 (withDefaults Scenario.resume) [])
    by (vm_compute; reflexivity).
  split.
  - exact (proj1 (proj2 (proj2 (New_tester_event env Scenario.fresh [] H1)))).
  - exact (proj1 (proj2 (proj2 (New_tester_event env Scenario.resume [] H2)))).
Defined.

(** X4.  Resuming and provisioning are told apart by [StackName] alone.
    With a [StackName], the tester is marked as created under that name
    and the subnet, VPC, prefix and template of the input are ignored;
    the one log entry of [New] is written before the name is stored.
    Without, the tester is not created, has no name and no log entry,
    and carries the subnet, the VPC, the template file name and the
    prefix, which is [DefaultStackPrefix] when the input has none. *)
Theorem New_resume_or_provision (env : Env) (input : FlipTesterInput.t)
    (tr : list Event) (ft : FlipTester.t) (err : option error)
    (input' : FlipTesterInput.t) (tr' : list Event) :
  New env input tr = NewReturned (Some ft) err input' tr' ->
  FlipTester.StackName ft = FlipTesterInput.StackName input /\
  (FlipTesterInput.StackName input <> "" ->
   FlipTester.stackCreated ft = true /\
   FlipTester.subnetId ft = "" /\ FlipTester.vpcId ft = "" /\
   FlipTester.stackPrefix ft = "" /\ FlipTester.stackTemplateFilename ft = "" /\
   FlipTester.log ft =
     [logEntry (now env tr 0) (FlipTester.context ft) "" "using existing stack"]) /\
  (FlipTesterInput.StackName input = "" ->
   FlipTester.stackCreated ft = false /\
   FlipTester.subnetId ft = FlipTesterInput.SubnetId input /\
   FlipTester.vpcId ft = FlipTesterInput.VpcId input /\
   FlipTester.stackPrefix ft =
     (if String.eqb (FlipTesterInput.StackPrefix input) "" then DefaultStackPrefix
      else FlipTesterInput.StackPrefix input) /\
   FlipTester.stackTemplateFilename ft =
     FlipTesterInput.StackTemplateFilename input /\
   FlipTester.log ft = []).
Proof.
  unfold New. destruct (FlipTesterInput.Session input) as [sn |]; [| discriminate].
  unfold New_build, bind, assign, logMessage, bind, history, assign, field, ret.
  simpl.
  destruct (String.eqb_spec (FlipTesterInput.StackName input) "") as [En | Nn]; simpl.
  - destruct (String.eqb (FlipTesterInput.SubnetId input) ""); simpl;
      [discriminate |].
    destruct (String.eqb (FlipTesterInput.VpcId input) ""); simpl;
      [discriminate |].
    destruct (String.eqb (FlipTesterInput.StackPrefix input) ""); simpl;
      destruct (length (FlipTesterInput.TestUrls input) <? 1)%nat; simpl;
      intros H; inversion H; simpl;
      (split; [now rewrite En | split; [intros N; now elim N | intros _; repeat split]]).
  - destruct (length (FlipTesterInput.TestUrls input) <? 1)%nat; simpl;
      intros H; inversion H; simpl;
      (split; [reflexivity | split; [intros _; repeat split | intros N; now elim Nn]]).
Qed.

Lemma New_resume_or_provision_witness :
  let env := Scenario.account "CREATE_COMPLETE" (InvokeResults [Scenario.passing]) in
  FlipTester.stackCreated (Scenario.tester env Scenario.resume) = true /\
  FlipTester.stackCreated (Scenario.tester env Scenario.fresh) = false.
Proof.
  intros env.
  assert (H1 : New env Scenario.fresh [] =
               NewReturned (Some (Scenario.tester env Scenario.fresh)) None
                 (withDefaults Scenario.fresh) [])
    by (vm_compute; reflexivity).
  assert (H2 : New env Scenario.resume [] =
               NewReturned (Some (Scenario.tester env Scenario.resume)) None
                 (withDefaults Scenario.resume) [])
    by (vm_compute; reflexivity).
  split.
  - apply (proj1 (proj2 (New_resume_or_provision env Scenario.resume [] H2))).
    discriminate.
  - apply (proj2 (proj2 (New_resume_or_provision env Scenario.fresh [] H1))).
    reflexivity.
Defined.

(** ** Describing the stack *)



(** ** Calling the lambda *)

Lemma checkResults_silent (env : Env) (results : list TestResult.t) (s : State) :
  exists r s', checkResults env results s = Ok r s' /\ trace s' = trace s.
Proof.
  revert s. induction results as [| x rest IH]; intros s; simpl.
  - now exists (true, None), s.
  - destruct (negb (TestResult.Success x)).
    + eexists. eexists. split; reflexivity.
    + destruct (PrimFloat.ltb maxTime (TestResult.ElapsedTimeS x)).
      * eexists. eexists. split; reflexivity.
      * apply IH.
Qed.


Lemma wp_logMessage_entry (env : Env) (msg : string) (Q : unit -> State -> Prop)
    (s : State) :
  Q tt (mkState
          (FlipTester.set_log
             (FlipTester.log (self s) ++
              [logEntry (now env (trace s) (length (FlipTester.log (self s))))
                        (FlipTester.context (self s))
                        (FlipTester.StackName (self s)) msg])
             (self s))
          (trace s)) ->
  wp (logMessage env msg) Q s.
Proof. exact (fun H => H). Qed.

Lemma wp_callLamda_log (env : Env) (s : State) :
  wp (callLamda env)
     (fun _ s' =>
        forall tr0 fn payload results,
          trace s' = tr0 ++ [EvInvoke fn payload] ->
          lambdaInvoke env (trace s') = InvokeResults results ->
          exists t before,
            FlipTester.log (self s') =
              before ++ [logEntry t (FlipTester.context (self s'))
                                  (FlipTester.StackName (self s')) "tests passed"])
     s.
Proof.
  unfold callLamda. do 3 wp_step.
  eapply wp_conseq; [apply wp_getStackInfo |]. simpl. intros err sB [TB _].
  destruct err as [e |].
  - wp_step. intros tr0 fn payload results T. rewrite TB in T.
    apply app_inj_tail in T. destruct T as [_ T]. discriminate.
  - do 17 wp_step.
    + wp_step. intros tr0 fn payload results _ A. simpl in *. congruence.
    + do 3 wp_step. intros tr0 fn payload results _ A. simpl in *. congruence.
    + do 7 wp_step. simpl.
      eapply wp_conseq; [apply wp_checkResults |]. simpl.
      intros [ok err] sD _. wp_step.
      apply wp_logMessage_entry. wp_step.
      intros tr0 fn payload results' _ _. simpl.
      eexists. eexists. reflexivity.
Qed.

(** X7.  Whenever [callLamda] gets as far as the validation, the last
    entry it logs says "tests passed", whether the results passed or
    not. *)
Theorem callLamda_logs_tests_passed (env : Env) (s s' : State)
    (r : option error) (tr0 : list Event) (fn : string)
    (payload : option lambdaEvent) (results : list TestResult.t) :
  callLamda env s = Ok r s' ->
  trace s' = tr0 ++ [EvInvoke fn payload] ->
  lambdaInvoke env (trace s') = InvokeResults results ->
  exists t before,
    FlipTester.log (self s') =
      before ++ [logEntry t (FlipTester.context (self s'))
                          (FlipTester.StackName (self s')) "tests passed"].
Proof.
  intros H T A.
  exact (wp_run (wp_callLamda_log env s) H tr0 fn payload results T A).
Qed.

Lemma callLamda_logs_tests_passed_witness :
  let env := Scenario.account "CREATE_COMPLETE" (InvokeResults [Scenario.failing]) in
  let r := callLamda env (Scenario.start env Scenario.resume) in
  r = Ok (Some "tests failed or took too long") (res_state r) /\
  exists t before,
    FlipTester.log (self (res_state r)) =
      before ++ [logEntry t "Default" Scenario.stackName "tests passed"].
Proof.
  intros env r.
  assert (H : callLamda env (Scenario.start env Scenario.resume) =
              Ok (Some "tests failed or took too long") (res_state r))
    by (vm_compute; reflexivity).
  assert (T : trace (res_state r) =
              [EvDescribeStacks Scenario.stackName; EvSleep 20] ++
              [EvInvoke "egress-tester"
                 (Some (mkLambdaEvent "RunAll" (FlipTesterInput.TestUrls Scenario.resume)))])
    by (vm_compute; reflexivity).
  assert (A : lambdaInvoke env (trace (res_state r)) = InvokeResults [Scenario.failing])
    by (vm_compute; reflexivity).
  split; [exact H |].
  destruct (@callLamda_logs_tests_passed env _ _ _ _ _ _ _ H T A) as [t [before L]].
  exists t, before. rewrite L.
  assert (C : FlipTester.context (self (res_state r)) = "Default")
    by (vm_compute; reflexivity).
  assert (N : FlipTester.StackName (self (res_state r)) = Scenario.stackName)
    by (vm_compute; reflexivity).
  now rewrite C, N.
Defined.

Lemma wp_callLamda_results (env : Env) (s : State) :
  wp (callLamda env)
     (fun r s' =>
        (forall tr0 name,
           trace s' = tr0 ++ [EvDescribeStacks name] ->
           r <> None /\
           FlipTester.TestResults (self s') = FlipTester.TestResults (self s)) /\
        (forall tr0 fn payload e,
           trace s' = tr0 ++ [EvInvoke fn payload] ->
           lambdaInvoke env (trace s') = InvokeError e ->
           r = Some e /\
           FlipTester.TestResults (self s') = FlipTester.TestResults (self s)))
     s.
Proof.
  unfold callLamda. do 3 wp_step.
  eapply wp_conseq; [apply wp_getStackInfo |]. simpl. intros err sB [TB RB].
  destruct err as [e |].
  - wp_step. split.
    + intros _ _ _. split; [discriminate | exact RB].
    + intros tr0 fn payload e0 T. rewrite TB in T.
      apply app_inj_tail in T. destruct T as [_ T]. discriminate.
  - do 17 wp_step.
    + wp_step. split.
      * intros tr0 name T. simpl in T.
        apply app_inj_tail in T. destruct T as [_ T]. discriminate.
      * intros tr0 fn payload e0 _ A. simpl in *.
        split; [congruence | exact RB].
    + do 3 wp_step. split.
      * intros tr0 name T. simpl in T.
        apply app_inj_tail in T. destruct T as [_ T]. discriminate.
      * intros tr0 fn payload e0 _ A. simpl in *. congruence.
    + do 7 wp_step. simpl.
      eapply wp_conseq; [apply wp_checkResults |]. simpl.
      intros [ok err] sD (TD & _ & _). do 3 wp_step. simpl. split.
      * intros tr0 name T. rewrite TD in T. simpl in T.
        apply app_inj_tail in T. destruct T as [_ T]. discriminate.
      * intros tr0 fn payload e0 _ A. rewrite TD in A. simpl in *. congruence.
Qed.

(** X8.  A [callLamda] that fails before it has an answer to decode,
    because the stack cannot be described or because the invocation
    itself fails, returns that failure and leaves [TestResults] as they
    were: what the tester holds are the results of an earlier call. *)
Theorem callLamda_failure_keeps_results (env : Env) (s s' : State)
    (r : option error) :
  callLamda env s = Ok r s' ->
  (forall tr0 name,
     trace s' = tr0 ++ [EvDescribeStacks name] ->
     r <> None /\
     FlipTester.TestResults (self s') = FlipTester.TestResults (self s)) /\
  (forall tr0 fn payload e,
     trace s' = tr0 ++ [EvInvoke fn payload] ->
     lambdaInvoke env (trace s') = InvokeError e ->
     r = Some e /\
     FlipTester.TestResults (self s') = FlipTester.TestResults (self s)).
Proof.
  intros H. exact (wp_run (wp_callLamda_results env s) H).
Qed.

Lemma callLamda_failure_keeps_results_witness :
  let env := Scenario.account "CREATE_COMPLETE"
               (InvokeError "ServiceException: function not ready") in
  let s := mkState (FlipTester.set_TestResults [Scenario.passing]
                      (Scenario.tester env Scenario.resume)) [] in
  let r := callLamda env s in
  r = Ok (Some "ServiceException: function not ready") (res_state r) /\
  FlipTester.TestResults (self (res_state r)) = [Scenario.passing].
Proof.
  intros env s r.
  assert (H : callLamda env s =
              Ok (Some "ServiceException: function not ready") (res_state r))
    by (vm_compute; reflexivity).
  assert (T : trace (res_state r) =
              [EvDescribeStacks Scenario.stackName; EvSleep 20] ++
              [EvInvoke "egress-tester"
                 (Some (mkLambdaEvent "RunAll" (FlipTesterInput.TestUrls Scenario.resume)))])
    by (vm_compute; reflexivity).
  assert (A : lambdaInvoke env (trace (res_state r)) =
              InvokeError "ServiceException: function not ready")
    by (vm_compute; reflexivity).
  split; [exact H |].
  destruct (proj2 (@callLamda_failure_keeps_results env s _ _ H) _ _ _ _ T A) as [_ R].
  rewrite R. reflexivity.
Defined.

(** ** Waiting for the stack, poll by poll *)

Lemma terminalStatus_true (status : string) :
  terminalStatus status = true ->
  String.eqb status "CREATE_COMPLETE" = true \/
  String.eqb status "ROLLBACK_IN_PROGRESS" = true \/
  String.eqb status "ROLLBACK_COMPLETE" = true \/
  String.eqb status "DELETE_IN_PROGRESS" = true \/
  String.eqb status "DELETE_COMPLETE" = true \/
  String.eqb status "CREATE_FAILED" = true \/
  String.eqb status "DELETE_FAILED" = true.
Proof.
  unfold terminalStatus, failureStatus. simpl. intros H.
  repeat (apply orb_true_iff in H; destruct H as [H | H]); auto 10.
  discriminate.
Qed.

(** A poll that decides ends the wait at once. *)
Lemma watchStack_loop_decided (env : Env) (stackID : string) (n : nat)
    (stack : option cloudformation.Stack) (s : State)
    (r : option cloudformation.Stack * option error) :
  pollOutcome (cfDescribeStacks env (trace s ++ [EvDescribeStacks stackID])) stack
    = Some r ->
  exists s',
    watchStack_loop env stackID (S n) stack s = Ok r s' /\
    trace s' = trace s ++ [EvDescribeStacks stackID].
Proof.
  intros H. simpl. unfold bind at 1. unfold logMessage at 1. unfold bind at 1.
  simpl. unfold bind at 1. simpl.
  unfold pollOutcome in H.
  destruct (cfDescribeStacks env _) as [[| st sts] | e].
  - inversion H. eexists. split; reflexivity.
  - destruct (terminalStatus (cloudformation.StackStatus st)) eqn:Et;
      [| discriminate].
    inversion H. apply terminalStatus_true in Et.
    repeat match goal with
           | |- context [String.eqb ?a ?b] => destruct (String.eqb a b)
           end;
      try (eexists; split; reflexivity).
    repeat (destruct Et as [Et | Et]; [discriminate |]). discriminate.
  - inversion H. eexists. split; reflexivity.
Qed.

Lemma pollOutcome_pending (answer : list cloudformation.Stack + error)
    (stack : option cloudformation.Stack) :
  pollOutcome answer stack = None ->
  exists st sts,
    answer = inl (st :: sts) /\
    terminalStatus (cloudformation.StackStatus st) = false.
Proof.
  unfold pollOutcome. destruct answer as [[| st sts] | e]; try discriminate.
  destruct (terminalStatus (cloudformation.StackStatus st)) eqn:E; [discriminate |].
  intros _. now exists st, sts.
Qed.

Lemma watchStack_loop_decided_after (env : Env) (stackID : string) (k : nat) :
  forall (n : nat) (stack : option cloudformation.Stack) (s : State)
         (r : option cloudformation.Stack * option error),
    (k < n)%nat ->
    (forall j, (j < k)%nat ->
       pollOutcome
         (cfDescribeStacks env
            (trace s ++ polling stackID j ++ [EvDescribeStacks stackID]))
         None = None) ->
    pollOutcome
      (cfDescribeStacks env
         (trace s ++ polling stackID k ++ [EvDescribeStacks stackID]))
      (seen env stackID (trace s) stack k) = Some r ->
    exists s',
      watchStack_loop env stackID n stack s = Ok r s' /\
      trace s' = trace s ++ polling stackID k ++ [EvDescribeStacks stackID].
Proof.
  induction k as [| k IH]; intros n stack s r Hk Hpend Hdec.
  - destruct n as [| n]; [lia |]. simpl in *.
    now apply watchStack_loop_decided.
  - destruct n as [| n]; [lia |].
    destruct (pollOutcome_pending _ _ (Hpend 0%nat ltac:(lia)))
      as [st [sts [Ea Et]]].
    simpl in Ea.
    destruct (watchStack_loop_pending_step env stackID n stack s Ea Et)
      as [s1 [E1 T1]].
    simpl in Hdec. rewrite Ea in Hdec.
    destruct (IH n (Some st) s1 r ltac:(lia)) as [s' [E' T']].
    + intros j Hj. specialize (Hpend (S j) ltac:(lia)).
      rewrite T1, <- app_assoc. exact Hpend.
    + rewrite T1, <- app_assoc. simpl. exact Hdec.
    + exists s'. split; [now rewrite E1 |].
      rewrite T', T1, <- app_assoc. reflexivity.
Qed.



Lemma watchStack_loop_shape (env : Env) (stackID : string) (n : nat) :
  forall (stack : option cloudformation.Stack) (s : State),
  exists r s' k,
    watchStack_loop env stackID n stack s = Ok r s' /\
    ((k = n /\ trace s' = trace s ++ polling stackID k /\ snd r = None) \/
     ((k < n)%nat /\
      trace s' = trace s ++ polling stackID k ++ [EvDescribeStacks stackID])).
Proof.
  induction n as [| n IH]; intros stack s.
  - exists (stack, None), s, 0%nat. split; [reflexivity |]. left.
    simpl. now rewrite app_nil_r.
  - destruct (pollOutcome
                (cfDescribeStacks env (trace s ++ [EvDescribeStacks stackID]))
                stack) as [r |] eqn:Ep.
    + destruct (watchStack_loop_decided env stackID n stack s Ep) as [s' [E T]].
      exists r, s', 0%nat. split; [exact E |]. right. split; [lia | exact T].
    + destruct (pollOutcome_pending _ _ Ep) as [st [sts [Ea Et]]].
      destruct (watchStack_loop_pending_step env stackID n stack s Ea Et)
        as [s1 [E1 T1]].
      destruct (IH (Some st) s1) as [r [s' [k [E H]]]].
      exists r, s', (S k). split; [now rewrite E1 |].
      destruct H as [(Hk & T & N) | (Hk & T)].
      * left. split; [lia |]. split; [| exact N].
        rewrite T, T1, <- app_assoc. reflexivity.
      * right. split; [lia |].
        rewrite T, T1, <- app_assoc. reflexivity.
Qed.


(** ** Panics *)

Lemma returns_ret {A : Type} (Q : A -> Prop) (a : A) : Q a -> returns Q (ret a).
Proof. intros H s. now exists a, s. Qed.

Lemma returns_bind {A B : Type} (Q1 : A -> Prop) (Q2 : B -> Prop)
    (m : M A) (k : A -> M B) :
  returns Q1 m -> (forall a, Q1 a -> returns Q2 (k a)) -> returns Q2 (bind m k).
Proof.
  intros Hm Hk s. destruct (Hm s) as [a [s1 [E Ha]]].
  destruct (Hk a Ha s1) as [b [s2 [E2 Hb]]].
  exists b, s2. unfold bind. now rewrite E.
Qed.

Lemma returns_any {A : Type} (Q : A -> Prop) (m : M A) :
  returns Q m -> returns (fun _ => True) m.
Proof.
  intros H s. destruct (H s) as [a [s' [E _]]]. now exists a, s'.
Qed.

Lemma returns_field {A : Type} (f : FlipTester.t -> A) :
  returns (fun _ => True) (field f).
Proof. intros s. now exists (f (self s)), s. Qed.

Lemma returns_assign (g : FlipTester.t -> FlipTester.t) :
  returns (fun _ => True) (assign g).
Proof. intros s. eexists. eexists. split; [reflexivity | exact I]. Qed.

Lemma returns_history : returns (fun _ => True) history.
Proof. intros s. now exists (trace s), s. Qed.

Lemma returns_request (e : Event) : returns (fun _ => True) (request e).
Proof. intros s. eexists. eexists. split; [reflexivity | exact I]. Qed.

Lemma returns_sleep (n : Z) : returns (fun _ => True) (sleep n).
Proof. intros s. eexists. eexists. split; [reflexivity | exact I]. Qed.

Lemma returns_logMessage (env : Env) (msg : string) :
  returns (fun _ => True) (logMessage env msg).
Proof. intros s. eexists. eexists. split; [reflexivity | exact I]. Qed.

Ltac walk_returns :=
  repeat
    lazymatch goal with
    | |- returns _ (logMessage _ _) => apply returns_logMessage
    | |- returns _ (sleep _) => apply returns_sleep
    | |- returns _ (field _) => apply returns_field
    | |- returns _ (assign _) => apply returns_assign
    | |- returns _ history => apply returns_history
    | |- returns _ (request _) => apply returns_request
    | |- returns _ (ret _) => apply returns_ret; exact I
    | |- returns _ (bind (watchStack_loop _ _ _ _) _) => fail
    | |- returns _ (bind _ _) =>
        eapply returns_bind with (Q1 := fun _ => True); [| intros ? _ ]
    | |- returns _ (match ?x with _ => _ end) => destruct x
    | |- returns _ (let _ := _ in _) => cbv zeta
    | |- returns (fun _ => True) _ => solve [auto with requests]
    end.

Lemma returns_checkResults (env : Env) (results : list TestResult.t) :
  returns (fun _ => True) (checkResults env results).
Proof. induction results as [| r rest IH]; simpl; walk_returns. Qed.

Lemma returns_getStackInfo (env : Env) :
  returns (fun _ => True) (getStackInfo env).
Proof. unfold getStackInfo. walk_returns. Qed.

#[global] Hint Resolve returns_checkResults returns_getStackInfo : requests.

Lemma returns_callLamda (env : Env) : returns (fun _ => True) (callLamda env).
Proof. unfold callLamda. walk_returns. Qed.

#[global] Hint Resolve returns_callLamda : requests.

Lemma returns_Test_retry (env : Env) (n : nat) (err : option error) :
  returns (fun _ => True) (Test_retry env n err).
Proof.
  revert err. induction n as [| n IH]; intros err; simpl; walk_returns.
Qed.

Lemma returns_DeleteStack (env : Env) : returns (fun _ => True) (DeleteStack env).
Proof. unfold DeleteStack. walk_returns. Qed.

#[global] Hint Resolve returns_Test_retry returns_DeleteStack : requests.

(** A wait that polls at least once, or that starts with a stack, does not
    return a nil stack together with a nil error. *)
Lemma returns_watchStack_loop (env : Env) (stackID : string) (n : nat) :
  forall stack,
    (n = 0%nat -> stack <> None) ->
    returns (fun r => snd r = None -> fst r <> None)
            (watchStack_loop env stackID n stack).
Proof.
  induction n as [| n IH]; intros stack Hn s.
  - exists (stack, None), s. split; [reflexivity |]. intros _. now apply Hn.
  - destruct (pollOutcome
                (cfDescribeStacks env (trace s ++ [EvDescribeStacks stackID]))
                stack) as [r |] eqn:Ep.
    + destruct (watchStack_loop_decided env stackID n stack s Ep) as [s' [E T]].
      exists r, s'. split; [exact E |].
      unfold pollOutcome in Ep.
      destruct (cfDescribeStacks env _) as [[| st sts] | e].
      * inversion Ep. discriminate.
      * destruct (terminalStatus _); inversion Ep. discriminate.
      * inversion Ep. discriminate.
    + destruct (pollOutcome_pending _ _ Ep) as [st [sts [Ea Et]]].
      destruct (watchStack_loop_pending_step env stackID n stack s Ea Et)
        as [s1 [E1 T1]].
      destruct (IH (Some st) ltac:(discriminate) s1) as [r [s' [E H]]].
      exists r, s'. split; [now rewrite E1 | exact H].
Qed.

Lemma returns_CreateStack (env : Env) : returns (fun _ => True) (CreateStack env).
Proof.
  unfold CreateStack, getTemplateBody, watchStack.
  walk_returns.
  eapply returns_bind.
  - apply (returns_watchStack_loop env _ (n := Z.to_nat 90)). discriminate.
  - intros [stack err] H. simpl in H.
    destruct err as [e |]; [walk_returns |].
    destruct stack as [st |]; [walk_returns | now elim H].
Qed.


(** ** Creating the stack *)

Lemma wp_watchStack_loop_waited (env : Env) (stackID : string) (n : nat)
    (stack : option cloudformation.Stack) (s : State) :
  wp (watchStack_loop env stackID n stack)
     (fun _ s' =>
        FlipTester.stackCreated (self s') = FlipTester.stackCreated (self s) /\
        FlipTester.StackName (self s') = FlipTester.StackName (self s) /\
        exists post, trace s' = trace s ++ post /\ waited stackID n post)
     s.
Proof.
  pose proof (keeps_watchStack_loop env FlipTester.stackCreated
                (fun _ _ => eq_refl) stackID n stack s) as K1.
  pose proof (keeps_watchStack_loop env FlipTester.StackName
                (fun _ _ => eq_refl) stackID n stack s) as K2.
  destruct (watchStack_loop_shape env stackID n stack s) as [r [s' [k [E H]]]].
  unfold wp. rewrite E in K1, K2 |- *. simpl in K1, K2.
  split; [exact K1 |]. split; [exact K2 |].
  destruct H as [(Hk & T & _) | (Hk & T)].
  - subst k. exists (polling stackID n). split; [exact T | now left].
  - exists (polling stackID k ++ [EvDescribeStacks stackID]). split; [exact T |].
    right. now exists k.
Qed.

(** Reduce the field accesses of a state, and nothing else. *)
Ltac fields :=
  cbn [self trace fst snd
       FlipTester.subnetId FlipTester.vpcId FlipTester.stackPrefix
       FlipTester.stackTemplateFilename FlipTester.TestUrls
       FlipTester.TestResults FlipTester.testEvent FlipTester.Passed
       FlipTester.sess FlipTester.RetainStack FlipTester.stackCreated
       FlipTester.StackName FlipTester.functionName FlipTester.log
       FlipTester.context FlipTester.initialSleepTimeSeconds
       FlipTester.postEventSleepTimeSeconds
       FlipTester.set_subnetId FlipTester.set_vpcId FlipTester.set_stackPrefix
       FlipTester.set_stackTemplateFilename FlipTester.set_TestResults
       FlipTester.set_testEvent FlipTester.set_Passed FlipTester.set_sess
       FlipTester.set_RetainStack FlipTester.set_stackCreated
       FlipTester.set_StackName FlipTester.set_functionName FlipTester.set_log
       FlipTester.set_context FlipTester.set_initialSleepTimeSeconds
       FlipTester.set_postEventSleepTimeSeconds] in *.

Lemma wp_CreateStack_run (env : Env) (s : State) :
  wp (CreateStack env) (fun r s' => CreateStackRun env s r s') s.
Proof.
  unfold CreateStack, getTemplateBody, watchStack.
  do 5 wp_step. fields.
  destruct (String.eqb_spec (FlipTester.stackTemplateFilename (self s)) "")
    as [Ef | Nf].
  - wp_step. cbv beta iota. repeat wp_step; fields.
    + eapply wp_conseq; [apply wp_watchStack_loop_waited |].
      intros [stack err] s' (K1 & K2 & post & T & W). fields.
      rewrite <- !app_assoc in T. cbn [app] in T.
      destruct err as [e |]; [| destruct stack as [st |]]; repeat wp_step; fields.
      * eapply Waited with (pre := []) (post := post);
          [now left | eassumption | cbn [app]; exact T | exact W
          | intros _; now split | discriminate].
      * eapply Waited with (pre := []) (post := post);
          [now left | eassumption | cbn [app]; exact T | exact W
          | intros N; now elim N | reflexivity].
      * exact I.
    + eapply RequestRefused with (pre := []);
        [reflexivity | now left | cbn [app]; reflexivity | eassumption
        | reflexivity | reflexivity].
  - repeat wp_step; fields.
    + eapply TemplateNotRead;
        [reflexivity | reflexivity | fields; rewrite Heqp; reflexivity
        | reflexivity | reflexivity].
    + rewrite <- !app_assoc in Heqs1. cbn [app] in Heqs1.
      eapply wp_conseq; [apply wp_watchStack_loop_waited |].
      intros [stack err] s' (K1 & K2 & post & T & W). fields.
      rewrite <- !app_assoc in T. cbn [app] in T.
      destruct err as [e |]; [| destruct stack as [st |]]; repeat wp_step; fields.
      * eapply Waited with (pre := [_]) (post := post);
          [right; now split | cbn [app]; eassumption | cbn [app]; exact T
          | exact W | intros _; now split | discriminate].
      * eapply Waited with (pre := [_]) (post := post);
          [right; now split | cbn [app]; eassumption | cbn [app]; exact T
          | exact W | intros N; now elim N | reflexivity].
      * exact I.
    + rewrite <- !app_assoc in Heqs1. cbn [app] in Heqs1.
      eapply RequestRefused with (pre := [_]);
        [reflexivity | right; now split
        | fields; rewrite <- !app_assoc; cbn [app]; reflexivity
        | fields; rewrite <- !app_assoc; cbn [app]; eassumption
        | reflexivity | reflexivity].
Qed.

Lemma sent_polling (p : Event -> bool) (stackID : string) (k : nat) :
  sent p (polling stackID k) =
    (k * (sent p [EvDescribeStacks stackID] + sent p [EvSleep 10]))%nat.
Proof.
  induction k as [| k IH]; [reflexivity |].
  change (polling stackID (S k))
    with ([EvDescribeStacks stackID] ++ [EvSleep 10] ++ polling stackID k).
  rewrite !sent_app, IH. lia.
Qed.

Lemma sent_waited (stackID : string) (n : nat) (post : list Event) :
  waited stackID n post ->
  (sent isDescribe post <= n)%nat /\ sent isCreate post = 0%nat /\
  sent isDelete post = 0%nat /\ sent isInvoke post = 0%nat.
Proof.
  intros [-> | [k [Hk ->]]]; rewrite ?sent_app, !sent_polling;
    unfold sent; cbn [filter isDescribe isCreate isDelete isInvoke length];
    repeat split; lia.
Qed.

Lemma sent_templateRead (ft : FlipTester.t) (pre : list Event) :
  templateRead ft pre ->
  sent isDescribe pre = 0%nat /\ sent isCreate pre = 0%nat /\
  sent isDelete pre = 0%nat /\ sent isInvoke pre = 0%nat.
Proof. intros [[_ ->] | [_ ->]]; now repeat split. Qed.






(** ** The phases of [Test] *)

Lemma wp_of_keeps {A F : Type} (f : FlipTester.t -> F) (m : M A) (s : State) :
  keeps f m -> wp m (fun _ s' => f (self s') = f (self s)) s.
Proof.
  intros K. specialize (K s). unfold wp.
  destruct (m s) as [a s' | msg s']; [exact K | exact I].
Qed.

Lemma sent_only (p : Event -> bool) (evs : list Event) :
  forallb (fun e => negb (p e)) evs = true -> sent p evs = 0%nat.
Proof.
  unfold sent. induction evs as [| e evs IH]; [reflexivity |].
  simpl. destruct (p e); [discriminate | exact IH].
Qed.

Lemma returns_Test_start (env : Env) : returns (fun _ => True) (Test_start env).
Proof.
  pose proof (returns_CreateStack env).
  unfold Test_start, Test_provision. walk_returns.
Qed.

Lemma returns_Test_invoke (env : Env) : returns (fun _ => True) (Test_invoke env).
Proof. unfold Test_invoke. walk_returns. Qed.

Lemma returns_Test_teardown (env : Env) :
  returns (fun _ => True) (Test_teardown env).
Proof. unfold Test_teardown. walk_returns. Qed.

Lemma keeps_Test_teardown (env : Env) {F : Type} (f : FlipTester.t -> F) :
  (forall v ft, f (FlipTester.set_log v ft) = f ft) ->
  (forall v ft, f (FlipTester.set_stackCreated v ft) = f ft) ->
  keeps f (Test_teardown env).
Proof.
  intros f_log f_created.
  pose proof (keeps_logMessage env f f_log).
  assert (keeps f (DeleteStack env)) by (unfold DeleteStack; walk_keeps).
  assert (forall v, keeps f (assign (FlipTester.set_stackCreated v)))
    by (intros v; apply keeps_assign; intros ft; apply f_created).
  unfold Test_teardown. walk_keeps.
Qed.

Lemma Test_start_error (env : Env) (s s1 : State) (e : error) :
  Test_start env s = Ok (Some e) s1 -> Test env s = Ok (Some e) s1.
Proof.
  unfold Test_start, Test, bind. intros H.
  destruct (logMessage env "starting test" s) as [[] s0 | msg s0]; [| discriminate].
  destruct (Test_provision env s0) as [[e' |] s0' | msg s0']; try discriminate.
  exact H.
Qed.

(** With the mark unset the first phase is a [CreateStack]. *)
Lemma Test_start_fresh (env : Env) (s : State) :
  FlipTester.stackCreated (self s) = false ->
  exists lg,
    Test_start env s =
      CreateStack env (mkState (FlipTester.set_log lg (self s)) (trace s)).
Proof.
  intros H. unfold Test_start, Test_provision, bind, logMessage, bind, field,
    history, assign.
  fields. rewrite H. cbn [negb]. eexists. reflexivity.
Qed.

(** X15.  When the provisioning phase of [Test] ends with an error, [Test]
    returns that error at once: the stack was not marked as created
    before and is not afterwards, [Passed] and [TestResults] are as they
    were, and neither an [Invoke] nor a [DeleteStack] request was sent. *)
Theorem Test_provision_error_returns (env : Env) (s s1 : State) (e : error) :
  Test_start env s = Ok (Some e) s1 ->
  Test env s = Ok (Some e) s1 /\
  FlipTester.stackCreated (self s) = false /\
  FlipTester.stackCreated (self s1) = false /\
  FlipTester.Passed (self s1) = FlipTester.Passed (self s) /\
  FlipTester.TestResults (self s1) = FlipTester.TestResults (self s) /\
  exists evs,
    trace s1 = trace s ++ evs /\
    sent isInvoke evs = 0%nat /\ sent isDelete evs = 0%nat.
Proof.
  intros H.
  assert (Hc : FlipTester.stackCreated (self s) = false).
  { destruct (FlipTester.stackCreated (self s)) eqn:Hc; [| reflexivity].
    destruct (Test_start_created env s Hc) as [s' [E _]]. congruence. }
  split; [now apply Test_start_error |]. split; [exact Hc |].
  assert (KP : keeps FlipTester.Passed (Test_start env))
    by (apply keeps_Test_start; reflexivity).
  assert (KR : keeps FlipTester.TestResults (Test_start env))
    by (apply keeps_Test_start; reflexivity).
  specialize (KP s). specialize (KR s). rewrite H in KP, KR. simpl in KP, KR.
  split; [| split; [exact KP | split; [exact KR |]]].
  - destruct (Test_start_fresh env s Hc) as [lg E]. rewrite E in H.
    destruct (wp_run (wp_CreateStack_run env _) H)
      as [e' _ _ _ _ C | e' pre input _ _ _ _ _ C
          | stackID pre post input _ _ _ _ Herr _].
    + rewrite C. exact Hc.
    + rewrite C. exact Hc.
    + destruct Herr as [_ C]; [discriminate |]. rewrite C. exact Hc.
  - assert (O1 : only (fun ev => negb (isInvoke ev)) (Test_start env))
      by (apply only_Test_start; reflexivity).
    assert (O2 : only (fun ev => negb (isDelete ev)) (Test_start env))
      by (apply only_Test_start; reflexivity).
    destruct (O1 s) as [evs [T1 F1]]. destruct (O2 s) as [evs' [T2 F2]].
    rewrite H in T1, T2. simpl in T1, T2.
    assert (evs' = evs) by (rewrite T1 in T2; now apply app_inv_head in T2).
    subst evs'. exists evs. split; [exact T1 |].
    split; now apply sent_only.
Qed.

Lemma Test_provision_error_returns_witness :
  let env := Cases.refusing in
  let s := Scenario.start env Scenario.fresh in
  Test env s =
    Ok (Some "LimitExceededException: stack limit reached")
       (res_state (Test_start env s)) /\
  FlipTester.stackCreated (self (res_state (Test_start env s))) = false.
Proof.
  intros env s.
  assert (H : Test_start env s =
              Ok (Some "LimitExceededException: stack limit reached")
                 (res_state (Test_start env s)))
    by (vm_compute; reflexivity).
  destruct (Test_provision_error_returns env s H) as (E & _ & C & _).
  split; [exact E | exact C].
Defined.

Lemma wp_Test_invoke_Passed (env : Env) (s : State) :
  wp (Test_invoke env)
     (fun r s' =>
        FlipTester.Passed (self s') =
          match r with
          | Some _ => FlipTester.Passed (self s)
          | None =>
              FlipTester.stackCreated (self s) || FlipTester.Passed (self s)
          end)
     s.
Proof.
  unfold Test_invoke. do 2 wp_step.
  destruct (FlipTester.stackCreated (self s)); [| now wp_step].
  repeat wp_step.
  eapply wp_conseq;
    [apply wp_of_keeps with (f := FlipTester.Passed); apply keeps_callLamda; reflexivity |].
  cbv beta. intros err s1 K1. fields.
  repeat wp_step.
  eapply wp_conseq;
    [apply wp_of_keeps with (f := FlipTester.Passed); apply keeps_Test_retry; reflexivity |].
  cbv beta. intros [e |] s2 K2; fields; repeat wp_step; fields.
  - congruence.
  - reflexivity.
Qed.

(** The three ways in which a run of [Test] ends. *)
Lemma Test_phases (env : Env) (s : State) :
  exists r1 s1,
    Test_start env s = Ok r1 s1 /\
    match r1 with
    | Some e => Test env s = Ok (Some e) s1
    | None =>
        exists r2 s2,
          Test_invoke env s1 = Ok r2 s2 /\
          match r2 with
          | Some e => Test env s = Ok (Some e) s2
          | None =>
              exists r3 s3,
                Test_teardown env s2 = Ok r3 s3 /\ Test env s = Ok r3 s3
          end
    end.
Proof.
  destruct (returns_Test_start env s) as [r1 [s1 [E1 _]]].
  exists r1, s1. split; [exact E1 |].
  destruct r1 as [e |]; [now apply Test_start_error |].
  destruct (returns_Test_invoke env s1) as [r2 [s2 [E2 _]]].
  exists r2, s2. split; [exact E2 |].
  rewrite (Test_after_start env s E1). unfold bind. rewrite E2.
  destruct r2 as [e |]; [reflexivity |].
  destruct (returns_Test_teardown env s2) as [r3 [s3 [E3 _]]].
  exists r3, s3. now split.
Qed.



(** As [wp_step], with the entry a [logMessage] appends written out. *)
Ltac wp_step_entry :=
  lazymatch goal with
  | |- wp (logMessage _ _) _ _ => apply wp_logMessage_entry
  | _ => wp_step
  end;
  cbv beta; cbn [self trace].

(** The last log entry of the teardown reports what is returned. *)
Lemma wp_Test_teardown_log (env : Env) (s : State) :
  wp (Test_teardown env)
     (fun r s' =>
        exists entries t,
          FlipTester.log (self s') =
            entries ++
            [logEntry t (FlipTester.context (self s'))
                      (FlipTester.StackName (self s'))
                      match r with
                      | Some e => String.append "errors: " e
                      | None => "tests complete"
                      end])
     s.
Proof.
  unfold Test_teardown, DeleteStack.
  repeat wp_step_entry; fields; eexists; eexists; reflexivity.
Qed.

(** X17.  When the last request of a run of [Test] is a [DeleteStack]
    that the service refuses, [Test] returns the service's error although
    [Passed] is set: the stack stays marked as created, the request named
    the tester's [StackName], and the last log entry is the error. *)
Theorem Test_delete_refused (env : Env) (s s' : State) (r : option error)
    (evs : list Event) (name : string) (e : error) :
  Test env s = Ok r s' ->
  trace s' = trace s ++ evs ++ [EvDeleteStack name] ->
  cfDeleteStack env (trace s') = Some e ->
  r = Some e /\
  name = FlipTester.StackName (self s') /\
  FlipTester.Passed (self s') = true /\
  FlipTester.stackCreated (self s') = true /\
  exists entries t,
    FlipTester.log (self s') =
      entries ++
      [logEntry t (FlipTester.context (self s')) (FlipTester.StackName (self s'))
                (String.append "errors: " e)].
Proof.
  intros HT Htr Hdel.
  assert (absurd : forall evs0,
            trace s' = trace s ++ evs0 -> forallb notDelete evs0 = true -> False).
  { intros evs0 T F. rewrite T in Htr. apply app_inv_head in Htr. subst evs0.
    rewrite forallb_app in F. simpl in F.
    now rewrite andb_false_r in F. }
  destruct (Test_phases env s) as [r1 [s1 [E1 H1]]].
  destruct r1 as [e1 |].
  { exfalso. rewrite H1 in HT. inversion HT; subst.
    assert (O : only notDelete (Test_start env))
      by (apply only_Test_start; reflexivity).
    destruct (O s) as [evs0 [T F]]. rewrite E1 in T. simpl in T.
    exact (absurd evs0 T F). }
  destruct H1 as [r2 [s2 [E2 H2]]].
  destruct (no_delete_before_teardown env s E1 E2) as [evs2 [T2 F2]].
  destruct r2 as [e2 |].
  { exfalso. rewrite H2 in HT. inversion HT; subst. exact (absurd evs2 T2 F2). }
  destruct H2 as [r3 [s3 [E3 H3]]].
  rewrite H3 in HT. inversion HT; subst r3 s3. clear HT.
  pose proof (RetainStack_before_teardown env s E1 E2) as HR.
  pose proof (wp_run (wp_Test_start env s) E1 eq_refl) as Hc1.
  assert (Hc2 : FlipTester.stackCreated (self s2) = true).
  { assert (K : keeps FlipTester.stackCreated (Test_invoke env))
      by (apply keeps_Test_invoke; reflexivity).
    specialize (K s1). rewrite E2 in K. simpl in K. congruence. }
  pose proof (wp_run (wp_Test_invoke_Passed env s1) E2) as P2. cbv beta in P2.
  rewrite Hc1 in P2. cbn [orb] in P2.
  assert (KP : FlipTester.Passed (self s') = FlipTester.Passed (self s2)).
  { assert (K : keeps FlipTester.Passed (Test_teardown env))
      by (apply keeps_Test_teardown; reflexivity).
    specialize (K s2). now rewrite E3 in K. }
  assert (KN : FlipTester.StackName (self s') = FlipTester.StackName (self s2)).
  { assert (K : keeps FlipTester.StackName (Test_teardown env))
      by (apply keeps_Test_teardown; reflexivity).
    specialize (K s2). now rewrite E3 in K. }
  destruct (FlipTester.RetainStack (self s2)) eqn:HR2.
  { exfalso.
    destruct (only_Test_teardown_retained env s2 HR2) as [s3 [E [T _]]].
    rewrite E3 in E. inversion E; subst s3.
    apply (absurd evs2); [congruence | exact F2]. }
  destruct (Test_teardown_deleting env s2 HR2) as [s3 [E [T C]]].
  rewrite E3 in E. inversion E as [[Er Es]]. subst s3.
  rewrite <- T in Er, C. rewrite Hdel in Er, C. clear E.
  rewrite T, T2, <- app_assoc in Htr. apply app_inv_head in Htr.
  apply app_inj_tail in Htr. destruct Htr as [_ Hn]. inversion Hn as [Hname].
  pose proof (wp_run (wp_Test_teardown_log env s2) E3) as L. cbv beta in L.
  assert (Hr : r = Some e) by congruence. subst r.
  split; [rewrite <- T; exact Hdel |].
  split; [congruence |]. split; [congruence |].
  split; [congruence | exact L].
Qed.

Lemma Test_delete_refused_witness :
  let env := Cases.undeletable in
  let s := Scenario.start env Scenario.resume in
  Test env s =
    Ok (Some "AccessDenied: not authorized to perform DeleteStack")
       (res_state (Test env s)) /\
  FlipTester.Passed (self (res_state (Test env s))) = true /\
  FlipTester.stackCreated (self (res_state (Test env s))) = true.
Proof.
  intros env s.
  pose (r := Some "AccessDenied: not authorized to perform DeleteStack").
  pose (evs := [EvSleep 40; EvDescribeStacks Scenario.stackName; EvSleep 20;
                EvInvoke "egress-tester"
                  (FlipTester.testEvent (Scenario.tester env Scenario.resume))]).
  assert (H : Test env s = Ok r (res_state (Test env s)))
    by (vm_compute; reflexivity).
  assert (T : trace (res_state (Test env s)) =
              trace s ++ evs ++ [EvDeleteStack Scenario.stackName])
    by (vm_compute; reflexivity).
  assert (D : cfDeleteStack env (trace (res_state (Test env s))) =
              Some "AccessDenied: not authorized to perform DeleteStack")
    by reflexivity.
  destruct (@Test_delete_refused env s _ r evs _ _ H T D) as (Er & _ & P & C & _).
  split; [exact H |]. split; [exact P | exact C].
Defined.

Lemma wp_of_adds {A : Type} (P : list Event -> Prop) (m : M A) (s : State) :
  adds P m ->
  wp m (fun _ s' => exists evs, trace s' = trace s ++ evs /\ P evs) s.
Proof.
  intros H. destruct (H s) as [evs [T HP]]. unfold wp.
  destruct (m s) as [a s' | msg s']; [| exact I]. now exists evs.
Qed.

(** The first requests of the invocation phase. *)
Lemma wp_Test_invoke_first (env : Env) (s : State) :
  FlipTester.stackCreated (self s) = true ->
  wp (Test_invoke env)
     (fun _ s' =>
        exists rest,
          trace s' =
            trace s ++
            EvSleep (FlipTester.initialSleepTimeSeconds (self s))
            :: EvDescribeStacks (FlipTester.StackName (self s)) :: rest)
     s.
Proof.
  intros Hc. unfold Test_invoke. do 2 wp_step. rewrite Hc.
  repeat wp_step. fields.
  eapply wp_conseq with
    (Q' := fun _ s' =>
            exists rest,
              trace s' =
                trace s ++
                EvSleep (FlipTester.initialSleepTimeSeconds (self s))
                :: EvDescribeStacks (FlipTester.StackName (self s)) :: rest).
  - unfold callLamda. repeat wp_step. fields.
    eapply wp_conseq; [apply wp_getStackInfo |]. cbv beta.
    intros err sB [TB _]. fields.
    eapply wp_conseq;
      [apply wp_of_adds with (P := fun evs => forallb (fun _ => true) evs = true);
       match goal with |- adds _ ?m => change (only (fun _ => true) m) end;
       walk_only |].
    cbv beta. intros _ s' [evs [T _]]. exists evs.
    rewrite T, TB, <- !app_assoc. reflexivity.
  - cbv beta. intros err s1 [rest T1].
    eapply wp_conseq;
      [apply wp_of_adds with (P := fun evs => forallb (fun _ => true) evs = true);
       match goal with |- adds _ ?m => change (only (fun _ => true) m) end;
       walk_only |].
    cbv beta. intros _ s' [evs [T _]]. exists (rest ++ evs).
    rewrite T, T1, <- !app_assoc. reflexivity.
Qed.

Lemma Test_start_resumed (env : Env) (s : State) :
  FlipTester.stackCreated (self s) = true ->
  exists lg,
    Test_start env s = Ok None (mkState (FlipTester.set_log lg (self s)) (trace s)).
Proof.
  intros H. unfold Test_start, Test_provision, bind, logMessage, bind, field,
    history, assign.
  fields. rewrite H. cbn [negb]. eexists. reflexivity.
Qed.

Lemma existsb_sent (p : Event -> bool) (evs : list Event) :
  existsb p evs = false -> sent p evs = 0%nat.
Proof.
  unfold sent. induction evs as [| e evs IH]; [reflexivity |].
  simpl. destruct (p e); [discriminate | exact IH].
Qed.



(** ** The log *)

Lemma logs_nothing {A : Type} (m : M A) :
  keeps FlipTester.log m -> logs (fun _ => True) m.
Proof.
  intros K s. exists []. rewrite app_nil_r. split; [apply K | exact I].
Qed.

Lemma logs_bind {A B : Type} (m : M A) (k : A -> M B) :
  logs (fun _ => True) m -> (forall x, logs (fun _ => True) (k x)) ->
  logs (fun _ => True) (bind m k).
Proof.
  intros Hm Hk s. unfold bind.
  destruct (Hm s) as [l1 [E1 _]].
  destruct (m s) as [a s1 | msg s1]; simpl in E1.
  - destruct (Hk a s1) as [l2 [E2 _]].
    exists (l1 ++ l2). split; [| exact I]. now rewrite E2, E1, app_assoc.
  - exists l1. now split.
Qed.

Lemma logs_logMessage (env : Env) (msg : string) :
  logs (fun _ => True) (logMessage env msg).
Proof. intros s. eexists. split; [reflexivity | exact I]. Qed.

#[global] Hint Resolve logs_logMessage : requests.

Ltac walk_logs :=
  repeat first
    [ solve [auto with requests]
    | apply logs_bind; [| intros ]
    | apply logs_nothing;
      first [ apply keeps_ret | apply keeps_panic | apply keeps_field
            | apply keeps_history | apply keeps_request | apply keeps_sleep
            | apply keeps_assign; reflexivity ]
    | match goal with
      | |- logs _ (match ?x with _ => _ end) => destruct x
      | |- logs _ (let _ := _ in _) => cbv zeta
      end ].

Lemma logs_checkResults (env : Env) (results : list TestResult.t) :
  logs (fun _ => True) (checkResults env results).
Proof. induction results as [| r rest IH]; simpl; walk_logs. Qed.

Lemma logs_getStackInfo (env : Env) : logs (fun _ => True) (getStackInfo env).
Proof. unfold getStackInfo. walk_logs. Qed.

#[global] Hint Resolve logs_checkResults logs_getStackInfo : requests.

Lemma logs_callLamda (env : Env) : logs (fun _ => True) (callLamda env).
Proof. unfold callLamda. walk_logs. Qed.

#[global] Hint Resolve logs_callLamda : requests.

Lemma logs_Test_retry (env : Env) (n : nat) (err : option error) :
  logs (fun _ => True) (Test_retry env n err).
Proof. revert err. induction n as [| n IH]; intros err; simpl; walk_logs. Qed.

Lemma logs_watchStack_loop (env : Env) (stackID : string) (n : nat)
    (stack : option cloudformation.Stack) :
  logs (fun _ => True) (watchStack_loop env stackID n stack).
Proof. revert stack. induction n as [| n IH]; intros stack; simpl; walk_logs. Qed.

#[global] Hint Resolve logs_Test_retry logs_watchStack_loop : requests.

Lemma logs_DeleteStack (env : Env) : logs (fun _ => True) (DeleteStack env).
Proof. unfold DeleteStack. walk_logs. Qed.

Lemma logs_CreateStack (env : Env) : logs (fun _ => True) (CreateStack env).
Proof. unfold CreateStack, getTemplateBody, watchStack. walk_logs. Qed.

#[global] Hint Resolve logs_DeleteStack logs_CreateStack : requests.



Lemma append_assoc (s t u : string) :
  String.append s (String.append t u) = String.append (String.append s t) u.
Proof. induction s as [| c s IH]; [reflexivity |]. simpl. now rewrite IH. Qed.

Lemma Join_snoc (elems : list string) (x sep : string) :
  strings.Join (elems ++ [x]) sep =
    match elems with
    | [] => x
    | _ :: _ => String.append (strings.Join elems sep) (String.append sep x)
    end.
Proof.
  unfold strings.Join.
  induction elems as [| a l IH]; [reflexivity |].
  destruct l as [| b l]; [reflexivity |].
  change ((a :: b :: l) ++ [x]) with (a :: (b :: l) ++ [x]).
  change (String.concat sep (a :: (b :: l) ++ [x]))
    with (String.append a (String.append sep (String.concat sep ((b :: l) ++ [x])))).
  rewrite IH.
  change (String.concat sep (a :: b :: l))
    with (String.append a (String.append sep (String.concat sep (b :: l)))).
  now rewrite !append_assoc.
Qed.

(** X20.  [GetLog] changes nothing and returns the entries one per line:
    after a [logMessage] it returns what it returned before, a newline,
    and the new entry; on a log without entries it returns the entry
    alone, without a newline. *)
Theorem GetLog_after_logMessage (env : Env) (msg : string) (s : State) :
  exists s1 before entry,
    GetLog s = Ok before s /\
    logMessage env msg s = Ok tt s1 /\
    entry = logEntry (now env (trace s) (length (FlipTester.log (self s))))
                     (FlipTester.context (self s))
                     (FlipTester.StackName (self s)) msg /\
    GetLog s1 =
      Ok match FlipTester.log (self s) with
         | [] => entry
         | _ :: _ =>
             String.append before
               (String.append (String (ascii_of_nat 10) EmptyString) entry)
         end
         s1.
Proof.
  eexists. eexists. eexists.
  split; [reflexivity |]. split; [reflexivity |]. split; [reflexivity |].
  unfold GetLog, bind, field, ret. fields.
  now rewrite Join_snoc.
Qed.

(** ** The later revision *)

Lemma wp_Revised_checkResults_loop (env : Env) (results : list TestResult.t)
    (s : State) :
  wp (Revised.checkResults_loop env results)
     (fun r s' =>
        r = option_map violation (find violates results) /\
        trace s' = trace s /\
        match r with
        | Some e =>
            self s' =
              FlipTester.set_log
                (FlipTester.log (self s) ++
                 [logEntry (now env (trace s) (length (FlipTester.log (self s))))
                           (FlipTester.context (self s))
                           (FlipTester.StackName (self s)) e])
                (self s)
        | None => self s' = self s
        end)
     s.
Proof.
  induction results as [| x rest IH]; simpl.
  - wp_step. now repeat split.
  - unfold violates, violation.
    destruct (negb (TestResult.Success x)) eqn:E1; simpl; rewrite ?E1.
    + wp_step. apply wp_logMessage_entry. wp_step. now repeat split.
    + destruct (PrimFloat.ltb maxTime (TestResult.ElapsedTimeS x)); simpl;
        rewrite ?E1.
      * wp_step. apply wp_logMessage_entry. wp_step. now repeat split.
      * exact IH.
Qed.

Lemma wp_Revised_checkResults (env : Env) (results : list TestResult.t)
    (s : State) :
  wp (Revised.checkResults env results)
     (fun r s' =>
        r = verdict results /\
        trace s' = trace s /\
        match r with
        | Some e =>
            self s' =
              FlipTester.set_log
                (FlipTester.log (self s) ++
                 [logEntry (now env (trace s) (length (FlipTester.log (self s))))
                           (FlipTester.context (self s))
                           (FlipTester.StackName (self s)) e])
                (self s)
        | None => self s' = self s
        end)
     s.
Proof.
  unfold Revised.checkResults. destruct results as [| x rest].
  - simpl. wp_step. apply wp_logMessage_entry. wp_step. now repeat split.
  - change (length (x :: rest) <? 1)%nat with false. cbv iota.
    apply wp_Revised_checkResults_loop.
Qed.

(** X21.  On a list with at least one result the two validators agree:
    the later one returns the error the earlier one returns, and leaves
    the same log; and the earlier one's [ok] is true exactly when that
    error is nil. *)
Theorem Revised_checkResults_agrees (env : Env) (x : TestResult.t)
    (rest : list TestResult.t) (s : State) :
  exists ok err s',
    checkResults env (x :: rest) s = Ok (ok, err) s' /\
    Revised.checkResults env (x :: rest) s = Ok err s' /\
    err = verdict (x :: rest) /\
    ok = match err with None => true | Some _ => false end.
Proof.
  unfold Revised.checkResults.
  change (length (x :: rest) <? 1)%nat with false. cbv iota.
  unfold verdict. generalize (x :: rest). clear x rest.
  intros results. revert s. induction results as [| x rest IH]; intros s.
  - exists true, None, s. now repeat split.
  - simpl. unfold violates, violation.
    destruct (negb (TestResult.Success x)) eqn:E1; simpl; rewrite ?E1.
    + eexists. eexists. eexists. repeat split.
    + destruct (PrimFloat.ltb maxTime (TestResult.ElapsedTimeS x)); simpl;
        rewrite ?E1.
      * eexists. eexists. eexists. repeat split.
      * apply IH.
Qed.

Lemma wp_Later_callLamda (env : Env) (s : State) :
  wp (Later.callLamda env)
     (fun r s' =>
        forall tr0 fn payload results,
          trace s' = tr0 ++ [EvInvoke fn payload] ->
          lambdaInvoke env (trace s') = InvokeResults results ->
          FlipTester.TestResults (self s') = results /\
          r = verdict results /\
          exists t before,
            FlipTester.log (self s') =
              before ++
              [logEntry t (FlipTester.context (self s'))
                        (FlipTester.StackName (self s'))
                        match r with
                        | Some e => e
                        | None => "tests passed"
                        end])
     s.
Proof.
  unfold Later.callLamda. do 3 wp_step.
  eapply wp_conseq; [apply wp_getStackInfo |]. cbv beta. intros err sB [TB _].
  destruct err as [e |].
  - wp_step. intros tr0 fn payload results T. rewrite TB in T.
    apply app_inj_tail in T. destruct T as [_ T]. discriminate.
  - do 17 wp_step.
    + wp_step. intros tr0 fn payload results _ A. fields. congruence.
    + do 3 wp_step. intros tr0 fn payload results _ A. fields. congruence.
    + do 7 wp_step. fields.
      eapply wp_conseq; [apply wp_Revised_checkResults |]. cbv beta.
      intros r sD (Hr & TD & SD). fields.
      destruct r as [e |].
      * wp_step. intros tr0 fn payload results' _ A.
        rewrite TD in A. fields.
        match goal with
        | E : lambdaInvoke env _ = InvokeResults _ |- _ =>
            rewrite E in A; inversion A; subst results'
        end.
        rewrite SD. fields.
        split; [reflexivity |]. split; [exact Hr |].
        eexists. eexists. reflexivity.
      * wp_step. apply wp_logMessage_entry. wp_step.
        intros tr0 fn payload results' _ A.
        rewrite TD in A. fields.
        match goal with
        | E : lambdaInvoke env _ = InvokeResults _ |- _ =>
            rewrite E in A; inversion A; subst results'
        end.
        rewrite SD. fields.
        split; [reflexivity |]. split; [exact Hr |].
        eexists. eexists. reflexivity.
Qed.

(** X22.  In the later revision a [callLamda] that got an answer from the
    probe returns what the validator returns: the error for an empty
    list, or the message of the first violating result with its URL, or
    nil.  The last log entry is that error; [tests passed] is logged only
    when nil is returned. *)
Theorem Later_callLamda_reports_verdict (env : Env) (s s' : State)
    (r : option error) (tr0 : list Event) (fn : string)
    (payload : option lambdaEvent) (results : list TestResult.t) :
  Later.callLamda env s = Ok r s' ->
  trace s' = tr0 ++ [EvInvoke fn payload] ->
  lambdaInvoke env (trace s') = InvokeResults results ->
  FlipTester.TestResults (self s') = results /\
  r = verdict results /\
  exists t before,
    FlipTester.log (self s') =
      before ++
      [logEntry t (FlipTester.context (self s')) (FlipTester.StackName (self s'))
                match r with
                | Some e => e
                | None => "tests passed"
                end].
Proof.
  intros H T A.
  exact (wp_run (wp_Later_callLamda env s) H tr0 fn payload results T A).
Qed.

Lemma Later_callLamda_reports_verdict_witness :
  let env := Scenario.account "CREATE_COMPLETE"
               (InvokeResults [Scenario.passing; Scenario.failing]) in
  let r := Later.callLamda env (Scenario.start env Scenario.resume) in
  r = Ok (Some "test failed: https://www.cnn.com/") (res_state r) /\
  FlipTester.TestResults (self (res_state r)) =
    [Scenario.passing; Scenario.failing].
Proof.
  intros env r.
  assert (H : Later.callLamda env (Scenario.start env Scenario.resume) =
              Ok (Some "test failed: https://www.cnn.com/") (res_state r))
    by (vm_compute; reflexivity).
  assert (T : trace (res_state r) =
              [EvDescribeStacks Scenario.stackName; EvSleep 20] ++
              [EvInvoke "egress-tester"
                 (Some (mkLambdaEvent "RunAll" (FlipTesterInput.TestUrls Scenario.resume)))])
    by (vm_compute; reflexivity).
  assert (A : lambdaInvoke env (trace (res_state r)) =
              InvokeResults [Scenario.passing; Scenario.failing])
    by (vm_compute; reflexivity).
  split; [exact H |].
  exact (proj1 (@Later_callLamda_reports_verdict env _ _ _ _ _ _ _ H T A)).
Defined.

Lemma bind_ext {A B : Type} (m : M A) (k1 k2 : A -> M B) (s : State) :
  (forall a s', k1 a s' = k2 a s') -> bind m k1 s = bind m k2 s.
Proof. intros H. unfold bind. destruct (m s); [apply H | reflexivity]. Qed.

(** The body of the later constructor is the body of the earlier one. *)
Lemma Later_New_build (env : Env) (input : FlipTesterInput.t) (s : State) :
  Later.New_build env input s = New_build env input s.
Proof.
  unfold Later.New_build, New_build. cbv zeta.
  do 4 (apply bind_ext; intros ? ?).
  destruct a2 as [e |]; [reflexivity |].
  apply bind_ext; intros _ s1.
  unfold bind, assign, ret, field.
  cbn [withDefaults FlipTesterInput.TestUrls].
  destruct (FlipTesterInput.TestUrls input) as [| u us]; reflexivity.
Qed.

Lemma New_build_returns (env : Env) (input : FlipTesterInput.t) (s : State) :
  exists r s', New_build env input s = Ok r s'.
Proof.
  unfold New_build, bind, assign, ret, field, logMessage, bind, history, assign.
  cbn [withDefaults FlipTesterInput.StackName FlipTesterInput.SubnetId
       FlipTesterInput.VpcId FlipTesterInput.StackPrefix
       FlipTesterInput.TestUrls FlipTesterInput.RetainStack
       FlipTesterInput.StackTemplateFilename].
  destruct (String.eqb (FlipTesterInput.StackName input) "").
  - destruct (String.eqb (FlipTesterInput.SubnetId input) "");
      [eexists; eexists; reflexivity |].
    destruct (String.eqb (FlipTesterInput.VpcId input) "");
      [eexists; eexists; reflexivity |].
    destruct (String.eqb (FlipTesterInput.StackPrefix input) "");
      destruct (length (FlipTesterInput.TestUrls input) <? 1)%nat;
      eexists; eexists; reflexivity.
  - destruct (length (FlipTesterInput.TestUrls input) <? 1)%nat;
      eexists; eexists; reflexivity.
Qed.

(** X23.  The constructor of the later revision never panics.  Given a
    session it returns what the earlier constructor returns.  Given a nil
    session it asks for a new one: when that fails it returns the failure
    and leaves the input as it is, and otherwise it returns what the
    earlier constructor returns for the input with that session. *)
Theorem Later_New_fills_session (env : Env) (NewSession : Session + error)
    (input : FlipTesterInput.t) (tr : list Event) :
  (exists fliptester err input' tr',
     Later.New env NewSession input tr = NewReturned fliptester err input' tr') /\
  match FlipTesterInput.Session input, NewSession with
  | Some _, _ => Later.New env NewSession input tr = New env input tr
  | None, inl sn =>
      Later.New env NewSession input tr =
        New env (Later.withSession (Some sn) input) (tr ++ [EvSessionNew]) /\
      New env input tr = NewPanicked nilDereference (tr ++ [EvSessionNew])
  | None, inr e =>
      Later.New env NewSession input tr =
        NewReturned None (Some e) input (tr ++ [EvSessionNew])
  end.
Proof.
  assert (W : forall input0 tr0,
            exists fliptester err input' tr',
              Later.New_with env input0 tr0 =
                NewReturned fliptester err input' tr').
  { intros input0 tr0. unfold Later.New_with. rewrite Later_New_build.
    destruct (New_build_returns env input0
                (mkState (FlipTester.set_sess (FlipTesterInput.Session input0)
                                              FlipTester.zero) tr0))
      as [[f e] [s' E]].
    rewrite E. now exists f, e, (withDefaults input0), (trace s'). }
  unfold Later.New, New.
  destruct (FlipTesterInput.Session input) as [sn |] eqn:Es.
  - split; [apply W |].
    unfold Later.New_with. rewrite Later_New_build, Es. reflexivity.
  - destruct NewSession as [sn | e].
    + split; [apply W |]. split; [| reflexivity].
      unfold Later.New_with. rewrite Later_New_build. reflexivity.
    + split; [| reflexivity]. eexists. eexists. eexists. eexists. reflexivity.
Qed.

(** ** The probe *)

Lemma timers_started (w : Probe.World) (urls : list TestUrl.t) :
  forall tests c,
    Probe.timers w urls tests c =
      (tests ++ Probe.started w (Probe.reads c) urls,
       Probe.mkCounters (Probe.reads c + length urls) (Probe.fetches c)
                        (Probe.printed c)).
Proof.
  induction urls as [| test rest IH]; intros tests c; simpl.
  - rewrite app_nil_r, Nat.add_0_r. now destruct c.
  - rewrite IH. simpl. rewrite <- app_assoc. simpl.
    now rewrite Nat.add_succ_r.
Qed.

Lemma runAll_results (w : Probe.World) (urls : list TestUrl.t) :
  forall a total response c,
    Probe.runAll w (Probe.started w a urls) total response c =
      Probe.Returned
        (response ++
         map Some (Probe.resultsFrom w a (Probe.reads c) (Probe.fetches c) urls))
        (Probe.mkCounters
           (Probe.reads c + length urls) (Probe.fetches c + length urls)
           (Probe.printed c ++
            Probe.resultsFrom w a (Probe.reads c) (Probe.fetches c) urls)).
Proof.
  induction urls as [| test rest IH]; intros a total response c.
  - simpl. rewrite !app_nil_r, !Nat.add_0_r. now destruct c.
  - simpl. unfold Probe.resultOf.
    destruct (Probe.urlopen w (Probe.fetches c) (TestUrl.Url test)) as [code | e];
      simpl; rewrite IH; simpl;
      rewrite <- !app_assoc, !Nat.add_succ_r; reflexivity.
Qed.

Lemma handler_closed_form (w : Probe.World) (ev : Probe.event)
    (c : Probe.Counters) :
  let urls := Probe.urlsOf ev in
  let n := length urls in
  let results :=
    Probe.resultsFrom w (Probe.reads c) (Probe.reads c + n) (Probe.fetches c) urls in
  Probe.handler w ev c =
    if String.eqb (Probe.RequestType ev) "RunAll"
    then Probe.Returned (map Some results)
           (Probe.mkCounters (Probe.reads c + n + n) (Probe.fetches c + n)
                             (Probe.printed c ++ results))
    else Probe.Returned []
           (Probe.mkCounters (Probe.reads c + n) (Probe.fetches c)
                             (Probe.printed c)).
Proof.
  intros urls n results.
  assert (T : (match Probe.TestUrls ev with
               | Some urls0 => Probe.timers w urls0 [] c
               | None =>
                   let '(t1, c1) := Probe.init w "gopkg" "http://gopkg.in" c in
                   let '(t2, c2) :=
                     Probe.init w "google" "http://www.google.com" c1 in
                   (([] ++ [t1]) ++ [t2], c2)
               end) =
              (Probe.started w (Probe.reads c) urls,
               Probe.mkCounters (Probe.reads c + n) (Probe.fetches c)
                                (Probe.printed c))).
  { subst results n urls. unfold Probe.urlsOf.
    destruct (Probe.TestUrls ev) as [urls0 |].
    - now rewrite timers_started.
    - simpl. now rewrite Nat.add_succ_r, Nat.add_succ_r, Nat.add_0_r. }
  unfold Probe.handler. rewrite T.
  cbn [existsb]. rewrite orb_false_r.
  destruct (String.eqb (Probe.RequestType ev) "RunAll"); [| reflexivity].
  rewrite runAll_results. reflexivity.
Qed.

Lemma nth_error_resultsFrom (w : Probe.World) (urls : list TestUrl.t) :
  forall a b f k,
    nth_error (Probe.resultsFrom w a b f urls) k =
      option_map (Probe.resultOf w (a + k) (b + k) (f + k)) (nth_error urls k).
Proof.
  induction urls as [| test rest IH]; intros a b f k.
  - now destruct k.
  - destruct k as [| k]; simpl.
    + now rewrite !Nat.add_0_r.
    + rewrite IH. now rewrite !Nat.add_succ_r.
Qed.

Lemma resultsFrom_urls (w : Probe.World) (urls : list TestUrl.t) :
  forall a b f,
    map (fun d => TestUrl.mk (TestResult.Name d) (TestResult.Url d))
        (Probe.resultsFrom w a b f urls) = urls.
Proof.
  induction urls as [| [name url] rest IH]; intros a b f; [reflexivity |].
  simpl. rewrite IH. unfold Probe.resultOf. simpl.
  now destruct (Probe.urlopen w f url).
Qed.


(** X25.  Every timer of the handler is started before the first URL is
    fetched: with [n] URLs, the elapsed time of the [k]-th result is the
    difference of the [(n + k)]-th and the [k]-th reading of the clock, so
    it spans the fetches of all URLs before it. *)
Theorem handler_elapsed_spans_earlier_fetches (w : Probe.World)
    (ev : Probe.event) (c c' : Probe.Counters)
    (response : list (option TestResult.t)) (k : nat) (d : TestResult.t) :
  Probe.handler w ev c = Probe.Returned response c' ->
  nth_error response k = Some (Some d) ->
  TestResult.ElapsedTimeS d =
    PrimFloat.sub
      (Probe.time w (Probe.reads c + length (Probe.urlsOf ev) + k))
      (Probe.time w (Probe.reads c + k)).
Proof.
  rewrite handler_closed_form.
  destruct (String.eqb (Probe.RequestType ev) "RunAll").
  - intros H N. inversion H; subst response c'. clear H.
    rewrite nth_error_map, nth_error_resultsFrom in N.
    destruct (nth_error (Probe.urlsOf ev) k) as [test |]; [| discriminate].
    simpl in N. inversion N. unfold Probe.resultOf.
    now destruct (Probe.urlopen w _ _).
  - intros H N. inversion H; subst response. now destruct k.
Qed.

Lemma handler_elapsed_spans_earlier_fetches_witness :
  let w := Probe.mkWorld
             (fun n => match n with
                       | 0%nat | 1%nat => 0%float
                       | 2%nat => 3%float
                       | _ => 5%float
                       end)
             (fun _ _ => inl 200) in
  let ev := Probe.mkEvent "RunAll"
              (Some [TestUrl.mk "cnn" "https://www.cnn.com/";
                     TestUrl.mk "mysite" "http://www.mysite.org/getdata/"]) in
  exists d,
    nth_error
      (match Probe.handler w ev (Probe.mkCounters 0 0 []) with
       | Probe.Returned response _ => response
       | Probe.Raised _ _ => []
       end) 1 = Some (Some d) /\
    TestResult.Url d = "http://www.mysite.org/getdata/" /\
    TestResult.ElapsedTimeS d = PrimFloat.sub 5%float 0%float.
Proof.
  intros w ev.
  pose (c := Probe.mkCounters 0 0 []).
  pose proof (handler_closed_form w ev c) as H. cbv zeta in H.
  change (String.eqb (Probe.RequestType ev) "RunAll") with true in H.
  cbv iota in H.
  pose (d := Probe.resultOf w 1 3 1
               (TestUrl.mk "mysite" "http://www.mysite.org/getdata/")).
  assert (N : nth_error
                (map Some
                   (Probe.resultsFrom w (Probe.reads c)
                      (Probe.reads c + length (Probe.urlsOf ev))
                      (Probe.fetches c) (Probe.urlsOf ev))) 1 =
              Some (Some d)) by reflexivity.
  pose proof (@handler_elapsed_spans_earlier_fetches w ev c _ _ 1 d H N) as E.
  exists d. fold c. rewrite H. split; [exact N |]. split; [reflexivity | exact E].
Defined.

(** X26.  What the handler reports for a URL depends on the fetch alone:
    a fetch that returns counts as a success whatever the response code
    is; a fetch that raises gives a result without success, with the
    response code 0 and the text of the exception in the message, and
    such a result makes [checkResults] fail. *)
Theorem handler_exception_fails_validation (w : Probe.World) (ev : Probe.event)
    (c : Probe.Counters) (k : nat) (test : TestUrl.t) (env : Env) (s : State) :
  Probe.RequestType ev = "RunAll" ->
  nth_error (Probe.urlsOf ev) k = Some test ->
  exists results c' d,
    Probe.handler w ev c = Probe.Returned (map Some results) c' /\
    nth_error results k = Some d /\
    TestResult.Name d = TestUrl.Name test /\
    TestResult.Url d = TestUrl.Url test /\
    match Probe.urlopen w (Probe.fetches c + k) (TestUrl.Url test) with
    | inl code =>
        TestResult.Success d = true /\ TestResult.ResponseCode d = code /\
        TestResult.Message d = "got response code from URL"
    | inr e =>
        TestResult.Success d = false /\ TestResult.ResponseCode d = 0 /\
        TestResult.Message d = String.append "problem getting URL: " e /\
        exists msg s', checkResults env results s = Ok (false, Some msg) s'
    end.
Proof.
  intros HR Hk. rewrite handler_closed_form. rewrite HR.
  change (String.eqb "RunAll" "RunAll") with true. cbv iota.
  eexists. eexists. eexists. split; [reflexivity |].
  assert (N := nth_error_resultsFrom w (Probe.urlsOf ev) (Probe.reads c)
                 (Probe.reads c + length (Probe.urlsOf ev)) (Probe.fetches c) k).
  rewrite Hk in N. simpl in N.
  split; [exact N |].
  unfold Probe.resultOf.
  destruct (Probe.urlopen w (Probe.fetches c + k) (TestUrl.Url test))
    as [code | e] eqn:Eu; simpl.
  - now repeat split.
  - repeat split.
    apply checkResults_rejects. apply existsb_exists.
    eexists. split; [exact (nth_error_In _ _ N) |].
    unfold Probe.resultOf. now rewrite Eu.
Qed.

Lemma handler_exception_fails_validation_witness :
  let w := Probe.mkWorld (fun _ => 0%float)
             (fun n _ => match n with
                         | 0%nat => inl 200
                         | _ => inr "<urlopen error timed out>"
                         end) in
  let ev := Probe.mkEvent "RunAll"
              (Some [TestUrl.mk "cnn" "https://www.cnn.com/";
                     TestUrl.mk "mysite" "http://www.mysite.org/getdata/"]) in
  let env := Scenario.account "CREATE_COMPLETE" (InvokeResults []) in
  exists results c' msg s',
    Probe.handler w ev (Probe.mkCounters 0 0 []) =
      Probe.Returned (map Some results) c' /\
    checkResults env results (mkState FlipTester.zero []) =
      Ok (false, Some msg) s'.
Proof.
  intros w ev env.
  destruct (@handler_exception_fails_validation w ev (Probe.mkCounters 0 0 []) 1
              (TestUrl.mk "mysite" "http://www.mysite.org/getdata/")
              env (mkState FlipTester.zero []) eq_refl eq_refl)
    as (results & c' & d & H & _ & _ & _ & M).
  cbv beta iota in M. destruct M as (_ & _ & _ & msg & s' & V).
  now exists results, c', msg, s'.
Defined.

(** ** The sample program *)

(** The tester [New] returns: the requests are as before, the stack is
    retained as the input says, and it counts as created exactly when the
    input names it. *)
Lemma New_tester_flags (env : Env) (input : FlipTesterInput.t) (tr tr' : list Event)
    (ft : FlipTester.t) (err : option error) (input' : FlipTesterInput.t) :
  New env input tr = NewReturned (Some ft) err input' tr' ->
  tr' = tr /\
  FlipTester.RetainStack ft = FlipTesterInput.RetainStack input /\
  FlipTester.stackCreated ft =
    negb (String.eqb (FlipTesterInput.StackName input) "").
Proof.
  unfold New. destruct (FlipTesterInput.Session input) as [sn |]; [| discriminate].
  unfold New_build, bind, assign, logMessage, bind, history, assign, field, ret.
  simpl.
  destruct (String.eqb (FlipTesterInput.StackName input) ""); simpl.
  - destruct (String.eqb (FlipTesterInput.SubnetId input) ""); simpl;
      [discriminate |].
    destruct (String.eqb (FlipTesterInput.VpcId input) ""); simpl;
      [discriminate |].
    destruct (String.eqb (FlipTesterInput.StackPrefix input) ""); simpl;
      destruct (length (FlipTesterInput.TestUrls input) <? 1)%nat; simpl;
      intros H; inversion H; now repeat split.
  - destruct (length (FlipTesterInput.TestUrls input) <? 1)%nat; simpl;
      intros H; inversion H; now repeat split.
Qed.

(** A run of [Test] on a tester that retains its stack. *)
Lemma Test_retained (env : Env) (s : State) :
  FlipTester.RetainStack (self s) = true ->
  exists r s' evs,
    Test env s = Ok r s' /\ trace s' = trace s ++ evs /\
    sent isDelete evs = 0%nat /\
    (FlipTester.stackCreated (self s) = true -> sent isCreate evs = 0%nat).
Proof.
  intros HR.
  destruct (Test_phases env s) as [r1 [s1 [E1 H1]]].
  assert (O1 : forall p, (forall n, p (EvSleep n) = true) ->
               (forall name, p (EvDescribeStacks name) = true) ->
               (forall f, p (EvReadFile f) = true) ->
               (forall i, p (EvCreateStack i) = true) ->
               exists evs1, trace s1 = trace s ++ evs1 /\ forallb p evs1 = true).
  { intros p p1 p2 p3 p4.
    destruct (only_Test_start env p p1 p2 p3 p4 s) as [evs1 [T F]].
    rewrite E1 in T. now exists evs1. }
  destruct (O1 (fun ev => negb (isDelete ev))) as [evs1 [T1 F1]];
    try reflexivity.
  assert (C1 : FlipTester.stackCreated (self s) = true ->
               evs1 = []).
  { intros Hc. destruct (Test_start_created env s Hc) as [s1' [E1' [T1' _]]].
    rewrite E1 in E1'. inversion E1'; subst s1'.
    rewrite T1' in T1. rewrite <- (app_nil_r (trace s)) in T1 at 1.
    now apply app_inv_head in T1. }
  destruct r1 as [e |].
  { exists (Some e), s1, evs1. split; [exact H1 |]. split; [exact T1 |].
    split; [now apply sent_only |]. intros Hc. now rewrite (C1 Hc). }
  destruct H1 as [r2 [s2 [E2 H2]]].
  assert (O2 : forall p, (forall n, p (EvSleep n) = true) ->
               (forall name, p (EvDescribeStacks name) = true) ->
               (forall fn payload, p (EvInvoke fn payload) = true) ->
               exists evs2, trace s2 = trace s1 ++ evs2 /\ forallb p evs2 = true).
  { intros p p1 p2 p3.
    destruct (only_Test_invoke env p p1 p2 p3 s1) as [evs2 [T F]].
    rewrite E2 in T. now exists evs2. }
  destruct (O2 (fun ev => negb (isDelete ev))) as [evs2 [T2 F2]];
    try reflexivity.
  destruct (O2 (fun ev => negb (isCreate ev))) as [evs2' [T2' F2']];
    try reflexivity.
  assert (evs2' = evs2) by (rewrite T2 in T2'; now apply app_inv_head in T2').
  subst evs2'.
  assert (D : sent isDelete (evs1 ++ evs2) = 0%nat)
    by (rewrite sent_app, (sent_only _ _ F1), (sent_only _ _ F2); reflexivity).
  assert (C : FlipTester.stackCreated (self s) = true ->
              sent isCreate (evs1 ++ evs2) = 0%nat)
    by (intros Hc; rewrite (C1 Hc); simpl; now apply sent_only).
  assert (T12 : trace s2 = trace s ++ evs1 ++ evs2)
    by (now rewrite T2, T1, app_assoc).
  destruct r2 as [e |].
  { exists (Some e), s2, (evs1 ++ evs2). now repeat split. }
  destruct H2 as [r3 [s3 [E3 H3]]].
  assert (HR2 : FlipTester.RetainStack (self s2) = true)
    by (rewrite (RetainStack_before_teardown env s E1 E2); exact HR).
  destruct (only_Test_teardown_retained env s2 HR2) as [s3' [E3' [T3 _]]].
  rewrite E3 in E3'. inversion E3'; subst r3 s3'.
  exists None, s3, (evs1 ++ evs2). split; [exact H3 |].
  split; [congruence |]. now split.
Qed.

(** With a session [New] returns an error and no tester, for want of a
    subnet or a VPC, or a tester and no error. *)
Lemma New_cases (env : Env) (input : FlipTesterInput.t) (tr : list Event)
    (sn : Session) :
  FlipTesterInput.Session input = Some sn ->
  (exists e,
     New env input tr = NewReturned None (Some e) (withDefaults input) tr /\
     FlipTesterInput.StackName input = "" /\
     (FlipTesterInput.SubnetId input = "" \/ FlipTesterInput.VpcId input = "")) \/
  (exists ft,
     New env input tr = NewReturned (Some ft) None (withDefaults input) tr /\
     FlipTester.RetainStack ft = FlipTesterInput.RetainStack input /\
     FlipTester.stackCreated ft =
       negb (String.eqb (FlipTesterInput.StackName input) "") /\
     FlipTester.StackName ft = FlipTesterInput.StackName input).
Proof.
  intros Hs. rewrite (New_with_session env input tr Hs).
  unfold New_build, bind, assign, logMessage, bind, history, assign, field, ret.
  simpl.
  destruct (String.eqb_spec (FlipTesterInput.StackName input) "") as [En | Nn];
    simpl.
  - destruct (String.eqb_spec (FlipTesterInput.SubnetId input) "") as [Es | Ns];
      simpl; [left; eexists; split; [reflexivity | split; [exact En | now left]] |].
    destruct (String.eqb_spec (FlipTesterInput.VpcId input) "") as [Ev | Nv];
      simpl; [left; eexists; split; [reflexivity | split; [exact En | now right]] |].
    destruct (String.eqb (FlipTesterInput.StackPrefix input) ""); simpl;
      destruct (length (FlipTesterInput.TestUrls input) <? 1)%nat; simpl;
      right; eexists; repeat split; now rewrite En.
  - destruct (length (FlipTesterInput.TestUrls input) <? 1)%nat; simpl;
      right; eexists; repeat split.
Qed.

Lemma requests_report (err : option error) (out : list Sample.Printed)
    (s : State) :
  Sample.requests (Sample.report err out s) = trace s.
Proof.
  unfold Sample.report, GetLog, bind, field, ret.
  destruct err; reflexivity.
Qed.


Lemma report_finishes (err : option error) (out : list Sample.Printed)
    (s : State) :
  exists rest,
    Sample.report err out s =
      Sample.Finished
        (out ++ Sample.Line "Printing log:" ::
                Sample.Line (strings.Join (FlipTester.log (self s))
                               (String (ascii_of_nat 10) EmptyString)) :: rest)
        (trace s) /\
    match err with
    | Some e => exists body, rest = Sample.Line e :: body
    | None => True
    end.
Proof.
  unfold Sample.report, GetLog, bind, field, ret.
  destruct err as [e |]; eexists; rewrite <- !app_assoc; cbn [app];
    (split; [reflexivity |]); [eexists; reflexivity | exact I].
Qed.



(** ** The earlier revision *)

Lemma Earlier_watchStack_first_poll (env : Env) (stackID : string) (n : nat)
    (s : State) (r : option cloudformation.Stack * option error) :
  pollOutcome (cfDescribeStacks env (trace s ++ [EvDescribeStacks stackID])) None
    = Some r ->
  exists lg,
    Earlier.watchStack_loop env stackID (S n) None s =
      Ok r (mkState (FlipTester.set_log lg (self s))
                    (trace s ++ [EvDescribeStacks stackID])).
Proof.
  intros H. simpl.
  unfold bind, Earlier.logAppend, assign, request, ret. fields.
  unfold pollOutcome in H.
  destruct (cfDescribeStacks env (trace s ++ [EvDescribeStacks stackID]))
    as [[| stack0 rest] | e].
  - inversion H. eexists. reflexivity.
  - unfold terminalStatus, failureStatus in H. cbn [existsb] in H.
    repeat match goal with
           | |- context [String.eqb ?a ?b] =>
               let E := fresh "E" in
               destruct (String.eqb a b) eqn:E;
               [rewrite ?orb_true_r in H; cbn [orb] in H; inversion H;
                eexists; reflexivity |]
           end.
    discriminate H.
  - inversion H. eexists. reflexivity.
Qed.


